(** * A basic tool-calling agent loop (01_basic_agent.ipynb)

    Shallow embedding of the [AgentConfig] model and of the four steps of
    the [BasicAgent] workflow ([setup], [speak_with_agent],
    [handle_tool_call], [aggregate_tool_results]), together with a model
    of the event loop that drives them.

    Python objects that are mutated in place (the chat-history list) live
    in an explicit heap and are passed around by reference; everything
    else is a value.  A string is the sequence of its characters, each a
    code point below 256. *)

From stdpp Require Import base strings gmap list pretty.
From Stdlib Require Import ZArith.

Open Scope string_scope.
Open Scope list_scope.
Open Scope nat_scope.

(** ** Python values, [str] and [repr] *)

Inductive PyValue :=
  | VNone
  | VBool (b : bool)
  | VInt (z : Z)
  | VStr (s : string).

(** A [dict] keeps its items in insertion order. *)
Definition pydict := list (string * PyValue).

Definition LF : string := String (Ascii.ascii_of_nat 10) EmptyString.

(** [sep.join(parts)] *)
Fixpoint join (sep : string) (parts : list string) : string :=
  match parts with
  | [] => ""
  | [p] => p
  | p :: rest => p +:+ sep +:+ join sep rest
  end.

(** [str(v)], as used by an f-string field [{v}]. *)
Definition py_str (v : PyValue) : string :=
  match v with
  | VNone => "None"
  | VBool true => "True"
  | VBool false => "False"
  | VInt z => pretty z
  | VStr s => s
  end.

(** [repr(v)]; for a string this is the single-quoted form, which is what
    Python prints when the string has no quote, backslash or control
    character in it. *)
Definition py_repr (v : PyValue) : string :=
  match v with
  | VStr s => "'" +:+ s +:+ "'"
  | _ => py_str v
  end.

(** [str(d)] of a dict, as used by the f-string field [{tool_call.tool_kwargs}]. *)
Definition dict_str (d : pydict) : string :=
  "{" +:+ join ", " (map (λ kv, py_repr (VStr kv.1) +:+ ": " +:+ py_repr kv.2) d) +:+ "}".

(** [c.isspace()]: among the code points below 256 the white space is
    9 to 13, 28 to 32, 133 (next line) and 160 (no-break space). *)
Definition isspace (c : Ascii.ascii) : bool :=
  let n := Ascii.nat_of_ascii c in
  (((9 <=? n) && (n <=? 13)) || ((28 <=? n) && (n <=? 32))
   || (n =? 133) || (n =? 160))%nat.

Fixpoint lstrip (s : string) : string :=
  match s with
  | EmptyString => EmptyString
  | String c s' => if isspace c then lstrip s' else s
  end.

Fixpoint rstrip (s : string) : string :=
  match s with
  | EmptyString => EmptyString
  | String c s' =>
      match rstrip s' with
      | EmptyString => if isspace c then EmptyString else String c EmptyString
      | r => String c r
      end
  end.

(** [s.strip()] *)
Definition strip (s : string) : string := rstrip (lstrip s).

(** ** Exceptions *)

Inductive ExnClass :=
  | ValueError
  | AttributeError
  | TypeError
  | ZeroDivisionError
  | RuntimeError
  | KeyboardInterrupt
  | SystemExit.

(** [isinstance(e, Exception)]: the last two classes derive from
    [BaseException] only, and [except Exception] lets them through. *)
Definition is_Exception (c : ExnClass) : bool :=
  match c with
  | KeyboardInterrupt | SystemExit => false
  | _ => true
  end.

(** An exception object: its class and [str(e)]. *)
Record Exn := mkExn { exn_class : ExnClass; exn_str : string }.

Inductive Result (A : Type) :=
  | Ok (a : A)
  | Raise (e : Exn).
Arguments Ok {A} a.
Arguments Raise {A} e.

(** ** Chat messages, tools, agent configuration *)

Inductive MessageRole := SYSTEM | USER | ASSISTANT | TOOL.

Record ChatMessage := mkChatMessage {
  role : MessageRole;
  content : option string;
  additional_kwargs : list (string * string)
}.

Inductive ToolOutcome :=
  | Returns (output_content : string)
  | Raises (e : Exn).

(** A [BaseTool]: [metadata.get_name()] and the effect of [acall] on its
    keyword arguments, which is to return an output with its [content] or
    to raise. *)
Record Tool := mkTool {
  get_name : string;
  acall : pydict → ToolOutcome
}.

(** [ToolSelection], one tool-call directive of a model response. *)
Record ToolSelection := mkToolSelection {
  tool_id : string;
  tool_name : string;
  tool_kwargs : pydict
}.

(** [class AgentConfig(BaseModel)]; [None] is the default of the two
    optional fields. *)
Record AgentConfig := mkAgentConfig {
  name : string;
  description : string;
  system_prompt : option string;
  tools : option (list Tool)
}.

(** [AgentConfig(name=..., description=..., system_prompt=..., tools=...)]:
    pydantic checks the declared fields.  [name] and [description] are
    required strings, so a call that leaves one out or passes [None] for it
    fails validation; the two other fields accept [None].  The class
    declares no validator of its own. *)
Definition AgentConfig_new (name description system_prompt : option string)
    (tools : option (list Tool)) : Result AgentConfig :=
  match name, description with
  | Some name, Some description =>
      Ok (mkAgentConfig name description system_prompt tools)
  | _, _ => Raise (mkExn ValueError "validation error for AgentConfig")
  end.

(** ** The language model (external collaborator) *)

Record ChatResponse := mkChatResponse {
  message : ChatMessage;
  raw : list ToolSelection
}.

(** [achat_with_tools] answers the tool list and the messages it is
    given.  Within a run the messages grow with every call, so no two
    calls of a run have the same input, and a function of the input can
    stand for any sequence of answers.  The model is one whose calls
    return: a call that raises (a failure of the network, say) would
    abort the run at the model-call stage, before anything is appended to
    the chat history, and is not part of this model. *)
Record LLM := mkLLM {
  is_function_calling_model : bool;
  achat_with_tools : option (list Tool) → list ChatMessage → ChatResponse;
  get_tool_calls_from_response : ChatResponse → list ToolSelection
}.

(** ** Events *)

Definition loc := positive.

(** A keyword argument of [workflow.run(...)]: left out, or given (where
    the value given may be [None]). *)
Inductive kwarg (A : Type) :=
  | Omitted
  | Given (v : option A).
Arguments Omitted {A}.
Arguments Given {A} v.

(** [ev.get(key, default)] *)
Definition ev_get {A} (k : kwarg A) (default : option A) : option A :=
  match k with
  | Omitted => default
  | Given v => v
  end.

Record StartEvent := mkStartEvent {
  ev_agent_config : kwarg AgentConfig;
  ev_user_msg : kwarg string;
  ev_llm : kwarg LLM;
  ev_chat_history : kwarg loc;
  ev_initial_state : kwarg pydict
}.

(** The [result] dict of the [StopEvent]. *)
Record RunResult := mkRunResult {
  response : option string;
  chat_history : loc
}.

Inductive Event :=
  | StartEv (ev : StartEvent)
  | LLMCallEvent
  | ToolCallEvent (tool_call : ToolSelection) (ev_tools : option (list Tool))
  | ToolCallResultEvent (chat_message : ChatMessage)
  | StopEvent (result : RunResult).

Record ProgressEvent := mkProgressEvent { msg : string }.

(** ** The world: heap of list objects, workflow context, model-call log *)

(** The workflow [Context].  A key that was never [set] is [None]; the two
    keys whose value may be Python's [None] hold an option themselves. *)
Record Context := mkContext {
  ctx_agent_config : option (option AgentConfig);
  ctx_llm : option LLM;
  ctx_chat_history : option loc;
  ctx_user_state : option (option pydict);
  ctx_num_tool_calls : option nat;
  events_buffer : list ChatMessage;
  queue : list Event;
  stream : list ProgressEvent
}.

Record World := mkWorld {
  heap : gmap loc (list ChatMessage);
  ctx : Context;
  llm_calls : list (list ChatMessage)
}.

Definition empty_context : Context :=
  mkContext None None None None None [] [] [].

(** ** The monad of steps: state that survives a raised exception *)

Definition M (A : Type) : Type := World → Result A * World.

Global Instance M_ret : MRet M := λ A a w, (Ok a, w).
Global Instance M_bind : MBind M := λ A B f m w,
  match m w with
  | (Ok a, w') => f a w'
  | (Raise e, w') => (Raise e, w')
  end.

Definition raise {A} (e : Exn) : M A := λ w, (Raise e, w).

(** [try: body  except Exception as e: handler(e)] *)
Definition try_except {A} (body : M A) (handler : Exn → M A) : M A := λ w,
  match body w with
  | (Raise e, w') =>
      if is_Exception (exn_class e) then handler e w' else (Raise e, w')
  | r => r
  end.

(** [for x in xs: body(x)] *)
Fixpoint for_each {A} (xs : list A) (body : A → M unit) : M unit :=
  match xs with
  | [] => mret ()
  | x :: rest => body x ;; for_each rest body
  end.

Definition modify_ctx (f : Context → Context) : M unit := λ w,
  (Ok (), mkWorld (heap w) (f (ctx w)) (llm_calls w)).

Definition read_ctx {A} (f : Context → A) : M A := λ w, (Ok (f (ctx w)), w).

(** [await ctx.get(key)]: a key that was never set raises. *)
Definition ctx_get {A} (key : string) (field : Context → option A) : M A := λ w,
  match field (ctx w) with
  | Some v => (Ok v, w)
  | None => (Raise (mkExn ValueError ("Key '" +:+ key +:+ "' not found in Context")), w)
  end.

(** Attribute access [obj.attr] on a value that may be [None]. *)
Definition getattr {A} (obj : option A) (attr : string) : M A :=
  match obj with
  | Some o => mret o
  | None =>
      raise (mkExn AttributeError ("'NoneType' object has no attribute '" +:+ attr +:+ "'"))
  end.

(** [for x in obj] on a value that may be [None]. *)
Definition iter {A} (obj : option (list A)) : M (list A) :=
  match obj with
  | Some xs => mret xs
  | None => raise (mkExn TypeError "'NoneType' object is not iterable")
  end.

(** A fresh empty list object, [[]]. *)
Definition list_new : M loc := λ w,
  let l := fresh (dom (heap w)) in
  (Ok l, mkWorld (<[l := []]> (heap w)) (ctx w) (llm_calls w)).

(** [lst.append(m)] on the list object at [l]. *)
Definition list_append (l : loc) (m : ChatMessage) : M unit := λ w,
  (Ok (), mkWorld (alter (λ xs, xs ++ [m]) l (heap w)) (ctx w) (llm_calls w)).

(** The current elements of the list object at [l]. *)
Definition list_read (l : loc) : M (list ChatMessage) := λ w,
  (Ok (default [] (heap w !! l)), w).

(** [await llm.achat_with_tools(tools, chat_history=llm_input)]; the call
    is recorded in [llm_calls]. *)
Definition call_llm (llm : LLM) (tools : option (list Tool))
    (llm_input : list ChatMessage) : M ChatResponse := λ w,
  (Ok (achat_with_tools llm tools llm_input),
   mkWorld (heap w) (ctx w) (llm_calls w ++ [llm_input])).

(** [await tool.acall] on the keyword arguments [kwargs] *)
Definition call_tool (t : Tool) (kwargs : pydict) : M string :=
  match acall t kwargs with
  | Returns c => mret c
  | Raises e => raise e
  end.

Definition ctx_set_agent_config (v : option AgentConfig) : M unit :=
  modify_ctx (λ c, mkContext (Some v) (ctx_llm c) (ctx_chat_history c)
    (ctx_user_state c) (ctx_num_tool_calls c) (events_buffer c) (queue c) (stream c)).
Definition ctx_set_llm (v : LLM) : M unit :=
  modify_ctx (λ c, mkContext (ctx_agent_config c) (Some v) (ctx_chat_history c)
    (ctx_user_state c) (ctx_num_tool_calls c) (events_buffer c) (queue c) (stream c)).
Definition ctx_set_chat_history (v : loc) : M unit :=
  modify_ctx (λ c, mkContext (ctx_agent_config c) (ctx_llm c) (Some v)
    (ctx_user_state c) (ctx_num_tool_calls c) (events_buffer c) (queue c) (stream c)).
Definition ctx_set_user_state (v : option pydict) : M unit :=
  modify_ctx (λ c, mkContext (ctx_agent_config c) (ctx_llm c) (ctx_chat_history c)
    (Some v) (ctx_num_tool_calls c) (events_buffer c) (queue c) (stream c)).
Definition ctx_set_num_tool_calls (v : nat) : M unit :=
  modify_ctx (λ c, mkContext (ctx_agent_config c) (ctx_llm c) (ctx_chat_history c)
    (ctx_user_state c) (Some v) (events_buffer c) (queue c) (stream c)).
Definition set_events_buffer (v : list ChatMessage) : M unit :=
  modify_ctx (λ c, mkContext (ctx_agent_config c) (ctx_llm c) (ctx_chat_history c)
    (ctx_user_state c) (ctx_num_tool_calls c) v (queue c) (stream c)).
Definition set_queue (v : list Event) : M unit :=
  modify_ctx (λ c, mkContext (ctx_agent_config c) (ctx_llm c) (ctx_chat_history c)
    (ctx_user_state c) (ctx_num_tool_calls c) (events_buffer c) v (stream c)).

(** [ctx.send_event(ev)] *)
Definition send_event (ev : Event) : M unit :=
  q ← read_ctx queue; set_queue (q ++ [ev]).

(** [ctx.write_event_to_stream(ev)] *)
Definition write_event_to_stream (ev : ProgressEvent) : M unit :=
  modify_ctx (λ c, mkContext (ctx_agent_config c) (ctx_llm c) (ctx_chat_history c)
    (ctx_user_state c) (ctx_num_tool_calls c) (events_buffer c) (queue c) (stream c ++ [ev])).

(** ** The steps of [BasicAgent] *)

Definition user_state_line (kv : string * PyValue) : string :=
  kv.1 +:+ ": " +:+ py_str kv.2.

(** The content of the system message built by [speak_with_agent]. *)
Definition system_message_content (prompt : string) (items : pydict) : string :=
  let user_state_str := join LF (map user_state_line items) in
  strip prompt
    +:+ (LF +:+ LF +:+ "Here is the current user state:" +:+ LF +:+ user_state_str).

(** The [additional_kwargs] dict of a tool message. *)
Definition tool_additional_kwargs (tool_call : ToolSelection) (tool_nm : string)
    : list (string * string) :=
  [("tool_call_id", tool_id tool_call); ("name", tool_nm)].

(** [{tool.metadata.get_name(): tool for tool in tools}]: a later tool
    overwrites an earlier one of the same name. *)
Definition tools_by_name (ts : list Tool) : gmap string Tool :=
  foldl (λ d t, <[get_name t := t]> d) ∅ ts.

Definition progress_msg (tool_call : ToolSelection) (tool_msg : ChatMessage) : string :=
  "Tool " +:+ tool_name tool_call +:+ " called with " +:+ dict_str (tool_kwargs tool_call)
    +:+ " returned " +:+ py_str (from_option VStr VNone (content tool_msg)).

(** Modelled from the spec: [Context.collect_events] belongs to the
    workflow framework, which is not part of the notebook.  It is the join
    barrier of the aggregation stage: the arriving event is buffered; one
    buffered event is taken for each of the [expected] ones; when all of
    them are there they are handed out, otherwise they go back to the
    buffer and nothing is returned. *)
Definition collect_events (ev : ChatMessage) (expected : nat)
    : M (option (list ChatMessage)) :=
  buf ← read_ctx events_buffer;
  let buf := buf ++ [ev] in
  let retval := take expected buf in
  let rest := drop expected buf in
  if bool_decide (length retval = expected)
  then set_events_buffer rest ;; mret (Some retval)
  else set_events_buffer (rest ++ retval) ;; mret None.

(** [not results], for [results] a list or [None]. *)
Definition falsy {A} (results : option (list A)) : bool :=
  match results with
  | None | Some [] => true
  | Some (_ :: _) => false
  end.

Section Workflow.

(** [OpenAI(model="gpt-4o", temperature=0.3)], the default of the [llm]
    argument. *)
Variable OpenAI_default : LLM.

(** The order in which pending events are picked up: at each turn the
    scheduler names a position in the queue. *)
Variable sched : nat → list Event → nat.

Definition setup (ev : StartEvent) : M (option Event) :=
  let agent_config := ev_get (ev_agent_config ev) None in
  let user_msg := ev_get (ev_user_msg ev) None in
  let llm := ev_get (ev_llm ev) (Some OpenAI_default) in
  (* [default=[]]: the fresh list is allocated only when it is used *)
  chat_history ← match ev_chat_history ev with
                 | Omitted => l ← list_new; mret (Some l)
                 | Given v => mret v
                 end;
  let initial_state := ev_get (ev_initial_state ev) (Some []) in
  match user_msg, llm, chat_history with
  | Some user_msg, Some llm, Some chat_history =>
      if negb (is_function_calling_model llm)
      then raise (mkExn ValueError "LLM must be a function calling model!")
      else
        ctx_set_agent_config agent_config ;;
        ctx_set_llm llm ;;
        list_append chat_history (mkChatMessage USER (Some user_msg) []) ;;
        ctx_set_chat_history chat_history ;;
        ctx_set_user_state initial_state ;;
        mret (Some LLMCallEvent)
  | _, _, _ =>
      raise (mkExn ValueError "User message, llm, and chat_history are required!")
  end.

Definition speak_with_agent : M (option Event) :=
  agent_config ← ctx_get "agent_config" ctx_agent_config;
  chat_history ← ctx_get "chat_history" ctx_chat_history;
  llm ← ctx_get "llm" ctx_llm;
  user_state ← ctx_get "user_state" ctx_user_state;
  items ← getattr user_state "items";
  cfg ← getattr agent_config "system_prompt";
  prompt ← getattr (system_prompt cfg) "strip";
  let system_prompt := system_message_content prompt items in
  history ← list_read chat_history;
  let llm_input := mkChatMessage SYSTEM (Some system_prompt) [] :: history in
  let tools := tools cfg in
  response ← call_llm llm tools llm_input;
  let tool_calls := get_tool_calls_from_response llm response in
  if bool_decide (length tool_calls = 0) then
    list_append chat_history (message response) ;;
    ctx_set_chat_history chat_history ;;
    mret (Some (StopEvent (mkRunResult (content (message response)) chat_history)))
  else
    ctx_set_num_tool_calls (length tool_calls) ;;
    for_each tool_calls (λ tool_call,
      send_event (ToolCallEvent tool_call (tools))) ;;
    list_append chat_history (message response) ;;
    ctx_set_chat_history chat_history ;;
    mret None.

Definition handle_tool_call (tool_call : ToolSelection) (ev_tools : option (list Tool))
    : M (option Event) :=
  ts ← iter ev_tools;
  let tools_by_name := tools_by_name ts in
  let tool_msg : option ChatMessage := None in
  let tool := tools_by_name !! tool_name tool_call in
  tool_nm ← (t ← getattr tool "metadata"; mret (get_name t));
  let additional_kwargs := tool_additional_kwargs tool_call tool_nm in
  (* [if not tool:] this message is replaced by the [try] statement below *)
  let tool_msg :=
    if negb (bool_decide (is_Some tool))
    then Some (mkChatMessage TOOL
                 (Some ("Tool " +:+ tool_name tool_call +:+ " does not exist"))
                 additional_kwargs)
    else tool_msg in
  tool_msg ← try_except
    (t ← getattr tool "acall";
     tool_output ← call_tool t (tool_kwargs tool_call);
     mret (mkChatMessage TOOL (Some tool_output) additional_kwargs))
    (λ e,
     mret (mkChatMessage TOOL
             (Some ("Encountered error in tool call: " +:+ exn_str e))
             additional_kwargs));
  write_event_to_stream (mkProgressEvent (progress_msg tool_call tool_msg)) ;;
  mret (Some (ToolCallResultEvent tool_msg)).

Definition aggregate_tool_results (chat_message : ChatMessage) : M (option Event) :=
  num_tool_calls ← ctx_get "num_tool_calls" ctx_num_tool_calls;
  results ← collect_events chat_message num_tool_calls;
  if falsy results then mret None
  else
    chat_history ← ctx_get "chat_history" ctx_chat_history;
    for_each (default [] results) (λ result, list_append chat_history result) ;;
    ctx_set_chat_history chat_history ;;
    mret (Some LLMCallEvent).

(** ** The event loop *)

(** Each event is handled by the step that accepts its type. *)
Definition dispatch (ev : Event) : M (option Event) :=
  match ev with
  | StartEv s => setup s
  | LLMCallEvent => speak_with_agent
  | ToolCallEvent tool_call ev_tools => handle_tool_call tool_call ev_tools
  | ToolCallResultEvent chat_message => aggregate_tool_results chat_message
  | StopEvent result => mret (Some (StopEvent result))
  end.

Inductive Outcome :=
  | Finished (result : RunResult)
  | Aborted (e : Exn)
  | Stalled
  | OutOfFuel.

(** Take the event at position [i] out of the queue (the first one when
    [i] is out of range). *)
Definition pick (i : nat) (q : list Event) : option (Event * list Event) :=
  match q !! i with
  | Some ev => Some (ev, delete i q)
  | None =>
      match q with
      | [] => None
      | ev :: rest => Some (ev, rest)
      end
  end.

(** Modelled from the spec: the event loop of the workflow framework,
    which is not part of the notebook.  Pending events wait in a queue; at
    each turn one of them is picked and handled by its step; an event the
    step returns joins the queue; a [StopEvent] ends the run with its
    result, an exception raised by a step aborts it, and a run with no
    pending event makes no further progress.  The order of handling is
    left to the scheduler, which stands for the concurrency of the steps;
    [fuel] bounds the number of turns (the framework's own bound is a
    timeout in real time). *)
Fixpoint run_loop (fuel : nat) (w : World) : Outcome * World :=
  match fuel with
  | 0 => (OutOfFuel, w)
  | S fuel' =>
      match pick (sched fuel' (queue (ctx w))) (queue (ctx w)) with
      | None => (Stalled, w)
      | Some (ev, rest) =>
          match (set_queue rest ;; dispatch ev) w with
          | (Raise e, w') => (Aborted e, w')
          | (Ok (Some (StopEvent result)), w') => (Finished result, w')
          | (Ok (Some ev'), w') => run_loop fuel' (send_event ev' w').2
          | (Ok None, w') => run_loop fuel' w'
          end
      end
  end.

(** [workflow.run] with the keyword arguments [kwargs], against the
    caller's heap. *)
Definition run (fuel : nat) (h : gmap loc (list ChatMessage)) (kwargs : StartEvent)
    : Outcome * World :=
  run_loop fuel
    (mkWorld h (mkContext None None None None None [] [StartEv kwargs] []) []).

End Workflow.

(** ** Vocabulary of the specification *)

(** [s.split(LF)]: the lines of a string. *)
Fixpoint split_lines (s : string) : list string :=
  match s with
  | EmptyString => [EmptyString]
  | String c s' =>
      if Ascii.eqb c (Ascii.ascii_of_nat 10) then EmptyString :: split_lines s'
      else match split_lines s' with
           | [] => [String c EmptyString]
           | line :: rest => String c line :: rest
           end
  end.

Fixpoint single_line (s : string) : bool :=
  match s with
  | EmptyString => true
  | String c s' => negb (Ascii.eqb c (Ascii.ascii_of_nat 10)) && single_line s'
  end.

(** What [speak_with_agent] sends to the model when the conversation so
    far is [hist]: the tool list and the messages.  [None] when building
    the system message raises. *)
Definition model_input (ac : option AgentConfig) (us : option pydict)
    (hist : list ChatMessage) : option (option (list Tool) * list ChatMessage) :=
  items ← us;
  cfg ← ac;
  prompt ← system_prompt cfg;
  Some (tools cfg,
        mkChatMessage SYSTEM (Some (system_message_content prompt items)) [] :: hist).

Definition model_response (llm : LLM) (ac : option AgentConfig) (us : option pydict)
    (hist : list ChatMessage) : option ChatResponse :=
  inp ← model_input ac us hist;
  Some (achat_with_tools llm inp.1 inp.2).

(** The tool message [handle_tool_call] returns for a tool call, when it
    returns one: the output of the tool found under the name, or the
    description of the error it raised.  [None] when the step raises. *)
Definition tool_message_of (ev_tools : option (list Tool)) (tool_call : ToolSelection)
    : option ChatMessage :=
  ts ← ev_tools;
  t ← tools_by_name ts !! tool_name tool_call;
  match acall t (tool_kwargs tool_call) with
  | Returns c =>
      Some (mkChatMessage TOOL (Some c) (tool_additional_kwargs tool_call (get_name t)))
  | Raises e =>
      if is_Exception (exn_class e)
      then Some (mkChatMessage TOOL
                   (Some ("Encountered error in tool call: " +:+ exn_str e))
                   (tool_additional_kwargs tool_call (get_name t)))
      else None
  end.

(** The parties of one run: the model, the configuration, the user state,
    the chat-history list object, its content once the user message is
    appended, and the rest of the heap. *)
Record Conversation := mkConversation {
  conv_llm : LLM;
  conv_config : option AgentConfig;
  conv_user_state : option pydict;
  conv_loc : loc;
  conv_base : list ChatMessage;
  conv_heap : gmap loc (list ChatMessage)
}.

(** The tool list of the configuration, as the tool-call events carry it. *)
Definition conv_tools (C : Conversation) : option (list Tool) :=
  cfg ← conv_config C; tools cfg.

(** The messages appended after the user message by complete rounds: each
    round is the message of a model response that asks for tools, followed
    by the tool messages of the calls it asks for, one for each call, in
    some order. *)
Inductive transcript (C : Conversation) : list ChatMessage → Prop :=
  | transcript_nil : transcript C []
  | transcript_round mid resp results :
      transcript C mid →
      model_response (conv_llm C) (conv_config C) (conv_user_state C)
        (conv_base C ++ mid) = Some resp →
      get_tool_calls_from_response (conv_llm C) resp ≠ [] →
      Some <$> results
        ≡ₚ tool_message_of (conv_tools C)
             <$> get_tool_calls_from_response (conv_llm C) resp →
      transcript C (mid ++ message resp :: results).

(** The context entries written by [setup] and left alone afterwards. *)
Definition settled (C : Conversation) (w : World) : Prop :=
  ctx_agent_config (ctx w) = Some (conv_config C) ∧
  ctx_llm (ctx w) = Some (conv_llm C) ∧
  ctx_chat_history (ctx w) = Some (conv_loc C) ∧
  ctx_user_state (ctx w) = Some (conv_user_state C).

(** State AWAITING_MODEL: one pending [LLMCallEvent], nothing buffered. *)
Definition awaiting_model (C : Conversation) (w : World) : Prop :=
  ∃ mid,
    settled C w ∧
    transcript C mid ∧
    heap w = <[conv_loc C := conv_base C ++ mid]> (conv_heap C) ∧
    queue (ctx w) = [LLMCallEvent] ∧
    events_buffer (ctx w) = [].

Definition tool_event (ev : Event) : Prop :=
  match ev with
  | ToolCallEvent _ _ | ToolCallResultEvent _ => True
  | _ => False
  end.

(** The tool message a pending event stands for: the one a pending call
    will produce, the one a pending result carries. *)
Definition pending_message (ev : Event) : option ChatMessage :=
  match ev with
  | ToolCallEvent tool_call ev_tools => tool_message_of ev_tools tool_call
  | ToolCallResultEvent chat_message => Some chat_message
  | _ => None
  end.

(** States DISPATCHING_TOOLS and AGGREGATING: the model asked for tools;
    each of its calls is a pending call, a pending result or a buffered
    result, at least one is pending, and the history ends with the
    message of the model. *)
Definition awaiting_tools (C : Conversation) (w : World) : Prop :=
  ∃ mid resp,
    settled C w ∧
    transcript C mid ∧
    model_response (conv_llm C) (conv_config C) (conv_user_state C)
      (conv_base C ++ mid) = Some resp ∧
    heap w = <[conv_loc C := conv_base C ++ mid ++ [message resp]]> (conv_heap C) ∧
    ctx_num_tool_calls (ctx w)
      = Some (length (get_tool_calls_from_response (conv_llm C) resp)) ∧
    Forall tool_event (queue (ctx w)) ∧
    queue (ctx w) ≠ [] ∧
    (pending_message <$> queue (ctx w)) ++ (Some <$> events_buffer (ctx w))
      ≡ₚ tool_message_of (conv_tools C)
           <$> get_tool_calls_from_response (conv_llm C) resp.

(** State DONE: the model answered without asking for a tool; its message
    is the last of the history, and the result carries its content and
    the history list. *)
Definition done (C : Conversation) (result : RunResult) (w : World) : Prop :=
  ∃ mid resp,
    transcript C mid ∧
    model_response (conv_llm C) (conv_config C) (conv_user_state C)
      (conv_base C ++ mid) = Some resp ∧
    get_tool_calls_from_response (conv_llm C) resp = [] ∧
    heap w = <[conv_loc C := conv_base C ++ mid ++ [message resp]]> (conv_heap C) ∧
    result = mkRunResult (content (message resp)) (conv_loc C).

(** A heap extends another when every list of the first is still there,
    with only new elements after the old ones. *)
Definition heap_extends (h h' : gmap loc (list ChatMessage)) : Prop :=
  ∀ l xs, h !! l = Some xs → ∃ suffix, h' !! l = Some (xs ++ suffix).

(** The conversation a successful [setup] starts from the caller's heap. *)
Definition start_conversation (OpenAI_default : LLM) (h : gmap loc (list ChatMessage))
    (kwargs : StartEvent) : option Conversation :=
  user_msg ← ev_get (ev_user_msg kwargs) None;
  llm ← ev_get (ev_llm kwargs) (Some OpenAI_default);
  let new_message := mkChatMessage USER (Some user_msg) [] in
  match ev_chat_history kwargs with
  | Omitted =>
      Some (mkConversation llm (ev_get (ev_agent_config kwargs) None)
              (ev_get (ev_initial_state kwargs) (Some []))
              (fresh (dom h)) [new_message] h)
  | Given None => None
  | Given (Some l) =>
      Some (mkConversation llm (ev_get (ev_agent_config kwargs) None)
              (ev_get (ev_initial_state kwargs) (Some []))
              l (default [] (h !! l) ++ [new_message]) h)
  end.

(** Arrival of tool results at the aggregation step, one after the other;
    the events the step returns, in order. *)
Fixpoint arrive (results : list ChatMessage) : M (list (option Event)) :=
  match results with
  | [] => mret []
  | r :: rest =>
      out ← aggregate_tool_results r;
      outs ← arrive rest;
      mret (out :: outs)
  end.

(** A computation that leaves every list of the heap in place and at most
    adds elements at its end. *)
Definition appends_only {A} (m : M A) : Prop :=
  ∀ w, heap_extends (heap w) (heap (m w).2).

(** The caller passes a list that exists: a [chat_history] argument refers
    to a list object of the caller's heap. *)
Definition history_allocated (h : gmap loc (list ChatMessage)) (kwargs : StartEvent) : Prop :=
  ∀ l, ev_chat_history kwargs = Given (Some l) → is_Some (h !! l).

(** ** The notebook's agent, and models and tools to run it with *)

Module Notebook.

(** [d.get(key)] *)
Fixpoint dict_get (key : string) (d : pydict) : option PyValue :=
  match d with
  | [] => None
  | (k, v) :: rest => if String.eqb k key then Some v else dict_get key rest
  end.

(** [add_two_numbers(a, b)] on integers, called with keyword arguments;
    the tool's output is the [str] of the sum. *)
Definition add_two_numbers (kwargs : pydict) : ToolOutcome :=
  match dict_get "a" kwargs, dict_get "b" kwargs with
  | Some (VInt a), Some (VInt b) =>
      if length kwargs =? 2 then Returns (pretty (a + b)%Z)
      else Raises (mkExn TypeError "add_two_numbers() got an unexpected keyword argument")
  | Some _, Some _ => Raises (mkExn TypeError "unsupported operand type(s) for +")
  | _, _ => Raises (mkExn TypeError "add_two_numbers() missing required positional arguments")
  end.

Definition add_two_numbers_tool : Tool := mkTool "add_two_numbers" add_two_numbers.

Definition agent_config : AgentConfig :=
  mkAgentConfig "Addition Agent" "Used to add two numbers together."
    (Some "You are an agent that adds two numbers together. Do not help the user with anything else.")
    (Some [add_two_numbers_tool]).

(** The same agent, configured without a system prompt. *)
Definition promptless_config : AgentConfig :=
  mkAgentConfig "Addition Agent" "Used to add two numbers together."
    None (Some [add_two_numbers_tool]).

(** A tool whose function raises. *)
Definition divide_tool : Tool :=
  mkTool "divide" (λ _, Raises (mkExn ZeroDivisionError "division by zero")).

Definition divide_config : AgentConfig :=
  mkAgentConfig "Division Agent" "Used to divide." (Some "You divide numbers.")
    (Some [divide_tool]).

(** Another tool registered under the name of [add_two_numbers_tool]. *)
Definition shadowing_tool : Tool := mkTool "add_two_numbers" (λ _, Returns "0").

Definition the_call (nm : string) : ToolSelection :=
  mkToolSelection "call_1" nm [("a", VInt 10); ("b", VInt 10)].

(** A model that asks for the tool [nm] once, and answers with the tool's
    output once it has it. *)
Definition asking_for (nm : string) : LLM :=
  mkLLM true
    (λ _ messages,
       match last messages with
       | Some (mkChatMessage TOOL (Some c) _) =>
           mkChatResponse (mkChatMessage ASSISTANT (Some ("10 + 10 is " +:+ c +:+ ".")) []) []
       | _ => mkChatResponse (mkChatMessage ASSISTANT None []) [the_call nm]
       end)
    raw.

(** A model that answers at once. *)
Definition refusing : LLM :=
  mkLLM true
    (λ _ _, mkChatResponse
              (mkChatMessage ASSISTANT (Some "I can only help with adding two numbers.") [])
              [])
    raw.

(** A model without tool calling. *)
Definition plain_model : LLM :=
  mkLLM false (λ _ _, mkChatResponse (mkChatMessage ASSISTANT (Some "Hello") []) []) raw.

Definition fifo : nat → list Event → nat := λ _ _, 0.
Definition lifo : nat → list Event → nat := λ _ q, pred (length q).

Definition user_state : pydict := [("user_name", VStr "Logan")].

(** The caller's heap: one list object, the chat history so far. *)
Definition history : loc := 1%positive.
Definition earlier : ChatMessage := mkChatMessage USER (Some "Hello") [].
Definition caller_heap : gmap loc (list ChatMessage) := {[ history := [earlier] ]}.

Definition kwargs (cfg : AgentConfig) (llm : LLM) (user_msg : string) : StartEvent :=
  mkStartEvent (Given (Some cfg)) (Given (Some user_msg)) (Given (Some llm))
    (Given (Some history)) (Given (Some user_state)).

(** A world in the aggregation stage of a round of [n] tool calls, with
    no result buffered yet. *)
Definition aggregating (n : nat) : World :=
  mkWorld caller_heap
    (mkContext (Some (Some agent_config)) (Some (asking_for "add_two_numbers"))
       (Some history) (Some (Some user_state)) (Some n) [] [] [])
    [].

Definition tool_message (c : string) : ChatMessage :=
  mkChatMessage TOOL (Some c) [("tool_call_id", "call_1"); ("name", "add_two_numbers")].

End Notebook.

(** ** Vocabulary for the log of a run *)

(** The exception [handle_tool_call] raises for a tool call, when it
    raises: the tool list is [None], the name is not in the registry, or
    the tool raised something [except Exception] does not catch. *)
Definition tool_call_error (ev_tools : option (list Tool)) (tool_call : ToolSelection)
    : option Exn :=
  match ev_tools with
  | None => Some (mkExn TypeError "'NoneType' object is not iterable")
  | Some ts =>
      match tools_by_name ts !! tool_name tool_call with
      | None => Some (mkExn AttributeError "'NoneType' object has no attribute 'metadata'")
      | Some t =>
          match acall t (tool_kwargs tool_call) with
          | Returns _ => None
          | Raises e => if is_Exception (exn_class e) then None else Some e
          end
      end
  end.

(** The rounds of a run together with the inputs of the model calls that
    opened them: [exchanges C mid calls] when [mid] is made of complete
    rounds and [calls] lists, round after round, what the model was sent
    to get the response of the round. *)
Inductive exchanges (C : Conversation)
    : list ChatMessage → list (list ChatMessage) → Prop :=
  | exchanges_nil : exchanges C [] []
  | exchanges_round mid calls ts input results :
      exchanges C mid calls →
      model_input (conv_config C) (conv_user_state C) (conv_base C ++ mid)
        = Some (ts, input) →
      get_tool_calls_from_response (conv_llm C) (achat_with_tools (conv_llm C) ts input)
        ≠ [] →
      Some <$> results
        ≡ₚ tool_message_of (conv_tools C)
             <$> get_tool_calls_from_response (conv_llm C)
                   (achat_with_tools (conv_llm C) ts input) →
      exchanges C (mid ++ message (achat_with_tools (conv_llm C) ts input) :: results)
        (calls ++ [input]).

(** The tool message of a pending result event. *)
Definition pending_result (ev : Event) : option ChatMessage :=
  match ev with
  | ToolCallResultEvent chat_message => Some chat_message
  | _ => None
  end.

(** State AWAITING_MODEL with its log: the model was called once for each
    complete round since the log read [calls0], and one progress event
    was emitted for each tool message of these rounds since the stream
    had [events0] events. *)
Definition model_pending (C : Conversation) (calls0 : list (list ChatMessage))
    (events0 : nat) (w : World) : Prop :=
  ∃ mid calls,
    settled C w ∧
    exchanges C mid calls ∧
    heap w = <[conv_loc C := conv_base C ++ mid]> (conv_heap C) ∧
    queue (ctx w) = [LLMCallEvent] ∧
    events_buffer (ctx w) = [] ∧
    llm_calls w = calls0 ++ calls ∧
    length (stream (ctx w)) + length calls = events0 + length mid.

(** A pending event of a round: a call of the round, carrying the tool
    list of the configuration, or a result. *)
Definition round_event (C : Conversation) (tool_calls : list ToolSelection)
    (ev : Event) : Prop :=
  match ev with
  | ToolCallEvent tool_call ev_tools =>
      ev_tools = conv_tools C ∧ tool_call ∈ tool_calls
  | ToolCallResultEvent _ => True
  | _ => False
  end.

(** States DISPATCHING_TOOLS and AGGREGATING with their log: the last
    model call is the one that opened the round under way, and the
    results of the round, pending or buffered, have had their progress
    event. *)
Definition tools_pending (C : Conversation) (calls0 : list (list ChatMessage))
    (events0 : nat) (w : World) : Prop :=
  ∃ mid calls ts input,
    settled C w ∧
    exchanges C mid calls ∧
    model_input (conv_config C) (conv_user_state C) (conv_base C ++ mid)
      = Some (ts, input) ∧
    heap w = <[conv_loc C :=
                 conv_base C ++ mid ++ [message (achat_with_tools (conv_llm C) ts input)]]>
               (conv_heap C) ∧
    ctx_num_tool_calls (ctx w)
      = Some (length (get_tool_calls_from_response (conv_llm C)
                        (achat_with_tools (conv_llm C) ts input))) ∧
    Forall (round_event C (get_tool_calls_from_response (conv_llm C)
                             (achat_with_tools (conv_llm C) ts input)))
      (queue (ctx w)) ∧
    queue (ctx w) ≠ [] ∧
    (pending_message <$> queue (ctx w)) ++ (Some <$> events_buffer (ctx w))
      ≡ₚ tool_message_of (conv_tools C)
           <$> get_tool_calls_from_response (conv_llm C)
                 (achat_with_tools (conv_llm C) ts input) ∧
    llm_calls w = calls0 ++ calls ++ [input] ∧
    length (stream (ctx w)) + length calls
      = events0 + length mid + length (omap pending_result (queue (ctx w)))
          + length (events_buffer (ctx w)).

(** How a run that got past [setup] can end or be found, with its log. *)
Definition logged_outcome (C : Conversation) (calls0 : list (list ChatMessage))
    (events0 : nat) (out : Outcome) (w : World) : Prop :=
  match out with
  | Finished result =>
      ∃ mid calls ts input,
        exchanges C mid calls ∧
        model_input (conv_config C) (conv_user_state C) (conv_base C ++ mid)
          = Some (ts, input) ∧
        get_tool_calls_from_response (conv_llm C) (achat_with_tools (conv_llm C) ts input)
          = [] ∧
        heap w = <[conv_loc C :=
                     conv_base C ++ mid
                       ++ [message (achat_with_tools (conv_llm C) ts input)]]>
                   (conv_heap C) ∧
        llm_calls w = calls0 ++ calls ++ [input] ∧
        length (stream (ctx w)) + length calls = events0 + length mid ∧
        result = mkRunResult (content (message (achat_with_tools (conv_llm C) ts input)))
                   (conv_loc C)
  | Aborted e =>
      ∃ mid calls,
        exchanges C mid calls ∧
        ((model_input (conv_config C) (conv_user_state C) [] = None ∧
          exn_class e = AttributeError ∧
          heap w = <[conv_loc C := conv_base C ++ mid]> (conv_heap C) ∧
          llm_calls w = calls0 ++ calls) ∨
         (∃ ts input tool_call,
            model_input (conv_config C) (conv_user_state C) (conv_base C ++ mid)
              = Some (ts, input) ∧
            tool_call ∈ get_tool_calls_from_response (conv_llm C)
                          (achat_with_tools (conv_llm C) ts input) ∧
            tool_call_error (conv_tools C) tool_call = Some e ∧
            heap w = <[conv_loc C :=
                         conv_base C ++ mid
                           ++ [message (achat_with_tools (conv_llm C) ts input)]]>
                       (conv_heap C) ∧
            llm_calls w = calls0 ++ calls ++ [input]))
  | Stalled => False
  | OutOfFuel => model_pending C calls0 events0 w ∨ tools_pending C calls0 events0 w
  end.

(** The world [setup] runs in: the caller's heap and an empty context. *)
Definition initial_world (h : gmap loc (list ChatMessage)) : World :=
  mkWorld h (mkContext None None None None None [] [] []) [].

(** The turns a pending event of a tool round still takes: a call is
    handled and its result is aggregated, a result is aggregated. *)
Definition turns_left (ev : Event) : nat :=
  match ev with
  | ToolCallEvent _ _ => 2
  | _ => 1
  end.

(** ** More models and inputs to run the agent with *)

Module Scenarios.

(** A model that asks for [add_two_numbers] in every response. *)
Definition insistent : LLM :=
  mkLLM true
    (λ _ _, mkChatResponse (mkChatMessage ASSISTANT None [])
              [Notebook.the_call "add_two_numbers"])
    raw.

(** A tool interrupted from the keyboard. *)
Definition interrupted_tool : Tool :=
  mkTool "add_two_numbers" (λ _, Raises (mkExn KeyboardInterrupt "")).

(** The notebook's agent with that tool in its registry. *)
Definition interrupted_config : AgentConfig :=
  mkAgentConfig "Addition Agent" "Used to add two numbers together."
    (Some "You are an agent that adds two numbers together. Do not help the user with anything else.")
    (Some [interrupted_tool]).

(** A run started without [agent_config]. *)
Definition kwargs_without_config (llm : LLM) (user_msg : string) : StartEvent :=
  mkStartEvent Omitted (Given (Some user_msg)) (Given (Some llm))
    (Given (Some Notebook.history)) (Given (Some Notebook.user_state)).

(** A run started without [chat_history] and without [initial_state]. *)
Definition kwargs_without_history (llm : LLM) (user_msg : string) : StartEvent :=
  mkStartEvent (Given (Some Notebook.agent_config)) (Given (Some user_msg))
    (Given (Some llm)) Omitted Omitted.

(** A run started without [user_msg]. *)
Definition kwargs_without_message : StartEvent :=
  mkStartEvent (Given (Some Notebook.agent_config)) Omitted
    (Given (Some Notebook.refusing)) (Given (Some Notebook.history)) Omitted.

(** A world at the model-call stage of the notebook's agent. *)
Definition at_model_call (llm : LLM) : World :=
  mkWorld Notebook.caller_heap
    (mkContext (Some (Some Notebook.agent_config)) (Some llm)
       (Some Notebook.history) (Some (Some Notebook.user_state)) None []
       [] [])
    [].

End Scenarios.

(** * Properties *)

Ltac unfold_m :=
  unfold mbind, M_bind, mret, M_ret, raise, ctx_get, getattr, iter, read_ctx, modify_ctx,
    ctx_set_agent_config, ctx_set_llm, ctx_set_chat_history, ctx_set_user_state,
    ctx_set_num_tool_calls, set_events_buffer, set_queue, send_event,
    write_event_to_stream, list_append, list_read, list_new, call_llm, call_tool in *.

(** ** Strings *)

Lemma split_lines_nonempty s : split_lines s ≠ [].
Proof.
  destruct s as [|c s]; simpl; [done|].
  destruct (Ascii.eqb _ _); [done|]. by destruct (split_lines s).
Qed.

Lemma split_lines_app_LF a b :
  split_lines (a +:+ LF +:+ b) = split_lines a ++ split_lines b.
Proof.
  induction a as [|c a IH]; simpl; [done|].
  destruct (Ascii.eqb _ _); [by rewrite IH|].
  rewrite IH. pose proof (split_lines_nonempty a).
  by destruct (split_lines a).
Qed.

Lemma split_lines_single s : single_line s = true → split_lines s = [s].
Proof.
  induction s as [|c s IH]; simpl; [done|].
  destruct (Ascii.eqb _ _); simpl; [done|].
  intros H. by rewrite IH.
Qed.

Lemma split_lines_join parts :
  parts ≠ [] → Forall (λ p, single_line p = true) parts →
  split_lines (join LF parts) = parts.
Proof.
  induction parts as [|p [|q rest] IH]; intros Hne Hall; [done| |].
  - simpl. apply split_lines_single. by inversion Hall.
  - change (join LF (p :: q :: rest)) with (p +:+ LF +:+ join LF (q :: rest)).
    rewrite split_lines_app_LF. inversion Hall; subst.
    rewrite split_lines_single by done. rewrite IH by done. done.
Qed.

(** ** The tool registry *)

Lemma tools_by_name_snoc ts t :
  tools_by_name (ts ++ [t]) = <[get_name t := t]> (tools_by_name ts).
Proof. unfold tools_by_name. by rewrite foldl_snoc. Qed.

(** The lookup finds the last tool of the list that carries the name. *)
Lemma tools_by_name_lookup ts nm :
  tools_by_name ts !! nm = last (filter (λ t, get_name t = nm) ts).
Proof.
  induction ts as [|t ts IH] using rev_ind; [done|].
  rewrite tools_by_name_snoc, filter_app, filter_cons, filter_nil.
  destruct (decide (get_name t = nm)) as [->|Hne].
  - by rewrite lookup_insert_eq, last_snoc.
  - rewrite lookup_insert_ne by done. by rewrite app_nil_r.
Qed.

Lemma tools_by_name_None ts nm :
  tools_by_name ts !! nm = None ↔ nm ∉ get_name <$> ts.
Proof.
  rewrite tools_by_name_lookup, last_None. split.
  - intros Hnil [t [-> Ht]]%list_elem_of_fmap.
    assert (t ∈ filter (λ t', get_name t' = get_name t) ts) as Hin
      by by apply list_elem_of_filter.
    rewrite Hnil in Hin. by apply not_elem_of_nil in Hin.
  - intros Hnot. apply elem_of_nil_inv. intros t [Hnm Ht]%list_elem_of_filter.
    apply Hnot, list_elem_of_fmap. by exists t.
Qed.

(** ** The scheduler *)

Lemma pick_Some i q ev rest :
  pick i q = Some (ev, rest) → q ≡ₚ ev :: rest.
Proof.
  unfold pick. destruct (q !! i) as [ev'|] eqn:Hi.
  - intros [= <- <-]. by apply delete_Permutation.
  - destruct q; [done|]. by intros [= <- <-].
Qed.

Lemma pick_None i q : pick i q = None → q = [].
Proof.
  unfold pick. destruct (q !! i); [done|]. by destruct q.
Qed.

Lemma pick_singleton i ev : pick i [ev] = Some (ev, []).
Proof. by destruct i. Qed.

(** ** Appending to a list object *)

Lemma for_each_list_append l xs w :
  for_each xs (λ m, list_append l m) w =
    (Ok (), mkWorld (alter (λ ys, ys ++ xs) l (heap w)) (ctx w) (llm_calls w)).
Proof.
  revert w. induction xs as [|x xs IH]; intros [h c calls]; simpl.
  - unfold mret, M_ret. f_equal. f_equal. apply map_eq. intros k.
    rewrite lookup_alter. case_decide; [subst|done].
    destruct (h !! k); simpl; by rewrite ?app_nil_r.
  - unfold mbind, M_bind. simpl. rewrite IH. simpl. f_equal. f_equal.
    apply map_eq. intros k. rewrite !lookup_alter. case_decide; [subst|done].
    rewrite decide_True by done. destruct (h !! k); simpl; by rewrite <-?app_assoc.
Qed.

Lemma for_each_send_event {A} (f : A → Event) xs w :
  for_each xs (λ x, send_event (f x)) w =
    (Ok (), mkWorld (heap w)
       (mkContext (ctx_agent_config (ctx w)) (ctx_llm (ctx w)) (ctx_chat_history (ctx w))
          (ctx_user_state (ctx w)) (ctx_num_tool_calls (ctx w)) (events_buffer (ctx w))
          (queue (ctx w) ++ (f <$> xs)) (stream (ctx w)))
       (llm_calls w)).
Proof.
  revert w. induction xs as [|x xs IH]; intros [h [] calls]; simpl.
  - unfold mret, M_ret. by rewrite app_nil_r.
  - unfold mbind, M_bind at 1. simpl. rewrite IH. simpl. by rewrite <-app_assoc.
Qed.

(** ** Every step only appends to the lists of the heap *)

Lemma heap_extends_refl h : heap_extends h h.
Proof. intros l xs H. exists []. by rewrite app_nil_r. Qed.

Lemma heap_extends_trans h1 h2 h3 :
  heap_extends h1 h2 → heap_extends h2 h3 → heap_extends h1 h3.
Proof.
  intros H12 H23 l xs H. destruct (H12 _ _ H) as [s1 H1].
  destruct (H23 _ _ H1) as [s2 H2]. exists (s1 ++ s2). by rewrite app_assoc.
Qed.

Lemma appends_only_ret {A} (a : A) : appends_only (mret a).
Proof. intros w. apply heap_extends_refl. Qed.

Lemma appends_only_raise {A} e : appends_only (@raise A e).
Proof. intros w. apply heap_extends_refl. Qed.

Lemma appends_only_bind {A B} (m : M A) (f : A → M B) :
  appends_only m → (∀ a, appends_only (f a)) → appends_only (m ≫= f).
Proof.
  intros Hm Hf w. unfold mbind, M_bind. specialize (Hm w).
  destruct (m w) as [[a|e] w'] eqn:E; simpl in *; [|done].
  eapply heap_extends_trans; [done|]. apply Hf.
Qed.

Lemma appends_only_try_except {A} (body : M A) handler :
  appends_only body → (∀ e, appends_only (handler e)) →
  appends_only (try_except body handler).
Proof.
  intros Hb Hh w. unfold try_except. specialize (Hb w).
  destruct (body w) as [[a|e] w'] eqn:E; simpl in *; [done|].
  destruct (is_Exception _); [|done].
  eapply heap_extends_trans; [done|]. apply Hh.
Qed.

Lemma appends_only_for_each {A} (xs : list A) body :
  (∀ x, appends_only (body x)) → appends_only (for_each xs body).
Proof.
  intros Hb. induction xs as [|x xs IH]; simpl.
  - apply appends_only_ret.
  - apply appends_only_bind; [apply Hb|done].
Qed.

Lemma appends_only_modify_ctx f : appends_only (modify_ctx f).
Proof. intros w. apply heap_extends_refl. Qed.

Lemma appends_only_read_ctx {A} (f : Context → A) : appends_only (read_ctx f).
Proof. intros w. apply heap_extends_refl. Qed.

Lemma appends_only_ctx_get {A} key (field : Context → option A) :
  appends_only (ctx_get key field).
Proof. intros w. unfold ctx_get. destruct (field _); apply heap_extends_refl. Qed.

Lemma appends_only_getattr {A} (obj : option A) attr : appends_only (getattr obj attr).
Proof. destruct obj; [apply appends_only_ret|apply appends_only_raise]. Qed.

Lemma appends_only_iter {A} (obj : option (list A)) : appends_only (iter obj).
Proof. destruct obj; [apply appends_only_ret|apply appends_only_raise]. Qed.

Lemma appends_only_call_llm llm ts input : appends_only (call_llm llm ts input).
Proof. intros w. apply heap_extends_refl. Qed.

Lemma appends_only_call_tool t kwargs : appends_only (call_tool t kwargs).
Proof.
  unfold call_tool. destruct (acall _ _); [apply appends_only_ret|apply appends_only_raise].
Qed.

Lemma appends_only_list_read l : appends_only (list_read l).
Proof. intros w. apply heap_extends_refl. Qed.

Lemma appends_only_list_append l m : appends_only (list_append l m).
Proof.
  intros w k xs Hk. simpl. rewrite lookup_alter. case_decide.
  - subst. rewrite Hk. by exists [m].
  - exists []. by rewrite app_nil_r.
Qed.

Lemma appends_only_list_new : appends_only list_new.
Proof.
  intros w k xs Hk. simpl. exists []. rewrite app_nil_r, lookup_insert_ne; [done|].
  intros <-. apply (is_fresh (dom (heap w))). apply elem_of_dom. by eexists.
Qed.

Create HintDb appends discriminated.
#[local] Hint Resolve appends_only_ret appends_only_raise appends_only_modify_ctx
  appends_only_read_ctx appends_only_ctx_get appends_only_getattr appends_only_iter
  appends_only_call_llm appends_only_call_tool appends_only_list_read
  appends_only_list_append appends_only_list_new : appends.

Ltac appends :=
  repeat first
    [ apply appends_only_bind; [|intros ?]
    | apply appends_only_try_except; [|intros ?]
    | apply appends_only_for_each; intros ?
    | progress (unfold ctx_set_agent_config, ctx_set_llm, ctx_set_chat_history,
        ctx_set_user_state, ctx_set_num_tool_calls, set_events_buffer, set_queue,
        send_event, write_event_to_stream, collect_events)
    | match goal with |- appends_only (match ?x with _ => _ end) => destruct x end
    | solve [auto with appends] ].

Lemma appends_only_setup d ev : appends_only (setup d ev).
Proof. unfold setup. appends. Qed.

Lemma appends_only_speak_with_agent : appends_only speak_with_agent.
Proof. unfold speak_with_agent. appends. Qed.

Lemma appends_only_handle_tool_call tc ts : appends_only (handle_tool_call tc ts).
Proof. unfold handle_tool_call. appends. Qed.

Lemma appends_only_aggregate_tool_results m : appends_only (aggregate_tool_results m).
Proof. unfold aggregate_tool_results. appends. Qed.

Lemma appends_only_dispatch d ev : appends_only (dispatch d ev).
Proof.
  destruct ev; simpl; auto using appends_only_setup, appends_only_speak_with_agent,
    appends_only_handle_tool_call, appends_only_aggregate_tool_results with appends.
Qed.

Lemma run_loop_heap_extends d sched fuel w :
  heap_extends (heap w) (heap (run_loop d sched fuel w).2).
Proof.
  revert w. induction fuel as [|fuel IH]; intros w; simpl; [apply heap_extends_refl|].
  destruct (pick _ _) as [[ev rest]|]; [|apply heap_extends_refl].
  assert (appends_only (set_queue rest ;; dispatch d ev)) as Hstep.
  { apply appends_only_bind; [apply appends_only_modify_ctx|intros; apply appends_only_dispatch]. }
  specialize (Hstep w).
  destruct ((set_queue rest ;; dispatch d ev) w) as [[[ev'|]|e] w'] eqn:E; simpl in *; [| |done].
  - assert (heap_extends (heap w) (heap (run_loop d sched fuel (send_event ev' w').2).2)).
    { eapply heap_extends_trans; [done|]. eapply heap_extends_trans; [|apply IH].
      apply heap_extends_refl. }
    by destruct ev'.
  - eapply heap_extends_trans; [done|]. apply IH.
Qed.

(** ** What each step does to the world *)

Lemma setup_given d kwargs h c calls user_msg llm l hist :
  ev_get (ev_user_msg kwargs) None = Some user_msg →
  ev_get (ev_llm kwargs) (Some d) = Some llm →
  ev_chat_history kwargs = Given (Some l) →
  is_function_calling_model llm = true →
  h !! l = Some hist →
  setup d kwargs (mkWorld h c calls) =
    (Ok (Some LLMCallEvent),
     mkWorld (<[l := hist ++ [mkChatMessage USER (Some user_msg) []]]> h)
       (mkContext (Some (ev_get (ev_agent_config kwargs) None)) (Some llm) (Some l)
          (Some (ev_get (ev_initial_state kwargs) (Some [])))
          (ctx_num_tool_calls c) (events_buffer c) (queue c) (stream c))
       calls).
Proof.
  intros Hu Hl Hc Hfc Hh. unfold setup. rewrite Hu, Hl, Hc, Hfc. unfold_m. simpl.
  do 2 f_equal. apply map_eq. intros k. rewrite lookup_alter, lookup_insert.
  case_decide; [subst|done]. by rewrite Hh.
Qed.

Lemma setup_omitted d kwargs h c calls user_msg llm :
  ev_get (ev_user_msg kwargs) None = Some user_msg →
  ev_get (ev_llm kwargs) (Some d) = Some llm →
  ev_chat_history kwargs = Omitted →
  is_function_calling_model llm = true →
  setup d kwargs (mkWorld h c calls) =
    (Ok (Some LLMCallEvent),
     mkWorld (<[fresh (dom h) := [mkChatMessage USER (Some user_msg) []]]> h)
       (mkContext (Some (ev_get (ev_agent_config kwargs) None)) (Some llm)
          (Some (fresh (dom h)))
          (Some (ev_get (ev_initial_state kwargs) (Some [])))
          (ctx_num_tool_calls c) (events_buffer c) (queue c) (stream c))
       calls).
Proof.
  intros Hu Hl Hc Hfc. unfold setup. rewrite Hu, Hl, Hc. unfold_m. simpl.
  rewrite Hfc. simpl. do 2 f_equal. by rewrite alter_insert_eq.
Qed.

(** [setup] never calls the model, whatever it returns. *)
Lemma setup_llm_calls d kwargs w : llm_calls (setup d kwargs w).2 = llm_calls w.
Proof.
  unfold setup. unfold_m.
  destruct (ev_chat_history kwargs) as [|[l|]], (ev_get (ev_user_msg kwargs) None),
    (ev_get (ev_llm kwargs) (Some d)) as [m|]; simpl; try reflexivity.
  all: destruct (is_function_calling_model m); reflexivity.
Qed.

Lemma setup_raises d kwargs w e :
  (setup d kwargs w).1 = Raise e → exn_class e = ValueError.
Proof.
  unfold setup. unfold_m.
  destruct (ev_chat_history kwargs) as [|[l|]], (ev_get (ev_user_msg kwargs) None),
    (ev_get (ev_llm kwargs) (Some d)) as [m|]; simpl; try by intros [= <-].
  all: destruct (is_function_calling_model m); simpl; by intros [= <-].
Qed.

Lemma speak_with_agent_raise h ac llm l us n buf q st calls :
  model_input ac us [] = None →
  ∃ e,
    speak_with_agent (mkWorld h (mkContext (Some ac) (Some llm) (Some l) (Some us) n buf q st) calls)
      = (Raise e, mkWorld h (mkContext (Some ac) (Some llm) (Some l) (Some us) n buf q st) calls)
    ∧ exn_class e = AttributeError.
Proof.
  unfold model_input, speak_with_agent. unfold_m. simpl.
  destruct us as [items|]; simpl; [|intros _; eexists; split; [reflexivity|done]].
  destruct ac as [cfg|]; simpl; [|intros _; eexists; split; [reflexivity|done]].
  destruct (system_prompt cfg); simpl; [done|intros _; eexists; split; [reflexivity|done]].
Qed.

Lemma speak_with_agent_stop h ac llm l us n buf q st calls hist ts input :
  model_input ac us hist = Some (ts, input) →
  h !! l = Some hist →
  get_tool_calls_from_response llm (achat_with_tools llm ts input) = [] →
  speak_with_agent (mkWorld h (mkContext (Some ac) (Some llm) (Some l) (Some us) n buf q st) calls)
    = (Ok (Some (StopEvent
             (mkRunResult (content (message (achat_with_tools llm ts input))) l))),
       mkWorld (<[l := hist ++ [message (achat_with_tools llm ts input)]]> h)
         (mkContext (Some ac) (Some llm) (Some l) (Some us) n buf q st)
         (calls ++ [input])).
Proof.
  unfold model_input, speak_with_agent. unfold_m. simpl.
  destruct us as [items|]; simpl; [|done].
  destruct ac as [cfg|]; simpl; [|done].
  destruct (system_prompt cfg); simpl; [|done].
  intros [= <- <-] Hh. rewrite Hh. simpl. intros ->. simpl.
  do 2 f_equal. f_equal. apply map_eq. intros k. rewrite lookup_alter, lookup_insert.
  case_decide; [subst|done]. by rewrite Hh.
Qed.

Lemma speak_with_agent_tools h ac llm l us n buf q st calls hist ts input :
  model_input ac us hist = Some (ts, input) →
  h !! l = Some hist →
  get_tool_calls_from_response llm (achat_with_tools llm ts input) ≠ [] →
  speak_with_agent (mkWorld h (mkContext (Some ac) (Some llm) (Some l) (Some us) n buf q st) calls)
    = (Ok None,
       mkWorld (<[l := hist ++ [message (achat_with_tools llm ts input)]]> h)
         (mkContext (Some ac) (Some llm) (Some l) (Some us)
            (Some (length (get_tool_calls_from_response llm (achat_with_tools llm ts input))))
            buf
            (q ++ ((λ tool_call, ToolCallEvent tool_call ts) <$>
                     get_tool_calls_from_response llm (achat_with_tools llm ts input)))
            st)
         (calls ++ [input])).
Proof.
  unfold model_input, speak_with_agent. unfold_m. simpl.
  destruct us as [items|]; simpl; [|done].
  destruct ac as [cfg|]; simpl; [|done].
  destruct (system_prompt cfg); simpl; [|done].
  intros [= <- <-] Hh. rewrite Hh. simpl. intros Hne.
  rewrite bool_decide_eq_false_2.
  2: { by destruct (get_tool_calls_from_response _ _). }
  simpl.
  pose proof (for_each_send_event (λ tool_call, ToolCallEvent tool_call (tools cfg))) as Hsend.
  unfold send_event in Hsend. unfold_m. rewrite Hsend. simpl.
  do 2 f_equal. apply map_eq. intros k. rewrite lookup_alter, lookup_insert.
  case_decide; [subst|done]. by rewrite Hh.
Qed.

Lemma handle_tool_call_no_tools tool_call w :
  handle_tool_call tool_call None w
    = (Raise (mkExn TypeError "'NoneType' object is not iterable"), w).
Proof. reflexivity. Qed.

(** A name that is not in the registry: the step raises when it reads the
    name of the tool it did not find. *)
Lemma handle_tool_call_absent tool_call ts w :
  tools_by_name ts !! tool_name tool_call = None →
  handle_tool_call tool_call (Some ts) w
    = (Raise (mkExn AttributeError "'NoneType' object has no attribute 'metadata'"), w).
Proof.
  intros Hnone. unfold handle_tool_call. unfold_m. simpl. by rewrite Hnone.
Qed.

Lemma handle_tool_call_returns tool_call ts t c h cx calls :
  tools_by_name ts !! tool_name tool_call = Some t →
  acall t (tool_kwargs tool_call) = Returns c →
  let tool_msg :=
    mkChatMessage TOOL (Some c) (tool_additional_kwargs tool_call (get_name t)) in
  handle_tool_call tool_call (Some ts) (mkWorld h cx calls)
    = (Ok (Some (ToolCallResultEvent tool_msg)),
       mkWorld h
         (mkContext (ctx_agent_config cx) (ctx_llm cx) (ctx_chat_history cx)
            (ctx_user_state cx) (ctx_num_tool_calls cx) (events_buffer cx) (queue cx)
            (stream cx ++ [mkProgressEvent (progress_msg tool_call tool_msg)]))
         calls).
Proof.
  intros Ht Hc. unfold handle_tool_call, try_except. unfold_m. simpl.
  rewrite Ht. simpl. by rewrite Hc.
Qed.

Lemma handle_tool_call_caught tool_call ts t e h cx calls :
  tools_by_name ts !! tool_name tool_call = Some t →
  acall t (tool_kwargs tool_call) = Raises e →
  is_Exception (exn_class e) = true →
  let tool_msg :=
    mkChatMessage TOOL (Some ("Encountered error in tool call: " +:+ exn_str e))
      (tool_additional_kwargs tool_call (get_name t)) in
  handle_tool_call tool_call (Some ts) (mkWorld h cx calls)
    = (Ok (Some (ToolCallResultEvent tool_msg)),
       mkWorld h
         (mkContext (ctx_agent_config cx) (ctx_llm cx) (ctx_chat_history cx)
            (ctx_user_state cx) (ctx_num_tool_calls cx) (events_buffer cx) (queue cx)
            (stream cx ++ [mkProgressEvent (progress_msg tool_call tool_msg)]))
         calls).
Proof.
  intros Ht Hc He. unfold handle_tool_call, try_except. unfold_m. simpl.
  rewrite Ht. simpl. rewrite Hc. simpl. by rewrite He.
Qed.

Lemma handle_tool_call_uncaught tool_call ts t e w :
  tools_by_name ts !! tool_name tool_call = Some t →
  acall t (tool_kwargs tool_call) = Raises e →
  is_Exception (exn_class e) = false →
  handle_tool_call tool_call (Some ts) w = (Raise e, w).
Proof.
  intros Ht Hc He. unfold handle_tool_call, try_except. unfold_m. simpl.
  rewrite Ht. simpl. rewrite Hc. simpl. by rewrite He.
Qed.

(** The step returns the tool message of the call and adds one progress
    event; when there is no such message it raises and leaves the world as
    it was. *)
Lemma handle_tool_call_message tool_call ev_tools tool_msg h cx calls :
  tool_message_of ev_tools tool_call = Some tool_msg →
  handle_tool_call tool_call ev_tools (mkWorld h cx calls)
    = (Ok (Some (ToolCallResultEvent tool_msg)),
       mkWorld h
         (mkContext (ctx_agent_config cx) (ctx_llm cx) (ctx_chat_history cx)
            (ctx_user_state cx) (ctx_num_tool_calls cx) (events_buffer cx) (queue cx)
            (stream cx ++ [mkProgressEvent (progress_msg tool_call tool_msg)]))
         calls).
Proof.
  unfold tool_message_of. destruct ev_tools as [ts|]; simpl; [|done].
  destruct (tools_by_name ts !! tool_name tool_call) as [t|] eqn:Ht; simpl; [|done].
  destruct (acall t (tool_kwargs tool_call)) as [c|e] eqn:Hc.
  - intros [= <-]. by apply handle_tool_call_returns.
  - destruct (is_Exception (exn_class e)) eqn:He; [|done].
    intros [= <-]. by apply handle_tool_call_caught.
Qed.

Lemma handle_tool_call_no_message tool_call ev_tools w :
  tool_message_of ev_tools tool_call = None →
  ∃ e, handle_tool_call tool_call ev_tools w = (Raise e, w).
Proof.
  unfold tool_message_of.
  destruct ev_tools as [ts|]; simpl; [|intros _; eexists; apply handle_tool_call_no_tools].
  destruct (tools_by_name ts !! tool_name tool_call) as [t|] eqn:Ht; simpl;
    [|intros _; eexists; by apply handle_tool_call_absent].
  destruct (acall t (tool_kwargs tool_call)) as [c|e] eqn:Hc; [done|].
  destruct (is_Exception (exn_class e)) eqn:He; [done|].
  intros _. eexists. by eapply handle_tool_call_uncaught.
Qed.

Lemma tool_message_of_role ev_tools tool_call tool_msg :
  tool_message_of ev_tools tool_call = Some tool_msg → role tool_msg = TOOL.
Proof.
  unfold tool_message_of. destruct ev_tools as [ts|]; simpl; [|done].
  destruct (tools_by_name ts !! tool_name tool_call) as [t|]; simpl; [|done].
  destruct (acall t (tool_kwargs tool_call)) as [c|e]; [by intros [= <-]|].
  destruct (is_Exception (exn_class e)); [by intros [= <-]|done].
Qed.

#[local] Arguments falsy : simpl never.
#[local] Arguments for_each : simpl never.

Lemma aggregate_tool_results_partial h ac llm l us n buf q st calls m :
  length buf + 1 < n →
  aggregate_tool_results m (mkWorld h (mkContext ac llm l us (Some n) buf q st) calls)
    = (Ok None, mkWorld h (mkContext ac llm l us (Some n) (buf ++ [m]) q st) calls).
Proof.
  intros Hlt. unfold aggregate_tool_results, collect_events. unfold_m. simpl.
  rewrite take_ge, drop_ge by (rewrite length_app; simpl; lia).
  rewrite bool_decide_eq_false_2 by (rewrite length_app; simpl; lia).
  reflexivity.
Qed.

Lemma aggregate_tool_results_full h ac llm l us n buf q st calls m :
  length buf + 1 = n →
  aggregate_tool_results m
      (mkWorld h (mkContext ac llm (Some l) us (Some n) buf q st) calls)
    = (Ok (Some LLMCallEvent),
       mkWorld (alter (λ xs, xs ++ (buf ++ [m])) l h)
         (mkContext ac llm (Some l) us (Some n) [] q st) calls).
Proof.
  intros Hlen. unfold aggregate_tool_results, collect_events. unfold_m. simpl.
  rewrite take_ge, drop_ge by (rewrite length_app; simpl; lia).
  rewrite bool_decide_eq_true_2 by (rewrite length_app; simpl; lia).
  assert (falsy (Some (buf ++ [m])) = false) as Hf by (by destruct buf).
  simpl. rewrite Hf. simpl.
  pose proof (for_each_list_append l (buf ++ [m])) as Happ.
  unfold list_append in Happ. rewrite Happ. reflexivity.
Qed.

(** ** The phases of a run *)

Lemma model_input_None ac us hist hist' :
  model_input ac us hist = None → model_input ac us hist' = None.
Proof.
  unfold model_input. destruct us; simpl; [|done]. destruct ac as [cfg|]; simpl; [|done].
  by destruct (system_prompt cfg).
Qed.

Lemma model_response_of_input llm ac us hist ts input :
  model_input ac us hist = Some (ts, input) →
  model_response llm ac us hist = Some (achat_with_tools llm ts input).
Proof. unfold model_response. by intros ->. Qed.

Lemma model_input_tools ac us hist ts input :
  model_input ac us hist = Some (ts, input) → ts = (cfg ← ac; tools cfg).
Proof.
  unfold model_input. destruct us; simpl; [|done]. destruct ac as [cfg|]; simpl; [|done].
  destruct (system_prompt cfg); simpl; [|done]. by intros [= <- _].
Qed.

(** The tool messages of a round all have the tool role. *)
Lemma round_results_role ev_tools tool_calls results :
  Some <$> results ≡ₚ tool_message_of ev_tools <$> tool_calls →
  Forall (λ m, role m = TOOL) results.
Proof.
  intros Hperm. apply Forall_forall. intros m Hm.
  assert (Some m ∈ tool_message_of ev_tools <$> tool_calls) as Hin.
  { rewrite <-Hperm. by apply list_elem_of_fmap_2. }
  apply list_elem_of_fmap in Hin as (tc & Heq & _).
  by eapply tool_message_of_role.
Qed.

Lemma run_loop_conversation d sched C fuel w :
  awaiting_model C w ∨ awaiting_tools C w →
  match run_loop d sched fuel w with
  | (Finished result, w') => done C result w'
  | (Aborted e, w') =>
      ∃ suffix, heap w' = <[conv_loc C := conv_base C ++ suffix]> (conv_heap C)
  | (Stalled, _) => False
  | (OutOfFuel, w') => awaiting_model C w' ∨ awaiting_tools C w'
  end.
Proof.
  revert w. induction fuel as [|fuel IH]; intros w Hw; simpl; [done|].
  destruct Hw as [(mid & Hs & Htr & Hheap & Hq & Hbuf)
                 |(mid & resp & Hs & Htr & Hresp & Hheap & Hn & Hevs & Hne & Hperm)].
  - (* AWAITING_MODEL *)
    rewrite Hq, pick_singleton.
    destruct w as [h [ac llm l us n buf q st] calls]; unfold settled in Hs; simpl in *.
    destruct Hs as (-> & -> & -> & ->). subst.
    unfold mbind, M_bind, set_queue, modify_ctx; simpl.
    destruct (model_input (conv_config C) (conv_user_state C) (conv_base C ++ mid))
      as [[ts input]|] eqn:Hin.
    + pose proof (model_response_of_input (conv_llm C) _ _ _ _ _ Hin) as Hresp.
      destruct (get_tool_calls_from_response (conv_llm C)
                  (achat_with_tools (conv_llm C) ts input)) as [|tc tcs] eqn:Htc.
      * erewrite speak_with_agent_stop; [|done|apply lookup_insert_eq|done].
        eexists mid, _. split_and!; [done..| |done].
        simpl. by rewrite insert_insert_eq, <-app_assoc.
      * erewrite speak_with_agent_tools; [|done|apply lookup_insert_eq|by rewrite Htc].
        apply IH. right. exists mid, (achat_with_tools (conv_llm C) ts input).
        simpl. rewrite Htc. split_and!; try done.
        -- by rewrite insert_insert_eq, <-app_assoc.
        -- apply Forall_fmap, Forall_true. done.
        -- rewrite app_nil_r, <-list_fmap_compose.
           apply model_input_tools in Hin as ->. done.
    + destruct (speak_with_agent_raise (<[conv_loc C:=conv_base C ++ mid]> (conv_heap C))
                  (conv_config C) (conv_llm C) (conv_loc C) (conv_user_state C)
                  n [] [] st calls) as (e & -> & _); [by eapply model_input_None|].
      by exists mid.
  - (* DISPATCHING_TOOLS / AGGREGATING *)
    destruct (pick _ _) as [[ev rest]|] eqn:Hpick; [|by apply pick_None in Hpick].
    apply pick_Some in Hpick.
    rewrite Hpick in Hevs. apply Forall_cons in Hevs as [Hev Hrest].
    rewrite Hpick in Hperm. clear Hpick Hne.
    pose proof (Permutation_length Hperm) as Hlen.
    rewrite length_app, !length_fmap in Hlen.
    destruct w as [h [ac llm l us n buf q st] calls]; unfold settled in Hs; simpl in *.
    destruct Hs as (-> & -> & -> & ->). subst.
    unfold mbind, M_bind, set_queue, modify_ctx; simpl.
    destruct ev as [| |tool_call ev_tools|chat_message|]; simpl in Hev; try done; simpl.
    + (* a tool call is handled *)
      destruct (tool_message_of ev_tools tool_call) as [tool_msg|] eqn:Hmsg.
      * erewrite handle_tool_call_message by done. simpl.
        apply IH. right. exists mid, resp. simpl. split_and!; try done.
        -- apply Forall_app. split; [done|]. by apply Forall_singleton.
        -- by destruct rest.
        -- rewrite <-Hperm, fmap_app. simpl. rewrite Hmsg.
           by rewrite <-Permutation_cons_append.
      * destruct (handle_tool_call_no_message tool_call ev_tools
                    (mkWorld (<[conv_loc C:=conv_base C ++ mid ++ [message resp]]> (conv_heap C))
                       (mkContext (Some (conv_config C)) (Some (conv_llm C))
                          (Some (conv_loc C)) (Some (conv_user_state C))
                          (Some (length (get_tool_calls_from_response (conv_llm C) resp)))
                          buf rest st) calls) Hmsg) as [e ->].
        by eexists.
    + (* a tool result arrives *)
      destruct rest as [|ev' rest'].
      * erewrite aggregate_tool_results_full by (simpl in *; lia).
        apply IH. left. exists (mid ++ message resp :: (buf ++ [chat_message])).
        simpl. split_and!; try done.
        -- eapply transcript_round; try done.
           ++ intros Hnil. rewrite Hnil in Hlen. simpl in Hlen. lia.
           ++ rewrite <-Hperm, fmap_app. simpl. by rewrite <-Permutation_cons_append.
        -- rewrite alter_insert_eq. f_equal.
           rewrite <-!app_assoc. done.
      * erewrite aggregate_tool_results_partial by (simpl in *; lia).
        apply IH. right. exists mid, resp. simpl. split_and!; try done.
        rewrite <-Hperm, fmap_app. simpl.
        rewrite app_assoc, app_comm_cons. symmetry. apply Permutation_cons_append.
Qed.

(** ** From [run] to the phases *)

Lemma start_conversation_Some d h kwargs C :
  start_conversation d h kwargs = Some C →
  ∃ user_msg,
    ev_get (ev_user_msg kwargs) None = Some user_msg ∧
    ev_get (ev_llm kwargs) (Some d) = Some (conv_llm C) ∧
    conv_config C = ev_get (ev_agent_config kwargs) None ∧
    conv_user_state C = ev_get (ev_initial_state kwargs) (Some []) ∧
    conv_heap C = h ∧
    ((ev_chat_history kwargs = Omitted ∧ conv_loc C = fresh (dom h) ∧
      conv_base C = [mkChatMessage USER (Some user_msg) []]) ∨
     (ev_chat_history kwargs = Given (Some (conv_loc C)) ∧
      conv_base C = default [] (h !! conv_loc C) ++ [mkChatMessage USER (Some user_msg) []])).
Proof.
  unfold start_conversation.
  destruct (ev_get (ev_user_msg kwargs) None) as [user_msg|]; simpl; [|done].
  destruct (ev_get (ev_llm kwargs) (Some d)) as [llm|]; simpl; [|done].
  destruct (ev_chat_history kwargs) as [|[l|]]; [| |done]; intros [= <-]; simpl;
    exists user_msg; split_and!; auto.
Qed.

Lemma start_conversation_None d h kwargs :
  start_conversation d h kwargs = None ↔
    ev_get (ev_user_msg kwargs) None = None ∨
    ev_get (ev_llm kwargs) (Some d) = None ∨
    ev_chat_history kwargs = Given None.
Proof.
  unfold start_conversation.
  destruct (ev_get (ev_user_msg kwargs) None) as [user_msg|]; simpl; [|split; auto].
  destruct (ev_get (ev_llm kwargs) (Some d)) as [llm|]; simpl; [|split; auto].
  destruct (ev_chat_history kwargs) as [|[l|]];
    (split; [try done; auto|intros [H|[H|H]]; congruence]).
Qed.

Lemma setup_started d kwargs h c calls C :
  start_conversation d h kwargs = Some C →
  is_function_calling_model (conv_llm C) = true →
  history_allocated h kwargs →
  setup d kwargs (mkWorld h c calls) =
    (Ok (Some LLMCallEvent),
     mkWorld (<[conv_loc C := conv_base C]> h)
       (mkContext (Some (conv_config C)) (Some (conv_llm C)) (Some (conv_loc C))
          (Some (conv_user_state C))
          (ctx_num_tool_calls c) (events_buffer c) (queue c) (stream c))
       calls).
Proof.
  intros (user_msg & Hu & Hl & -> & -> & _ & Hloc)%start_conversation_Some Hfc Halloc.
  destruct Hloc as [(Hc & -> & ->)|(Hc & ->)].
  - by apply setup_omitted.
  - destruct (Halloc _ Hc) as [hist Hhist]. rewrite Hhist. simpl.
    by apply setup_given.
Qed.

(** [setup] raises exactly when a required input is [None] or the model is
    not a function-calling model. *)
Lemma setup_raises_iff d kwargs w :
  (∃ e, (setup d kwargs w).1 = Raise e) ↔
    (ev_get (ev_user_msg kwargs) None = None ∨
     ev_get (ev_llm kwargs) (Some d) = None ∨
     ev_chat_history kwargs = Given None) ∨
    (∃ llm, ev_get (ev_llm kwargs) (Some d) = Some llm ∧
            is_function_calling_model llm = false).
Proof.
  unfold setup. unfold_m.
  destruct (ev_get (ev_user_msg kwargs) None) as [user_msg|];
    (destruct (ev_get (ev_llm kwargs) (Some d)) as [m|];
       [destruct (is_function_calling_model m) eqn:Hfc|]);
    destruct (ev_chat_history kwargs) as [|[l|]]; simpl;
    (split;
      [ intros [e He];
        first [ discriminate He
              | right; eexists; split; [reflexivity|assumption]
              | left; auto ]
      | intros [[H|[H|H]]|(llm & H1 & H2)];
        first [ discriminate | congruence | eexists; reflexivity ] ]).
Qed.

Lemma run_started d sched fuel h kwargs C :
  start_conversation d h kwargs = Some C →
  is_function_calling_model (conv_llm C) = true →
  history_allocated h kwargs →
  ∃ w1, run d sched (S fuel) h kwargs = run_loop d sched fuel w1 ∧
        awaiting_model C w1 ∧ llm_calls w1 = [].
Proof.
  intros HC Hfc Halloc. unfold run. simpl. rewrite pick_singleton.
  unfold mbind, M_bind, set_queue, modify_ctx; simpl.
  erewrite setup_started by done. simpl.
  eexists. split; [reflexivity|]. split; [|done].
  exists []. unfold settled. simpl. rewrite app_nil_r. split_and!; try done.
  - constructor.
  - apply start_conversation_Some in HC as (? & _ & _ & _ & _ & -> & _). done.
Qed.

Lemma run_not_started d sched fuel h kwargs e :
  (setup d kwargs
     (mkWorld h (mkContext None None None None None [] [] []) [])).1 = Raise e →
  ∃ w', run d sched (S fuel) h kwargs = (Aborted e, w') ∧
        exn_class e = ValueError ∧ llm_calls w' = [].
Proof.
  intros Hraise. unfold run. simpl. rewrite pick_singleton.
  unfold mbind, M_bind, set_queue, modify_ctx; simpl.
  pose proof (setup_llm_calls d kwargs
    (mkWorld h (mkContext None None None None None [] [] []) [])) as Hcalls.
  pose proof (setup_raises d kwargs
    (mkWorld h (mkContext None None None None None [] [] []) []) e Hraise) as Hcls.
  destruct (setup d kwargs _) as [[out|e'] w']; simpl in *; [done|].
  injection Hraise as ->. by exists w'.
Qed.

(** A run either is aborted by [setup], or goes through the phases of the
    conversation that [setup] started. *)
Lemma run_conversation d sched fuel h kwargs :
  history_allocated h kwargs →
  (∃ e w', run d sched (S fuel) h kwargs = (Aborted e, w') ∧
           exn_class e = ValueError ∧ llm_calls w' = [] ∧
           (setup d kwargs
              (mkWorld h (mkContext None None None None None [] [] []) [])).1 = Raise e) ∨
  (∃ C, start_conversation d h kwargs = Some C ∧
        is_function_calling_model (conv_llm C) = true ∧
        match run d sched (S fuel) h kwargs with
        | (Finished result, w') => done C result w'
        | (Aborted e, w') =>
            ∃ suffix, heap w' = <[conv_loc C := conv_base C ++ suffix]> (conv_heap C)
        | (Stalled, _) => False
        | (OutOfFuel, w') => awaiting_model C w' ∨ awaiting_tools C w'
        end).
Proof.
  intros Halloc.
  destruct (setup d kwargs (mkWorld h (mkContext None None None None None [] [] []) [])).1
    as [out|e] eqn:Hsetup.
  - right.
    assert (¬ ∃ e, (setup d kwargs
        (mkWorld h (mkContext None None None None None [] [] []) [])).1 = Raise e)
      as Hvalid by (rewrite Hsetup; by intros [? ?]).
    rewrite setup_raises_iff in Hvalid.
    destruct (start_conversation d h kwargs) as [C|] eqn:HC.
    2: { apply start_conversation_None in HC. destruct Hvalid. by left. }
    assert (is_function_calling_model (conv_llm C) = true) as Hfc.
    { apply start_conversation_Some in HC as (? & _ & Hl & _).
      destruct (is_function_calling_model (conv_llm C)) eqn:E; [done|].
      destruct Hvalid. right. by eexists. }
    destruct (run_started d sched fuel h kwargs C HC Hfc Halloc) as (w1 & Hw1 & Hphase & _).
    exists C. split_and!; [done..|]. rewrite Hw1.
    apply run_loop_conversation. by left.
  - left. destruct (run_not_started d sched fuel h kwargs e Hsetup) as (w' & ? & ? & ?).
    by exists e, w'.
Qed.

(** A run that finishes went through a successful [setup] and ended in
    state DONE of the conversation it started. *)
Lemma run_finished d sched fuel h kwargs result w' :
  history_allocated h kwargs →
  run d sched fuel h kwargs = (Finished result, w') →
  ∃ C, start_conversation d h kwargs = Some C ∧
       is_function_calling_model (conv_llm C) = true ∧
       done C result w'.
Proof.
  intros Halloc Hrun. destruct fuel as [|fuel]; [done|].
  destruct (run_conversation d sched fuel h kwargs Halloc)
    as [(e & w & Hab & _)|(C & HC & Hfc & Hout)]; [congruence|].
  rewrite Hrun in Hout. by exists C.
Qed.

(** A run that is stopped for lack of fuel is found in one of the two
    phases of its conversation. *)
Lemma run_out_of_fuel d sched fuel h kwargs w' :
  history_allocated h kwargs →
  run d sched (S fuel) h kwargs = (OutOfFuel, w') →
  ∃ C, start_conversation d h kwargs = Some C ∧
       (awaiting_model C w' ∨ awaiting_tools C w').
Proof.
  intros Halloc Hrun.
  destruct (run_conversation d sched fuel h kwargs Halloc)
    as [(e & w & Hab & _)|(C & HC & Hfc & Hout)]; [congruence|].
  rewrite Hrun in Hout. by exists C.
Qed.

(** The loop never runs dry: a run always has a pending event to handle. *)
Lemma run_never_stalls d sched fuel h kwargs w' :
  history_allocated h kwargs →
  run d sched fuel h kwargs ≠ (Stalled, w').
Proof.
  intros Halloc Hrun. destruct fuel as [|fuel]; [done|].
  destruct (run_conversation d sched fuel h kwargs Halloc)
    as [(e & w & Hab & _)|(C & HC & Hfc & Hout)]; [congruence|].
  by rewrite Hrun in Hout.
Qed.

(** ** The join barrier *)

Lemma arrive_partial h ac llm l us n q st calls results buf :
  length buf + length results < n →
  arrive results (mkWorld h (mkContext ac llm l us (Some n) buf q st) calls)
    = (Ok (replicate (length results) None),
       mkWorld h (mkContext ac llm l us (Some n) (buf ++ results) q st) calls).
Proof.
  revert buf. induction results as [|r results IH]; intros buf Hlen; simpl.
  - by rewrite app_nil_r.
  - simpl in Hlen. unfold mbind, M_bind.
    rewrite aggregate_tool_results_partial by lia.
    rewrite IH by (rewrite length_app; simpl; lia).
    by rewrite <-app_assoc.
Qed.

Lemma arrive_full h ac llm l us n q st calls results buf :
  results ≠ [] →
  length buf + length results = n →
  arrive results (mkWorld h (mkContext ac llm (Some l) us (Some n) buf q st) calls)
    = (Ok (replicate (length results - 1) None ++ [Some LLMCallEvent]),
       mkWorld (alter (λ xs, xs ++ (buf ++ results)) l h)
         (mkContext ac llm (Some l) us (Some n) [] q st) calls).
Proof.
  revert buf. induction results as [|r [|r' results] IH]; intros buf Hne Hlen; [done| |].
  - simpl in *. unfold mbind, M_bind.
    by rewrite aggregate_tool_results_full by lia.
  - change (arrive (r :: r' :: results)) with
      (out ← aggregate_tool_results r; outs ← arrive (r' :: results); mret (out :: outs)).
    unfold mbind, M_bind at 1.
    rewrite aggregate_tool_results_partial by (simpl in *; lia).
    unfold mbind, M_bind at 1.
    rewrite IH by (try done; rewrite length_app; simpl in *; lia).
    unfold mret, M_ret. simpl. rewrite Nat.sub_0_r. by rewrite <-app_assoc.
Qed.

(** C2: in a round of [n >= 1] tool calls, while fewer than [n] results
    have arrived at [aggregate_tool_results] the step returns no event and
    changes nothing but the buffer of arrived results (the chat history,
    the rest of the context, the pending events and the stream are as
    before); when the [n]-th result arrives the [n] messages are appended
    to the chat history in their order of arrival, the buffer is empty
    again, and that arrival alone returns the [LLMCallEvent] that leads
    back to the model call.  So at any point of a run, under any order of
    handling, either the model call is pending, nothing is buffered and
    the history holds complete rounds only (each with the tool messages of
    the calls the model asked for, one for each call), or a round is under
    way: every call of the round is a pending call, a pending result or a
    buffered result, at least one is pending, and no tool message of the
    round is in the history yet. *)
Theorem aggregate_tool_results_join_barrier d sched :
  (∀ h ac llm l us n q st calls (results : list ChatMessage) hist,
     1 ≤ n →
     length results = n →
     h !! l = Some hist →
     (∀ k, k < n →
        arrive (take k results)
            (mkWorld h (mkContext ac llm (Some l) us (Some n) [] q st) calls)
          = (Ok (replicate k None),
             mkWorld h
               (mkContext ac llm (Some l) us (Some n) (take k results) q st) calls)) ∧
     arrive results (mkWorld h (mkContext ac llm (Some l) us (Some n) [] q st) calls)
       = (Ok (replicate (n - 1) None ++ [Some LLMCallEvent]),
          mkWorld (<[l := hist ++ results]> h)
            (mkContext ac llm (Some l) us (Some n) [] q st) calls)) ∧
  (∀ fuel h kwargs w',
     history_allocated h kwargs →
     run d sched (S fuel) h kwargs = (OutOfFuel, w') →
     ∃ C, start_conversation d h kwargs = Some C ∧
          (awaiting_model C w' ∨ awaiting_tools C w')).
Proof.
  split.
  - intros h ac llm l us n q st calls results hist Hn Hlen Hh. split.
    + intros k Hk.
      rewrite arrive_partial by (rewrite length_take; simpl; lia).
      rewrite length_take, Nat.min_l by lia. done.
    + rewrite arrive_full by (try (by destruct results; simpl in *; [lia|]); simpl; lia).
      rewrite Hlen. simpl. do 3 f_equal.
      apply map_eq. intros k. rewrite lookup_alter, lookup_insert.
      case_decide; [subst|done]. by rewrite Hh.
  - intros fuel h kwargs w'. apply run_out_of_fuel.
Qed.

(** ** Tool calls *)

(** C1 (as the code behaves): a tool call that names a tool the registry
    does not have makes [handle_tool_call] raise an [AttributeError], at
    the point where it reads the name of the tool it did not find, before
    the branch that would build the message that the tool does not exist;
    no tool message is produced and the world is left as it was.  So it
    is for the call of a tool [multiply] to the notebook's agent, and the
    run that dispatched this call is aborted with that exception. *)
Theorem handle_tool_call_absent_tool_raises :
  (∀ tool_call ts w,
     tool_name tool_call ∉ get_name <$> ts →
     handle_tool_call tool_call (Some ts) w
       = (Raise (mkExn AttributeError "'NoneType' object has no attribute 'metadata'"), w)) ∧
  (∀ w,
     handle_tool_call (Notebook.the_call "multiply")
         (Some [Notebook.add_two_numbers_tool]) w
       = (Raise (mkExn AttributeError "'NoneType' object has no attribute 'metadata'"), w)) ∧
  run Notebook.refusing Notebook.fifo 10 Notebook.caller_heap
      (Notebook.kwargs Notebook.agent_config (Notebook.asking_for "multiply")
         "What is 10 * 10?")
    = (Aborted (mkExn AttributeError "'NoneType' object has no attribute 'metadata'"),
       mkWorld
         (<[Notebook.history :=
              [Notebook.earlier;
               mkChatMessage USER (Some "What is 10 * 10?") [];
               mkChatMessage ASSISTANT None []]]> Notebook.caller_heap)
         (mkContext (Some (Some Notebook.agent_config))
            (Some (Notebook.asking_for "multiply")) (Some Notebook.history)
            (Some (Some Notebook.user_state)) (Some 1) [] [] [])
         [[mkChatMessage SYSTEM
             (Some (system_message_content
                      "You are an agent that adds two numbers together. Do not help the user with anything else."
                      Notebook.user_state)) [];
           Notebook.earlier;
           mkChatMessage USER (Some "What is 10 * 10?") []]]).
Proof.
  split_and!.
  - intros tool_call ts w Habsent. by apply handle_tool_call_absent, tools_by_name_None.
  - intros w. by apply handle_tool_call_absent.
  - vm_compute. reflexivity.
Qed.

(** C3 (as the code behaves): when the tool named by the call is in the
    registry and its invocation raises an instance of [Exception], which
    is what the step's [except Exception] catches, [handle_tool_call] does
    not raise: it returns one tool message whose content is the text
    "Encountered error in tool call: " followed by the description of the
    error, and records one progress event; the chat history is untouched
    by the step.  The message then goes through the aggregation step like
    any other tool output: arriving as the last result of its round, it is
    appended to the chat history after the results buffered before it, and
    the model is called again. *)
Theorem handle_tool_call_catches_tool_error
    tool_call ts t e h ac llm l us n buf q st calls :
  tools_by_name ts !! tool_name tool_call = Some t →
  acall t (tool_kwargs tool_call) = Raises e →
  is_Exception (exn_class e) = true →
  let tool_msg :=
    mkChatMessage TOOL (Some ("Encountered error in tool call: " +:+ exn_str e))
      [("tool_call_id", tool_id tool_call); ("name", get_name t)] in
  let progress := mkProgressEvent (progress_msg tool_call tool_msg) in
  handle_tool_call tool_call (Some ts)
      (mkWorld h (mkContext ac llm (Some l) us (Some n) buf q st) calls)
    = (Ok (Some (ToolCallResultEvent tool_msg)),
       mkWorld h (mkContext ac llm (Some l) us (Some n) buf q (st ++ [progress])) calls) ∧
  (length buf + 1 = n →
   aggregate_tool_results tool_msg
       (mkWorld h (mkContext ac llm (Some l) us (Some n) buf q (st ++ [progress])) calls)
     = (Ok (Some LLMCallEvent),
        mkWorld (alter (λ xs, xs ++ (buf ++ [tool_msg])) l h)
          (mkContext ac llm (Some l) us (Some n) [] q (st ++ [progress])) calls)).
Proof.
  intros Ht Hc He tool_msg progress. split.
  - by apply (handle_tool_call_caught tool_call ts t e).
  - intros Hlen. by apply aggregate_tool_results_full.
Qed.

(** ** Termination of the loop *)

(** C4: when the model's response has no tool call, the step appends the
    response message to the chat history, sends no event (no tool work is
    dispatched: the queue stays empty), leaves the rest of the context as
    it was, and the loop ends there with a result made of the content of
    that message and the chat-history list.  This is the only way the loop
    ends with a result: a run that finishes went through a successful
    setup and ended in state DONE, where the last model response had no
    tool call, its message is the last of the history, and the result
    carries its content. *)
Theorem zero_tool_calls_is_the_only_way_to_finish d sched :
  (∀ fuel h ac llm l us n buf st calls hist ts input,
     model_input ac us hist = Some (ts, input) →
     h !! l = Some hist →
     get_tool_calls_from_response llm (achat_with_tools llm ts input) = [] →
     run_loop d sched (S fuel)
         (mkWorld h (mkContext (Some ac) (Some llm) (Some l) (Some us) n buf
                       [LLMCallEvent] st) calls)
       = (Finished (mkRunResult (content (message (achat_with_tools llm ts input))) l),
          mkWorld (<[l := hist ++ [message (achat_with_tools llm ts input)]]> h)
            (mkContext (Some ac) (Some llm) (Some l) (Some us) n buf [] st)
            (calls ++ [input]))) ∧
  (∀ fuel h kwargs result w',
     history_allocated h kwargs →
     run d sched fuel h kwargs = (Finished result, w') →
     ∃ C, start_conversation d h kwargs = Some C ∧ done C result w').
Proof.
  split.
  - intros fuel h ac llm l us n buf st calls hist ts input Hin Hh Htc.
    simpl. rewrite pick_singleton.
    unfold mbind, M_bind, set_queue, modify_ctx; simpl.
    by erewrite speak_with_agent_stop.
  - intros fuel h kwargs result w' Halloc Hrun.
    destruct (run_finished d sched fuel h kwargs result w' Halloc Hrun) as (C & HC & _ & Hd).
    by exists C.
Qed.

(** ** Setup *)

(** C5: [setup] raises if and only if the user message, the model or the
    chat history is [None], or the model is not a function-calling model.
    [setup] itself never calls the model, and when it raises the run is
    aborted with that [ValueError] without any model call having been
    made. *)
Theorem setup_raises_iff_input_invalid d sched h kwargs :
  let invalid :=
    (ev_get (ev_user_msg kwargs) None = None ∨
     ev_get (ev_llm kwargs) (Some d) = None ∨
     ev_chat_history kwargs = Given None) ∨
    (∃ llm, ev_get (ev_llm kwargs) (Some d) = Some llm ∧
            is_function_calling_model llm = false) in
  (∀ w, (∃ e, (setup d kwargs w).1 = Raise e) ↔ invalid) ∧
  (∀ w, llm_calls (setup d kwargs w).2 = llm_calls w) ∧
  (∀ fuel, invalid →
     ∃ e w', run d sched (S fuel) h kwargs = (Aborted e, w') ∧
             exn_class e = ValueError ∧ llm_calls w' = []).
Proof.
  intros invalid. split_and!.
  - intros w. apply setup_raises_iff.
  - intros w. apply setup_llm_calls.
  - intros fuel Hinv.
    apply (setup_raises_iff d kwargs
             (mkWorld h (mkContext None None None None None [] [] []) [])) in Hinv
      as [e He].
    exists e. by apply run_not_started.
Qed.

(** ** The system message *)

Lemma split_lines_system_message_content prompt items :
  Forall (λ kv, single_line (user_state_line kv) = true) items →
  split_lines (system_message_content prompt items)
    = split_lines (strip prompt)
        ++ [""; "Here is the current user state:"]
        ++ match items with
           | [] => [""]
           | _ => user_state_line <$> items
           end.
Proof.
  intros Hall. unfold system_message_content.
  rewrite split_lines_app_LF.
  change (LF +:+ "Here is the current user state:" +:+ LF +:+ ?s)
    with ("" +:+ LF +:+ "Here is the current user state:" +:+ LF +:+ s).
  rewrite !split_lines_app_LF. simpl (split_lines ""). f_equal.
  rewrite (split_lines_single "Here is the current user state:") by done.
  simpl. do 2 f_equal.
  destruct items as [|kv items]; [done|].
  apply split_lines_join; [done|]. by apply Forall_fmap.
Qed.

(** C6: the system message sent to the model has as content the agent's
    system prompt (stripped of surrounding white space), then an empty
    line and the line "Here is the current user state:", then the entries
    of the user state rendered as [key: value] and joined by line feeds,
    in the order of the mapping.  When no rendered entry contains a line
    feed, the lines after the header are exactly one [key: value] line per
    entry, in insertion order; in particular for the user state
    [{"user_name": "Logan"}] the content has the line [user_name: Logan],
    whatever the prompt. *)
Theorem system_message_renders_user_state
    h cfg llm l n buf q st calls prompt (items : pydict) hist :
  system_prompt cfg = Some prompt →
  h !! l = Some hist →
  let w := mkWorld h (mkContext (Some (Some cfg)) (Some llm) (Some l) (Some (Some items))
                        n buf q st) calls in
  let text :=
    strip prompt +:+ LF +:+ LF +:+ "Here is the current user state:" +:+ LF
      +:+ join LF ((λ kv, kv.1 +:+ ": " +:+ py_str kv.2) <$> items) in
  llm_calls (speak_with_agent w).2 = calls ++ [mkChatMessage SYSTEM (Some text) [] :: hist] ∧
  (Forall (λ kv, single_line (kv.1 +:+ ": " +:+ py_str kv.2) = true) items →
   split_lines text
     = split_lines (strip prompt) ++ [""; "Here is the current user state:"]
         ++ match items with
            | [] => [""]
            | _ => (λ kv, kv.1 +:+ ": " +:+ py_str kv.2) <$> items
            end) ∧
  (items = [("user_name", VStr "Logan")] → "user_name: Logan" ∈ split_lines text).
Proof.
  intros Hprompt Hh w text.
  assert (model_input (Some cfg) (Some items) hist
            = Some (tools cfg, mkChatMessage SYSTEM (Some text) [] :: hist)) as Hin.
  { unfold model_input. simpl. by rewrite Hprompt. }
  split_and!.
  - unfold w.
    destruct (get_tool_calls_from_response llm
                (achat_with_tools llm (tools cfg) (mkChatMessage SYSTEM (Some text) [] :: hist)))
      eqn:Htc.
    + by erewrite speak_with_agent_stop.
    + erewrite speak_with_agent_tools; [done..|by rewrite Htc].
  - apply split_lines_system_message_content.
  - intros ->.
    change text with (system_message_content prompt [("user_name", VStr "Logan")]).
    rewrite split_lines_system_message_content by (by repeat constructor).
    rewrite !elem_of_app. right. right. by apply list_elem_of_singleton.
Qed.

(** ** The chat history of a finished run *)

Lemma conv_base_before d h kwargs C user_msg :
  start_conversation d h kwargs = Some C →
  ev_get (ev_user_msg kwargs) None = Some user_msg →
  conv_base C = default [] (h !! conv_loc C) ++ [mkChatMessage USER (Some user_msg) []].
Proof.
  intros (u & Hu & _ & _ & _ & _ & Hloc)%start_conversation_Some Hu'.
  assert (u = user_msg) as -> by congruence.
  destruct Hloc as [(_ & -> & ->)|(_ & ->)]; [|done].
  assert (h !! fresh (dom h) = None) as ->; [|done].
  apply not_elem_of_dom, is_fresh.
Qed.

(** C7: in the chat history a finished run returns, the messages of the
    caller's list (none for a fresh list) are followed by the new user
    message, then by the messages of the complete tool rounds (each the
    message of a model response that asked for tools, followed by one tool
    message for each call it asked for), then by the final assistant
    message, which is the last element and whose content is the response
    of the result.  The run appended the user message once, right after
    the caller's messages, and the final assistant message once, at the
    end; nothing else was appended but the rounds between them. *)
Theorem finished_run_appends_user_then_final d sched fuel h kwargs result w' :
  history_allocated h kwargs →
  run d sched fuel h kwargs = (Finished result, w') →
  ∃ C user_msg mid final,
    start_conversation d h kwargs = Some C ∧
    ev_get (ev_user_msg kwargs) None = Some user_msg ∧
    chat_history result = conv_loc C ∧
    response result = content final ∧
    transcript C mid ∧
    heap w' !! chat_history result
      = Some (default [] (h !! conv_loc C)
                ++ [mkChatMessage USER (Some user_msg) []] ++ mid ++ [final]) ∧
    length (default [] (heap w' !! chat_history result))
      = length (default [] (h !! conv_loc C)) + 1 + length mid + 1.
Proof.
  intros Halloc Hrun.
  destruct (run_finished d sched fuel h kwargs result w' Halloc Hrun)
    as (C & HC & _ & mid & resp & Htr & Hresp & Htc & Hheap & ->).
  destruct (start_conversation_Some _ _ _ _ HC) as (user_msg & Hu & _).
  exists C, user_msg, mid, (message resp). simpl.
  rewrite Hheap, lookup_insert_eq, (conv_base_before d h kwargs C user_msg) by done.
  split_and!; try done.
  - by rewrite <-!app_assoc.
  - simpl. rewrite !length_app. simpl. lia.
Qed.

(** ** Duplicate tool names *)

(** C8 (as the code behaves): constructing an [AgentConfig] fails
    validation only when the name or the description is missing; the tools
    play no part, so a configuration with a name and a description is
    constructed also when two of its tools have the same name.  In the
    name lookup of [handle_tool_call] the last tool of the list that
    carries a name is the one found, so a later tool shadows an earlier
    one of the same name. *)
Theorem agent_config_accepts_duplicate_tool_names
    name description system_prompt (ts : option (list Tool)) :
  ((∃ e, AgentConfig_new name description system_prompt ts = Raise e)
     ↔ name = None ∨ description = None) ∧
  (∀ name' description',
     name = Some name' → description = Some description' →
     AgentConfig_new name description system_prompt ts
       = Ok (mkAgentConfig name' description' system_prompt ts)) ∧
  (∀ registered nm,
     ts = Some registered →
     tools_by_name registered !! nm = last (filter (λ t, get_name t = nm) registered)).
Proof.
  split_and!.
  - destruct name, description; simpl; split;
      first [ by intros [? ?] | by intros [?|?] | by eexists | auto ].
  - by intros ? ? -> ->.
  - intros registered nm _. apply tools_by_name_lookup.
Qed.

(** ** A configuration without system prompt *)

Lemma speak_with_agent_no_prompt h cfg llm l us n buf q st calls :
  system_prompt cfg = None →
  speak_with_agent
      (mkWorld h (mkContext (Some (Some cfg)) (Some llm) (Some l) (Some us) n buf q st) calls)
    = (Raise (mkExn AttributeError
                ("'NoneType' object has no attribute '"
                   +:+ (if us is Some _ then "strip" else "items") +:+ "'")),
       mkWorld h (mkContext (Some (Some cfg)) (Some llm) (Some l) (Some us) n buf q st) calls).
Proof.
  intros Hnone. unfold speak_with_agent. unfold_m. simpl.
  destruct us; simpl; [|done]. by rewrite Hnone.
Qed.

(** C9: a configuration may be constructed without system prompt (the
    field is optional).  With such a configuration every run that gets
    past [setup] is aborted by the model-call stage with an
    [AttributeError], before any model call; with a user state that is a
    mapping, it is the error of calling [strip] on [None].  At the
    model-call stage itself, with a configuration and a user state in
    place, the step raises if and only if the system prompt is [None]. *)
Theorem missing_system_prompt_aborts_run d sched :
  (∀ name description ts,
     AgentConfig_new (Some name) (Some description) None ts
       = Ok (mkAgentConfig name description None ts)) ∧
  (∀ fuel h kwargs C cfg,
     start_conversation d h kwargs = Some C →
     is_function_calling_model (conv_llm C) = true →
     history_allocated h kwargs →
     conv_config C = Some cfg →
     system_prompt cfg = None →
     ∃ e w',
       run d sched (S (S fuel)) h kwargs = (Aborted e, w') ∧
       exn_class e = AttributeError ∧
       llm_calls w' = [] ∧
       (is_Some (conv_user_state C) →
        exn_str e = "'NoneType' object has no attribute 'strip'")) ∧
  (∀ h cfg llm l items n buf q st calls hist,
     h !! l = Some hist →
     let w := mkWorld h (mkContext (Some (Some cfg)) (Some llm) (Some l)
                           (Some (Some items)) n buf q st) calls in
     ((∃ e, (speak_with_agent w).1 = Raise e) ↔ system_prompt cfg = None) ∧
     (system_prompt cfg = None →
      speak_with_agent w
        = (Raise (mkExn AttributeError "'NoneType' object has no attribute 'strip'"), w))).
Proof.
  split_and!.
  - done.
  - intros fuel h kwargs C cfg HC Hfc Halloc Hcfg Hnone.
    destruct (run_started d sched (S fuel) h kwargs C HC Hfc Halloc)
      as (w1 & -> & (mid & Hs & _ & _ & Hq & _) & Hcalls).
    simpl. rewrite Hq, pick_singleton.
    destruct w1 as [h1 [ac llm l us n buf q st] calls1]; unfold settled in Hs; simpl in *.
    destruct Hs as (-> & -> & -> & ->). subst. rewrite Hcfg.
    unfold mbind, M_bind, set_queue, modify_ctx; simpl.
    rewrite speak_with_agent_no_prompt by done.
    do 2 eexists. split_and!; [reflexivity|done..|].
    simpl. by intros [items ->].
  - intros h cfg llm l items n buf q st calls hist Hh w. split.
    + split.
      * intros [e He]. destruct (system_prompt cfg) as [prompt|] eqn:Hp; [|done].
        exfalso. unfold w in He.
        assert (model_input (Some cfg) (Some items) hist
                  = Some (tools cfg,
                          mkChatMessage SYSTEM
                            (Some (system_message_content prompt items)) [] :: hist))
          as Hin.
        { unfold model_input. simpl. by rewrite Hp. }
        destruct (get_tool_calls_from_response llm
                    (achat_with_tools llm (tools cfg)
                       (mkChatMessage SYSTEM
                          (Some (system_message_content prompt items)) [] :: hist)))
          eqn:Htc.
        -- by erewrite speak_with_agent_stop in He.
        -- erewrite speak_with_agent_tools in He; [done..|by rewrite Htc].
      * intros Hnone. unfold w. rewrite speak_with_agent_no_prompt by done. by eexists.
    + intros Hnone. unfold w. by rewrite speak_with_agent_no_prompt.
Qed.

(** ** The caller's chat history *)

(** C10: every step leaves each list of the heap in place and at most adds
    elements after the ones it had.  So whatever the outcome of a run, the
    list the caller passed as chat history still starts with the messages
    it had, in their order; and the chat history of the result of a
    finished run is that very list object, extended in place. *)
Theorem caller_history_is_preserved_as_prefix d sched :
  (∀ ev w k xs,
     heap w !! k = Some xs →
     ∃ suffix, heap (dispatch d ev w).2 !! k = Some (xs ++ suffix)) ∧
  (∀ fuel h kwargs l before,
     ev_chat_history kwargs = Given (Some l) →
     h !! l = Some before →
     (∃ suffix, heap (run d sched fuel h kwargs).2 !! l = Some (before ++ suffix)) ∧
     (∀ result,
        (run d sched fuel h kwargs).1 = Finished result →
        chat_history result = l)).
Proof.
  split.
  - intros ev w k xs Hk. by apply (appends_only_dispatch d ev w).
  - intros fuel h kwargs l before Hc Hh. split.
    + unfold run. eapply run_loop_heap_extends. done.
    + intros result Hres.
      assert (history_allocated h kwargs) as Halloc.
      { intros l' Hl'. rewrite Hc in Hl'. injection Hl' as <-. by eexists. }
      destruct (run d sched fuel h kwargs) as [out w'] eqn:Hrun. simpl in Hres. subst out.
      destruct (run_finished d sched fuel h kwargs result w' Halloc Hrun)
        as (C & HC & _ & mid & resp & _ & _ & _ & _ & ->).
      simpl. apply start_conversation_Some in HC as (? & _ & _ & _ & _ & _ & Hloc).
      destruct Hloc as [(Ho & _)|(Hg & _)]; congruence.
Qed.

(** * The notebook's runs *)

Lemma notebook_history_allocated cfg llm user_msg :
  history_allocated Notebook.caller_heap (Notebook.kwargs cfg llm user_msg).
Proof. intros l [= <-]. by eexists. Qed.

(** The first run of the notebook: one call of [add_two_numbers], its
    output fed back, and the answer of the model. *)
Example notebook_addition_run :
  let out := run Notebook.refusing Notebook.fifo 10 Notebook.caller_heap
               (Notebook.kwargs Notebook.agent_config
                  (Notebook.asking_for "add_two_numbers") "What is 10 + 10?") in
  out.1 = Finished (mkRunResult (Some "10 + 10 is 20.") Notebook.history) ∧
  heap out.2 !! Notebook.history
    = Some [Notebook.earlier;
            mkChatMessage USER (Some "What is 10 + 10?") [];
            mkChatMessage ASSISTANT None [];
            Notebook.tool_message "20";
            mkChatMessage ASSISTANT (Some "10 + 10 is 20.") []] ∧
  stream (ctx out.2)
    = [mkProgressEvent
         "Tool add_two_numbers called with {'a': 10, 'b': 10} returned 20"].
Proof. vm_compute. done. Qed.

(** The second run of the notebook: no tool call, the model answers. *)
Example notebook_refusal_run :
  (run Notebook.refusing Notebook.lifo 10 Notebook.caller_heap
     (Notebook.kwargs Notebook.agent_config Notebook.refusing
        "What is the capital of Canada?")).1
    = Finished (mkRunResult (Some "I can only help with adding two numbers.")
                  Notebook.history).
Proof. vm_compute. done. Qed.

(** A tool that raises does not abort the run. *)
Example failing_tool_run :
  let out := run Notebook.refusing Notebook.fifo 10 Notebook.caller_heap
               (Notebook.kwargs Notebook.divide_config (Notebook.asking_for "divide")
                  "What is 1 / 0?") in
  out.1 = Finished (mkRunResult
                      (Some "10 + 10 is Encountered error in tool call: division by zero.")
                      Notebook.history).
Proof. vm_compute. done. Qed.

(** * Instances of the theorems *)

Lemma aggregate_tool_results_join_barrier_witness :
  arrive [Notebook.tool_message "20"] (Notebook.aggregating 2)
    = (Ok [None],
       mkWorld Notebook.caller_heap
         (mkContext (Some (Some Notebook.agent_config))
            (Some (Notebook.asking_for "add_two_numbers"))
            (Some Notebook.history) (Some (Some Notebook.user_state)) (Some 2)
            [Notebook.tool_message "20"] [] [])
         []) ∧
  arrive [Notebook.tool_message "20"; Notebook.tool_message "30"] (Notebook.aggregating 2)
    = (Ok [None; Some LLMCallEvent],
       mkWorld
         (<[Notebook.history :=
              [Notebook.earlier; Notebook.tool_message "20"; Notebook.tool_message "30"]]>
            Notebook.caller_heap)
         (mkContext (Some (Some Notebook.agent_config))
            (Some (Notebook.asking_for "add_two_numbers"))
            (Some Notebook.history) (Some (Some Notebook.user_state)) (Some 2) [] [] [])
         []).
Proof.
  destruct (proj1 (aggregate_tool_results_join_barrier Notebook.refusing Notebook.fifo)
              Notebook.caller_heap (Some (Some Notebook.agent_config))
              (Some (Notebook.asking_for "add_two_numbers")) Notebook.history
              (Some (Some Notebook.user_state)) 2 [] [] []
              [Notebook.tool_message "20"; Notebook.tool_message "30"]
              [Notebook.earlier])
    as [Hpartial Hfull]; [lia|reflexivity|reflexivity|].
  split; [apply (Hpartial 1); lia|exact Hfull].
Defined.

Lemma handle_tool_call_catches_tool_error_witness :
  handle_tool_call (Notebook.the_call "divide") (Some [Notebook.divide_tool])
      (mkWorld Notebook.caller_heap
         (mkContext None None (Some Notebook.history) None (Some 1) [] [] []) [])
    = (Ok (Some (ToolCallResultEvent
             (mkChatMessage TOOL
                (Some "Encountered error in tool call: division by zero")
                [("tool_call_id", "call_1"); ("name", "divide")]))),
       mkWorld Notebook.caller_heap
         (mkContext None None (Some Notebook.history) None (Some 1) [] []
            [mkProgressEvent
               "Tool divide called with {'a': 10, 'b': 10} returned Encountered error in tool call: division by zero"])
         []).
Proof.
  exact (proj1 (handle_tool_call_catches_tool_error
                  (Notebook.the_call "divide") [Notebook.divide_tool] Notebook.divide_tool
                  (mkExn ZeroDivisionError "division by zero")
                  Notebook.caller_heap None None Notebook.history None 1 [] [] [] []
                  eq_refl eq_refl eq_refl)).
Defined.

(** C3, against the claim as stated: a tool of the registry whose
    invocation raises [KeyboardInterrupt], which is not an instance of
    [Exception].  The step does not catch it: no tool message is
    produced, the step raises, and the run that dispatched the call is
    aborted with that exception. *)
Lemma interrupted_tool_aborts_the_run :
  tools_by_name [Scenarios.interrupted_tool] !! "add_two_numbers"
    = Some Scenarios.interrupted_tool ∧
  acall Scenarios.interrupted_tool [("a", VInt 10); ("b", VInt 10)]
    = Raises (mkExn KeyboardInterrupt "") ∧
  handle_tool_call (Notebook.the_call "add_two_numbers")
      (Some [Scenarios.interrupted_tool]) (initial_world Notebook.caller_heap)
    = (Raise (mkExn KeyboardInterrupt ""), initial_world Notebook.caller_heap) ∧
  run Notebook.refusing Notebook.fifo 10 Notebook.caller_heap
      (Notebook.kwargs Scenarios.interrupted_config
         (Notebook.asking_for "add_two_numbers") "What is 10 + 10?")
    = (Aborted (mkExn KeyboardInterrupt ""),
       mkWorld
         (<[Notebook.history :=
              [Notebook.earlier;
               mkChatMessage USER (Some "What is 10 + 10?") [];
               mkChatMessage ASSISTANT None []]]> Notebook.caller_heap)
         (mkContext (Some (Some Scenarios.interrupted_config))
            (Some (Notebook.asking_for "add_two_numbers")) (Some Notebook.history)
            (Some (Some Notebook.user_state)) (Some 1) [] [] [])
         [[mkChatMessage SYSTEM
             (Some (system_message_content
                      "You are an agent that adds two numbers together. Do not help the user with anything else."
                      Notebook.user_state)) [];
           Notebook.earlier;
           mkChatMessage USER (Some "What is 10 + 10?") []]]).
Proof. split_and!; vm_compute; reflexivity. Qed.

Lemma zero_tool_calls_is_the_only_way_to_finish_witness :
  run_loop Notebook.refusing Notebook.lifo 1
      (mkWorld Notebook.caller_heap
         (mkContext (Some (Some Notebook.agent_config)) (Some Notebook.refusing)
            (Some Notebook.history) (Some (Some Notebook.user_state)) None []
            [LLMCallEvent] [])
         [])
    = (Finished (mkRunResult (Some "I can only help with adding two numbers.")
                   Notebook.history),
       mkWorld
         (<[Notebook.history :=
              [Notebook.earlier;
               mkChatMessage ASSISTANT (Some "I can only help with adding two numbers.") []]]>
            Notebook.caller_heap)
         (mkContext (Some (Some Notebook.agent_config)) (Some Notebook.refusing)
            (Some Notebook.history) (Some (Some Notebook.user_state)) None [] [] [])
         [[mkChatMessage SYSTEM
             (Some (system_message_content
                      "You are an agent that adds two numbers together. Do not help the user with anything else."
                      Notebook.user_state)) [];
           Notebook.earlier]]).
Proof.
  exact (proj1 (zero_tool_calls_is_the_only_way_to_finish Notebook.refusing Notebook.lifo)
           0 Notebook.caller_heap (Some Notebook.agent_config) Notebook.refusing
           Notebook.history (Some Notebook.user_state) None [] [] [] [Notebook.earlier]
           (Some [Notebook.add_two_numbers_tool])
           [mkChatMessage SYSTEM
              (Some (system_message_content
                       "You are an agent that adds two numbers together. Do not help the user with anything else."
                       Notebook.user_state)) [];
            Notebook.earlier]
           eq_refl eq_refl eq_refl).
Defined.

Lemma setup_raises_iff_input_invalid_witness :
  ∃ e w',
    run Notebook.refusing Notebook.fifo 1 Notebook.caller_heap
      (Notebook.kwargs Notebook.agent_config Notebook.plain_model "What is 10 + 10?")
      = (Aborted e, w') ∧
    exn_class e = ValueError ∧ llm_calls w' = [].
Proof.
  apply (proj2 (proj2 (setup_raises_iff_input_invalid Notebook.refusing Notebook.fifo
                         Notebook.caller_heap
                         (Notebook.kwargs Notebook.agent_config Notebook.plain_model
                            "What is 10 + 10?"))) 0).
  right. exists Notebook.plain_model. split; reflexivity.
Defined.

Lemma system_message_renders_user_state_witness :
  llm_calls
    (speak_with_agent
       (mkWorld Notebook.caller_heap
          (mkContext (Some (Some Notebook.agent_config)) (Some Notebook.refusing)
             (Some Notebook.history) (Some (Some Notebook.user_state)) None [] [] [])
          [])).2
    = [[mkChatMessage SYSTEM
          (Some ("You are an agent that adds two numbers together. Do not help the user with anything else."
                   +:+ LF +:+ LF +:+ "Here is the current user state:" +:+ LF
                   +:+ "user_name: Logan")) [];
        Notebook.earlier]] ∧
  "user_name: Logan"
    ∈ split_lines
        ("You are an agent that adds two numbers together. Do not help the user with anything else."
           +:+ LF +:+ LF +:+ "Here is the current user state:" +:+ LF
           +:+ "user_name: Logan").
Proof.
  destruct (system_message_renders_user_state Notebook.caller_heap Notebook.agent_config
              Notebook.refusing Notebook.history None [] [] [] []
              "You are an agent that adds two numbers together. Do not help the user with anything else."
              Notebook.user_state [Notebook.earlier] eq_refl eq_refl)
    as (Hcall & _ & Hline).
  split; [exact Hcall|exact (Hline eq_refl)].
Defined.

Lemma finished_run_appends_user_then_final_witness :
  ∃ C user_msg mid final,
    start_conversation Notebook.refusing Notebook.caller_heap
      (Notebook.kwargs Notebook.agent_config (Notebook.asking_for "add_two_numbers")
         "What is 10 + 10?") = Some C ∧
    ev_get (Given (Some "What is 10 + 10?")) None = Some user_msg ∧
    Notebook.history = conv_loc C ∧
    Some "10 + 10 is 20." = content final ∧
    transcript C mid ∧
    heap (run Notebook.refusing Notebook.fifo 10 Notebook.caller_heap
            (Notebook.kwargs Notebook.agent_config (Notebook.asking_for "add_two_numbers")
               "What is 10 + 10?")).2 !! Notebook.history
      = Some (default [] (Notebook.caller_heap !! conv_loc C)
                ++ [mkChatMessage USER (Some user_msg) []] ++ mid ++ [final]) ∧
    length (default []
              (heap (run Notebook.refusing Notebook.fifo 10 Notebook.caller_heap
                       (Notebook.kwargs Notebook.agent_config
                          (Notebook.asking_for "add_two_numbers")
                          "What is 10 + 10?")).2 !! Notebook.history))
      = length (default [] (Notebook.caller_heap !! conv_loc C)) + 1 + length mid + 1.
Proof.
  apply (finished_run_appends_user_then_final Notebook.refusing Notebook.fifo 10
           Notebook.caller_heap
           (Notebook.kwargs Notebook.agent_config (Notebook.asking_for "add_two_numbers")
              "What is 10 + 10?")
           (mkRunResult (Some "10 + 10 is 20.") Notebook.history)).
  - intros l Hl. injection Hl as <-. by eexists.
  - vm_compute. reflexivity.
Defined.

(** C8, against the claim as stated: an [AgentConfig] whose two tools
    have the same name is constructed without error. *)
Lemma duplicate_tool_names_pass_validation :
  get_name Notebook.add_two_numbers_tool = get_name Notebook.shadowing_tool ∧
  AgentConfig_new (Some "Addition Agent") (Some "Used to add two numbers together.") None
      (Some [Notebook.add_two_numbers_tool; Notebook.shadowing_tool])
    = Ok (mkAgentConfig "Addition Agent" "Used to add two numbers together." None
            (Some [Notebook.add_two_numbers_tool; Notebook.shadowing_tool])) ∧
  ¬ (∃ e, AgentConfig_new (Some "Addition Agent")
            (Some "Used to add two numbers together.") None
            (Some [Notebook.add_two_numbers_tool; Notebook.shadowing_tool]) = Raise e).
Proof. split_and!; [reflexivity..|]. intros [e He]. discriminate He. Qed.

Lemma agent_config_accepts_duplicate_tool_names_witness :
  AgentConfig_new (Some "Addition Agent") (Some "Used to add two numbers together.") None
      (Some [Notebook.add_two_numbers_tool; Notebook.shadowing_tool])
    = Ok (mkAgentConfig "Addition Agent" "Used to add two numbers together." None
            (Some [Notebook.add_two_numbers_tool; Notebook.shadowing_tool])) ∧
  tools_by_name [Notebook.add_two_numbers_tool; Notebook.shadowing_tool] !! "add_two_numbers"
    = last (filter (λ t, get_name t = "add_two_numbers")
              [Notebook.add_two_numbers_tool; Notebook.shadowing_tool]).
Proof.
  destruct (agent_config_accepts_duplicate_tool_names (Some "Addition Agent")
              (Some "Used to add two numbers together.") None
              (Some [Notebook.add_two_numbers_tool; Notebook.shadowing_tool]))
    as (_ & Hok & Hlookup).
  split; [exact (Hok _ _ eq_refl eq_refl)|exact (Hlookup _ "add_two_numbers" eq_refl)].
Defined.

Lemma missing_system_prompt_aborts_run_witness :
  ∃ e w',
    run Notebook.refusing Notebook.fifo 2 Notebook.caller_heap
      (Notebook.kwargs Notebook.promptless_config Notebook.refusing "What is 10 + 10?")
      = (Aborted e, w') ∧
    exn_class e = AttributeError ∧
    llm_calls w' = [] ∧
    (is_Some (Some Notebook.user_state) →
     exn_str e = "'NoneType' object has no attribute 'strip'").
Proof.
  exact (proj1 (proj2 (missing_system_prompt_aborts_run Notebook.refusing Notebook.fifo))
           0 Notebook.caller_heap
           (Notebook.kwargs Notebook.promptless_config Notebook.refusing "What is 10 + 10?")
           (mkConversation Notebook.refusing (Some Notebook.promptless_config)
              (Some Notebook.user_state) Notebook.history
              [Notebook.earlier; mkChatMessage USER (Some "What is 10 + 10?") []]
              Notebook.caller_heap)
           Notebook.promptless_config eq_refl eq_refl
           (notebook_history_allocated _ _ _) eq_refl eq_refl).
Defined.

Lemma caller_history_is_preserved_as_prefix_witness :
  (∃ suffix,
     heap (run Notebook.refusing Notebook.lifo 10 Notebook.caller_heap
             (Notebook.kwargs Notebook.agent_config
                (Notebook.asking_for "add_two_numbers") "What is 10 + 10?")).2
       !! Notebook.history = Some ([Notebook.earlier] ++ suffix)) ∧
  (∀ result,
     (run Notebook.refusing Notebook.lifo 10 Notebook.caller_heap
        (Notebook.kwargs Notebook.agent_config
           (Notebook.asking_for "add_two_numbers") "What is 10 + 10?")).1
       = Finished result →
     chat_history result = Notebook.history).
Proof.
  exact (proj2 (caller_history_is_preserved_as_prefix Notebook.refusing Notebook.lifo)
           10 Notebook.caller_heap
           (Notebook.kwargs Notebook.agent_config
              (Notebook.asking_for "add_two_numbers") "What is 10 + 10?")
           Notebook.history [Notebook.earlier] eq_refl eq_refl).
Defined.

(** * Further properties of the steps and of runs *)

(** ** The log of a run *)

Lemma handle_tool_call_error tool_call ev_tools w :
  tool_message_of ev_tools tool_call = None →
  ∃ e, tool_call_error ev_tools tool_call = Some e ∧
       handle_tool_call tool_call ev_tools w = (Raise e, w).
Proof.
  unfold tool_message_of, tool_call_error.
  destruct ev_tools as [ts|]; simpl;
    [|intros _; eexists; split; [done|apply handle_tool_call_no_tools]].
  destruct (tools_by_name ts !! tool_name tool_call) as [t|] eqn:Ht; simpl;
    [|intros _; eexists; split; [done|by apply handle_tool_call_absent]].
  destruct (acall t (tool_kwargs tool_call)) as [c|e] eqn:Hc; [done|].
  destruct (is_Exception (exn_class e)) eqn:He; [done|].
  intros _. exists e. split; [done|]. by eapply handle_tool_call_uncaught.
Qed.

Lemma exchanges_transcript C mid calls : exchanges C mid calls → transcript C mid.
Proof.
  induction 1 as [|mid calls ts input results _ IH Hin Htc Hperm]; [constructor|].
  eapply transcript_round; try done. by apply model_response_of_input.
Qed.

Lemma model_input_conv_tools C hist ts input :
  model_input (conv_config C) (conv_user_state C) hist = Some (ts, input) →
  ts = conv_tools C.
Proof. apply model_input_tools. Qed.

Lemma run_loop_log d sched C calls0 events0 fuel w :
  model_pending C calls0 events0 w ∨ tools_pending C calls0 events0 w →
  logged_outcome C calls0 events0 (run_loop d sched fuel w).1 (run_loop d sched fuel w).2.
Proof.
  revert w. induction fuel as [|fuel IH]; intros w Hw; simpl; [done|].
  destruct Hw as [(mid & calls & Hs & Hex & Hheap & Hq & Hbuf & Hcalls & Hst)
                 |(mid & calls & ts & input & Hs & Hex & Hin & Hheap & Hn & Hevs & Hne
                     & Hperm & Hcalls & Hst)].
  - (* AWAITING_MODEL *)
    rewrite Hq, pick_singleton.
    destruct w as [h [ac llm l us n buf q st] calls1]; unfold settled in Hs; simpl in *.
    destruct Hs as (-> & -> & -> & ->). subst.
    unfold mbind, M_bind, set_queue, modify_ctx; simpl.
    destruct (model_input (conv_config C) (conv_user_state C) (conv_base C ++ mid))
      as [[ts input]|] eqn:Hin.
    + destruct (get_tool_calls_from_response (conv_llm C)
                  (achat_with_tools (conv_llm C) ts input)) as [|tc tcs] eqn:Htc.
      * erewrite speak_with_agent_stop; [|done|apply lookup_insert_eq|done].
        simpl. exists mid, calls, ts, input. split_and!; try done.
        -- by rewrite insert_insert_eq, <-app_assoc.
        -- by rewrite <-app_assoc.
      * erewrite speak_with_agent_tools; [|done|apply lookup_insert_eq|by rewrite Htc].
        apply IH. right. exists mid, calls, ts, input.
        simpl. rewrite Htc. split_and!; try done.
        -- by rewrite insert_insert_eq, <-app_assoc.
        -- apply Forall_fmap, Forall_forall. intros tc' Htc'. simpl.
           split; [by eapply model_input_conv_tools|done].
        -- rewrite app_nil_r, <-list_fmap_compose.
           apply model_input_tools in Hin as ->. done.
        -- by rewrite <-app_assoc.
        -- rewrite Hst. clear. induction tcs as [|? ? IHt]; simpl in *; lia.
    + destruct (speak_with_agent_raise (<[conv_loc C:=conv_base C ++ mid]> (conv_heap C))
                  (conv_config C) (conv_llm C) (conv_loc C) (conv_user_state C)
                  n [] [] st (calls0 ++ calls)) as (e & -> & He);
        [by eapply model_input_None|].
      simpl. exists mid, calls. split; [done|]. left.
      split_and!; try done. by eapply model_input_None.
  - (* DISPATCHING_TOOLS / AGGREGATING *)
    destruct (pick _ _) as [[ev rest]|] eqn:Hpick; [|by apply pick_None in Hpick].
    apply pick_Some in Hpick.
    rewrite Hpick in Hevs. apply Forall_cons in Hevs as [Hev Hrest].
    rewrite Hpick in Hperm. rewrite Hpick in Hst. clear Hpick Hne.
    pose proof (Permutation_length Hperm) as Hlen.
    rewrite length_app, !length_fmap in Hlen.
    destruct w as [h [ac llm l us n buf q st] calls1]; unfold settled in Hs; simpl in *.
    destruct Hs as (-> & -> & -> & ->). subst.
    unfold mbind, M_bind, set_queue, modify_ctx; simpl.
    destruct ev as [| |tool_call ev_tools|chat_message|]; simpl in Hev; try done; simpl.
    + (* a tool call is handled *)
      destruct Hev as [-> Htc].
      destruct (tool_message_of (conv_tools C) tool_call) as [tool_msg|] eqn:Hmsg.
      * erewrite handle_tool_call_message by done. simpl.
        apply IH. right. exists mid, calls, ts, input. simpl. split_and!; try done.
        -- apply Forall_app. split; [done|]. by apply Forall_singleton.
        -- by destruct rest.
        -- rewrite <-Hperm, fmap_app. simpl. rewrite Hmsg.
           by rewrite <-Permutation_cons_append.
        -- rewrite omap_app, !length_app. simpl in *. unfold omap. lia.
      * destruct (handle_tool_call_error tool_call (conv_tools C)
                    (mkWorld (<[conv_loc C:=conv_base C ++ mid
                                  ++ [message (achat_with_tools (conv_llm C) ts input)]]>
                                (conv_heap C))
                       (mkContext (Some (conv_config C)) (Some (conv_llm C))
                          (Some (conv_loc C)) (Some (conv_user_state C))
                          (Some (length (get_tool_calls_from_response (conv_llm C)
                                           (achat_with_tools (conv_llm C) ts input))))
                          buf rest st) (calls0 ++ calls ++ [input])) Hmsg)
          as (e & Herr & ->).
        simpl. exists mid, calls. split; [done|]. right.
        by exists ts, input, tool_call.
    + (* a tool result arrives *)
      destruct rest as [|ev' rest'].
      * erewrite aggregate_tool_results_full by (simpl in *; lia).
        apply IH. left.
        exists (mid ++ message (achat_with_tools (conv_llm C) ts input)
                  :: (buf ++ [chat_message])), (calls ++ [input]).
        simpl. split_and!; try done.
        -- eapply exchanges_round; try done.
           ++ intros Hnil. rewrite Hnil in Hlen. simpl in Hlen. lia.
           ++ rewrite <-Hperm, fmap_app. simpl. by rewrite <-Permutation_cons_append.
        -- rewrite alter_insert_eq. f_equal.
           rewrite <-!app_assoc. done.
        -- rewrite !length_app. simpl in *. rewrite ?length_app. simpl. unfold omap in *. lia.
      * erewrite aggregate_tool_results_partial by (simpl in *; lia).
        apply IH. right. exists mid, calls, ts, input. simpl. split_and!; try done.
        -- rewrite <-Hperm, fmap_app. simpl.
           rewrite app_assoc, app_comm_cons. symmetry. apply Permutation_cons_append.
        -- rewrite length_app. simpl in *. unfold omap in *. lia.
Qed.

Lemma run_setup_raises d sched fuel h kwargs e :
  (setup d kwargs (initial_world h)).1 = Raise e →
  run d sched (S fuel) h kwargs = (Aborted e, (setup d kwargs (initial_world h)).2).
Proof.
  intros Hraise. unfold run. simpl. rewrite pick_singleton.
  unfold mbind, M_bind, set_queue, modify_ctx; simpl.
  fold (initial_world h).
  destruct (setup d kwargs (initial_world h)) as [[out|e'] w']; simpl in *; [done|].
  by injection Hraise as ->.
Qed.

Lemma run_setup_ok d sched fuel h kwargs C :
  start_conversation d h kwargs = Some C →
  is_function_calling_model (conv_llm C) = true →
  history_allocated h kwargs →
  ∃ w1, run d sched (S fuel) h kwargs = run_loop d sched fuel w1 ∧
        model_pending C [] 0 w1.
Proof.
  intros HC Hfc Halloc. unfold run. simpl. rewrite pick_singleton.
  unfold mbind, M_bind, set_queue, modify_ctx; simpl.
  erewrite setup_started by done. simpl.
  eexists. split; [reflexivity|].
  exists [], []. unfold settled. simpl. rewrite app_nil_r. split_and!; try done.
  - constructor.
  - apply start_conversation_Some in HC as (? & _ & _ & _ & _ & -> & _). done.
Qed.

(** A run is aborted by [setup], or follows the conversation [setup]
    started, with the model called once for each round and once more for
    the final answer. *)
Lemma run_log d sched fuel h kwargs :
  history_allocated h kwargs →
  (∃ e, (setup d kwargs (initial_world h)).1 = Raise e ∧
        run d sched (S fuel) h kwargs
          = (Aborted e, (setup d kwargs (initial_world h)).2)) ∨
  (∃ C, start_conversation d h kwargs = Some C ∧
        is_function_calling_model (conv_llm C) = true ∧
        logged_outcome C [] 0 (run d sched (S fuel) h kwargs).1
          (run d sched (S fuel) h kwargs).2).
Proof.
  intros Halloc.
  destruct (setup d kwargs (initial_world h)).1 as [out|e] eqn:Hsetup.
  - right.
    assert (¬ ∃ e, (setup d kwargs (initial_world h)).1 = Raise e)
      as Hvalid by (rewrite Hsetup; by intros [? ?]).
    rewrite setup_raises_iff in Hvalid.
    destruct (start_conversation d h kwargs) as [C|] eqn:HC.
    2: { apply start_conversation_None in HC. destruct Hvalid. by left. }
    assert (is_function_calling_model (conv_llm C) = true) as Hfc.
    { apply start_conversation_Some in HC as (? & _ & Hl & _).
      destruct (is_function_calling_model (conv_llm C)) eqn:E; [done|].
      destruct Hvalid. right. by eexists. }
    destruct (run_setup_ok d sched fuel h kwargs C HC Hfc Halloc) as (w1 & Hw1 & Hphase).
    exists C. split_and!; [done..|]. rewrite Hw1.
    apply run_loop_log. by left.
  - left. exists e. split; [done|]. by apply run_setup_raises.
Qed.

(** Whether [setup] raises is decided by the inputs alone. *)
Lemma start_conversation_setup d h kwargs C w :
  start_conversation d h kwargs = Some C →
  is_function_calling_model (conv_llm C) = true →
  ¬ ∃ e, (setup d kwargs w).1 = Raise e.
Proof.
  intros HC Hfc. rewrite setup_raises_iff.
  destruct (start_conversation_Some _ _ _ _ HC) as (u & Hu & Hl & _ & _ & _ & Hloc).
  intros [[H|[H|H]]|(llm & H1 & H2)]; try congruence.
  destruct Hloc as [(Ho & _)|(Hg & _)]; congruence.
Qed.

Lemma run_log_started d sched fuel h kwargs C :
  start_conversation d h kwargs = Some C →
  is_function_calling_model (conv_llm C) = true →
  history_allocated h kwargs →
  logged_outcome C [] 0 (run d sched (S fuel) h kwargs).1 (run d sched (S fuel) h kwargs).2.
Proof.
  intros HC Hfc Halloc.
  destruct (run_setup_ok d sched fuel h kwargs C HC Hfc Halloc) as (w1 & -> & Hphase).
  apply run_loop_log. by left.
Qed.

(** ** The tool registry, again *)

Lemma tools_by_name_Some ts nm t :
  tools_by_name ts !! nm = Some t → get_name t = nm ∧ t ∈ ts.
Proof.
  rewrite tools_by_name_lookup. intros Hlast.
  assert (t ∈ filter (λ t', get_name t' = nm) ts) as Hin.
  { apply last_Some in Hlast as [l' ->]. apply elem_of_app. right. by left. }
  by apply list_elem_of_filter in Hin.
Qed.

(** X12: the name lookup of [handle_tool_call] only finds tools of the
    list, each under its own name; and when the names of the list are
    pairwise different, every tool of the list is the one found under its
    name. *)
Theorem tools_by_name_finds_each_tool (ts : list Tool) :
  (∀ nm t, tools_by_name ts !! nm = Some t → get_name t = nm ∧ t ∈ ts) ∧
  (NoDup (get_name <$> ts) →
   ∀ t, t ∈ ts → tools_by_name ts !! get_name t = Some t).
Proof.
  split; [intros nm t; apply tools_by_name_Some|].
  induction ts as [|t' ts IH] using rev_ind; intros Hnodup t Hin.
  - by apply elem_of_nil in Hin.
  - rewrite fmap_app in Hnodup. apply NoDup_app in Hnodup as (Hnd & Hdisj & _).
    rewrite tools_by_name_snoc.
    apply elem_of_app in Hin as [Hin|Hin].
    + rewrite lookup_insert_ne; [by apply IH|].
      intros Heq. apply (Hdisj (get_name t)).
      * apply list_elem_of_fmap. by exists t.
      * rewrite <-Heq. simpl. by left.
    + apply list_elem_of_singleton in Hin as ->. by rewrite lookup_insert_eq.
Qed.

Lemma tools_by_name_finds_each_tool_witness :
  tools_by_name [Notebook.add_two_numbers_tool; Notebook.divide_tool] !! "divide"
    = Some Notebook.divide_tool.
Proof.
  refine (proj2 (tools_by_name_finds_each_tool
                   [Notebook.add_two_numbers_tool; Notebook.divide_tool])
            _ Notebook.divide_tool _).
  - apply (bool_decide_unpack _). vm_compute. exact I.
  - right. left.
Defined.

(** ** What [handle_tool_call] returns and raises *)

(** X9: when [handle_tool_call] returns, it returns one tool message that
    answers the call: its role is the tool role, it carries the id of the
    call and, as name, the tool name of the call; its content is the
    output of the tool found under that name, or the text "Encountered
    error in tool call: " followed by the error the tool raised.  The step
    adds one progress event, which names the tool, the arguments and the
    content, and changes nothing else. *)
Theorem handle_tool_call_result_answers_the_call
    tool_call ev_tools h cx calls out w' :
  handle_tool_call tool_call ev_tools (mkWorld h cx calls) = (Ok out, w') →
  ∃ ts t tool_msg,
    ev_tools = Some ts ∧
    tools_by_name ts !! tool_name tool_call = Some t ∧
    out = Some (ToolCallResultEvent tool_msg) ∧
    role tool_msg = TOOL ∧
    additional_kwargs tool_msg
      = [("tool_call_id", tool_id tool_call); ("name", tool_name tool_call)] ∧
    match acall t (tool_kwargs tool_call) with
    | Returns c => content tool_msg = Some c
    | Raises e =>
        is_Exception (exn_class e) = true ∧
        content tool_msg = Some ("Encountered error in tool call: " +:+ exn_str e)
    end ∧
    w' = mkWorld h
           (mkContext (ctx_agent_config cx) (ctx_llm cx) (ctx_chat_history cx)
              (ctx_user_state cx) (ctx_num_tool_calls cx) (events_buffer cx) (queue cx)
              (stream cx
                 ++ [mkProgressEvent
                       ("Tool " +:+ tool_name tool_call +:+ " called with "
                          +:+ dict_str (tool_kwargs tool_call) +:+ " returned "
                          +:+ default "None" (content tool_msg))]))
           calls.
Proof.
  intros Hok.
  destruct ev_tools as [ts|]; [|by rewrite handle_tool_call_no_tools in Hok].
  destruct (tools_by_name ts !! tool_name tool_call) as [t|] eqn:Ht;
    [|by rewrite handle_tool_call_absent in Hok].
  destruct (tools_by_name_Some _ _ _ Ht) as [Hname _].
  exists ts, t.
  destruct (acall t (tool_kwargs tool_call)) as [c|e] eqn:Hc.
  - erewrite handle_tool_call_returns in Hok by done. injection Hok as <- <-.
    eexists. split_and!; try done. simpl. by rewrite Hname.
  - destruct (is_Exception (exn_class e)) eqn:He.
    + erewrite handle_tool_call_caught in Hok by done. injection Hok as <- <-.
      eexists. split_and!; try done. simpl. by rewrite Hname.
    + by erewrite handle_tool_call_uncaught in Hok.
Qed.

Lemma handle_tool_call_result_answers_the_call_witness :
  ∃ ts t tool_msg,
    Some [Notebook.add_two_numbers_tool] = Some ts ∧
    tools_by_name ts !! "add_two_numbers" = Some t ∧
    Some (ToolCallResultEvent (Notebook.tool_message "20"))
      = Some (ToolCallResultEvent tool_msg) ∧
    role tool_msg = TOOL ∧
    additional_kwargs tool_msg = [("tool_call_id", "call_1"); ("name", "add_two_numbers")] ∧
    match acall t [("a", VInt 10); ("b", VInt 10)] with
    | Returns c => content tool_msg = Some c
    | Raises e =>
        is_Exception (exn_class e) = true ∧
        content tool_msg = Some ("Encountered error in tool call: " +:+ exn_str e)
    end ∧
    (handle_tool_call (Notebook.the_call "add_two_numbers")
       (Some [Notebook.add_two_numbers_tool]) (initial_world Notebook.caller_heap)).2
      = mkWorld Notebook.caller_heap
          (mkContext None None None None None [] []
             ([] ++ [mkProgressEvent
                       ("Tool " +:+ "add_two_numbers" +:+ " called with "
                          +:+ dict_str [("a", VInt 10); ("b", VInt 10)] +:+ " returned "
                          +:+ default "None" (content tool_msg))]))
          [].
Proof.
  apply (handle_tool_call_result_answers_the_call (Notebook.the_call "add_two_numbers")
           (Some [Notebook.add_two_numbers_tool]) Notebook.caller_heap
           (mkContext None None None None None [] [] []) []).
  vm_compute. reflexivity.
Defined.

(** X10: [handle_tool_call] raises in three cases only, and leaves the
    world as it was in each: the tool list is [None] (a [TypeError]); no
    tool of the list has the name asked for (an [AttributeError]); or the
    tool found raised something that is not an [Exception], which goes
    through unchanged. *)
Theorem handle_tool_call_raises_only tool_call ev_tools w e w' :
  handle_tool_call tool_call ev_tools w = (Raise e, w') →
  w' = w ∧
  ((ev_tools = None ∧ e = mkExn TypeError "'NoneType' object is not iterable") ∨
   (∃ ts, ev_tools = Some ts ∧
          (tool_name tool_call ∉ get_name <$> ts) ∧
          e = mkExn AttributeError "'NoneType' object has no attribute 'metadata'") ∨
   (∃ ts t, ev_tools = Some ts ∧
            tools_by_name ts !! tool_name tool_call = Some t ∧
            acall t (tool_kwargs tool_call) = Raises e ∧
            is_Exception (exn_class e) = false)).
Proof.
  intros Hraise.
  destruct ev_tools as [ts|].
  2: { rewrite handle_tool_call_no_tools in Hraise. injection Hraise as <- <-.
       split; [done|]. by left. }
  destruct (tools_by_name ts !! tool_name tool_call) as [t|] eqn:Ht.
  2: { rewrite handle_tool_call_absent in Hraise by done. injection Hraise as <- <-.
       split; [done|]. right. left. exists ts. split_and!; try done.
       by apply tools_by_name_None. }
  destruct w as [h cx calls].
  destruct (acall t (tool_kwargs tool_call)) as [c|e'] eqn:Hc.
  - by erewrite handle_tool_call_returns in Hraise.
  - destruct (is_Exception (exn_class e')) eqn:He.
    + by erewrite handle_tool_call_caught in Hraise.
    + erewrite handle_tool_call_uncaught in Hraise by done. injection Hraise as <- <-.
      split; [done|]. right. right. by exists ts, t.
Qed.

Lemma handle_tool_call_raises_only_witness :
  initial_world Notebook.caller_heap = initial_world Notebook.caller_heap ∧
  ((Some [Scenarios.interrupted_tool] = None ∧
    mkExn KeyboardInterrupt "" = mkExn TypeError "'NoneType' object is not iterable") ∨
   (∃ ts, Some [Scenarios.interrupted_tool] = Some ts ∧
          ("add_two_numbers" ∉ get_name <$> ts) ∧
          mkExn KeyboardInterrupt ""
            = mkExn AttributeError "'NoneType' object has no attribute 'metadata'") ∨
   (∃ ts t, Some [Scenarios.interrupted_tool] = Some ts ∧
            tools_by_name ts !! "add_two_numbers" = Some t ∧
            acall t [("a", VInt 10); ("b", VInt 10)] = Raises (mkExn KeyboardInterrupt "") ∧
            is_Exception KeyboardInterrupt = false)).
Proof.
  apply (handle_tool_call_raises_only (Notebook.the_call "add_two_numbers")
           (Some [Scenarios.interrupted_tool]) (initial_world Notebook.caller_heap)
           (mkExn KeyboardInterrupt "") (initial_world Notebook.caller_heap)).
  vm_compute. reflexivity.
Defined.

(** X13: called through [handle_tool_call] with two integers [a] and [b],
    the notebook's tool [add_two_numbers] yields the tool message whose
    content is the decimal writing of [a + b], whatever the order of the
    two keyword arguments. *)
Theorem add_two_numbers_tool_returns_the_sum (a b : Z) (id : string) h cx calls kwargs :
  (kwargs = [("a", VInt a); ("b", VInt b)]) ∨ (kwargs = [("b", VInt b); ("a", VInt a)]) →
  (handle_tool_call (mkToolSelection id "add_two_numbers" kwargs)
     (Some [Notebook.add_two_numbers_tool]) (mkWorld h cx calls)).1
    = Ok (Some (ToolCallResultEvent
             (mkChatMessage TOOL (Some (pretty (a + b)%Z))
                [("tool_call_id", id); ("name", "add_two_numbers")]))).
Proof.
  intros [->| ->];
    by erewrite (handle_tool_call_returns _ _ Notebook.add_two_numbers_tool).
Qed.

Lemma add_two_numbers_tool_returns_the_sum_witness :
  (handle_tool_call
     (mkToolSelection "call_7" "add_two_numbers" [("b", VInt (-4)); ("a", VInt 10)])
     (Some [Notebook.add_two_numbers_tool]) (initial_world Notebook.caller_heap)).1
    = Ok (Some (ToolCallResultEvent
             (mkChatMessage TOOL (Some "6")
                [("tool_call_id", "call_7"); ("name", "add_two_numbers")]))).
Proof.
  apply (add_two_numbers_tool_returns_the_sum 10 (-4) "call_7" Notebook.caller_heap
           (mkContext None None None None None [] [] []) []).
  right. reflexivity.
Defined.

(** ** [setup], again *)

(** X8: when [setup] raises it has written nothing: the context and the
    log of model calls are as before and every list of the heap has the
    elements it had.  The error is the [ValueError] about required inputs
    when the user message, the model or the chat history is [None], and
    otherwise the [ValueError] about the function-calling model. *)
Theorem setup_raises_before_any_write d kwargs w e :
  (setup d kwargs w).1 = Raise e →
  ctx (setup d kwargs w).2 = ctx w ∧
  llm_calls (setup d kwargs w).2 = llm_calls w ∧
  (∀ k xs, heap w !! k = Some xs → heap (setup d kwargs w).2 !! k = Some xs) ∧
  (((ev_get (ev_user_msg kwargs) None = None ∨
     ev_get (ev_llm kwargs) (Some d) = None ∨
     ev_chat_history kwargs = Given None) ∧
    e = mkExn ValueError "User message, llm, and chat_history are required!") ∨
   ((∃ user_msg llm,
       ev_get (ev_user_msg kwargs) None = Some user_msg ∧
       ev_get (ev_llm kwargs) (Some d) = Some llm ∧
       ev_chat_history kwargs ≠ Given None ∧
       is_function_calling_model llm = false) ∧
    e = mkExn ValueError "LLM must be a function calling model!")).
Proof.
  unfold setup. unfold_m. destruct w as [h cx calls].
  assert (∀ k xs, h !! k = Some xs → <[fresh (dom h) := []]> h !! k = Some xs) as Hfresh.
  { intros k xs Hk. rewrite lookup_insert_ne; [done|].
    intros <-. apply (is_fresh (dom h)). apply elem_of_dom. by eexists. }
  destruct (ev_get (ev_user_msg kwargs) None) as [user_msg|];
    (destruct (ev_get (ev_llm kwargs) (Some d)) as [m|];
       [destruct (is_function_calling_model m) eqn:Hfc|]);
    destruct (ev_chat_history kwargs) as [|[l|]]; simpl;
    intros Hraise; try discriminate Hraise; injection Hraise as <-;
    (split_and!; [done|done|by auto|]);
    first [ left; split; [by auto|done]
          | right; split; [|done]; do 2 eexists; by split_and! ].
Qed.

Lemma setup_raises_before_any_write_witness :
  ctx (setup Notebook.refusing Scenarios.kwargs_without_message
         (Scenarios.at_model_call Notebook.refusing)).2
    = ctx (Scenarios.at_model_call Notebook.refusing) ∧
  heap (setup Notebook.refusing Scenarios.kwargs_without_message
          (Scenarios.at_model_call Notebook.refusing)).2 !! Notebook.history
    = Some [Notebook.earlier].
Proof.
  destruct (setup_raises_before_any_write Notebook.refusing
              Scenarios.kwargs_without_message
              (Scenarios.at_model_call Notebook.refusing)
              (mkExn ValueError "User message, llm, and chat_history are required!")
              eq_refl)
    as (Hctx & _ & Hheap & _).
  split; [exact Hctx|exact (Hheap Notebook.history [Notebook.earlier] eq_refl)].
Defined.

(** ** [speak_with_agent], again *)

(** X11: when the model's response asks for tools, [speak_with_agent]
    records how many, sends one [ToolCallEvent] for each call, in the
    order of the response and each with the tool list of the
    configuration, appends the message of the response to the chat
    history, logs the one model call, and returns no event. *)
Theorem speak_with_agent_dispatches_every_call
    h cfg llm l items n buf q st calls prompt hist :
  system_prompt cfg = Some prompt →
  h !! l = Some hist →
  get_tool_calls_from_response llm
    (achat_with_tools llm (tools cfg)
       (mkChatMessage SYSTEM (Some (system_message_content prompt items)) [] :: hist))
    ≠ [] →
  speak_with_agent
      (mkWorld h (mkContext (Some (Some cfg)) (Some llm) (Some l) (Some (Some items))
                    n buf q st) calls)
    = (Ok None,
       mkWorld
         (<[l := hist
                 ++ [message
                       (achat_with_tools llm (tools cfg)
                          (mkChatMessage SYSTEM
                             (Some (system_message_content prompt items)) [] :: hist))]]> h)
         (mkContext (Some (Some cfg)) (Some llm) (Some l) (Some (Some items))
            (Some (length
                     (get_tool_calls_from_response llm
                        (achat_with_tools llm (tools cfg)
                           (mkChatMessage SYSTEM
                              (Some (system_message_content prompt items)) [] :: hist)))))
            buf
            (q ++ map (λ tool_call, ToolCallEvent tool_call (tools cfg))
                    (get_tool_calls_from_response llm
                       (achat_with_tools llm (tools cfg)
                          (mkChatMessage SYSTEM
                             (Some (system_message_content prompt items)) [] :: hist))))
            st)
         (calls ++ [mkChatMessage SYSTEM (Some (system_message_content prompt items)) []
                      :: hist])).
Proof.
  intros Hprompt Hh Htc.
  apply speak_with_agent_tools; [|done..].
  unfold model_input. simpl. by rewrite Hprompt.
Qed.

Lemma speak_with_agent_dispatches_every_call_witness :
  speak_with_agent (Scenarios.at_model_call Scenarios.insistent)
    = (Ok None,
       mkWorld
         (<[Notebook.history :=
              [Notebook.earlier; mkChatMessage ASSISTANT None []]]> Notebook.caller_heap)
         (mkContext (Some (Some Notebook.agent_config)) (Some Scenarios.insistent)
            (Some Notebook.history) (Some (Some Notebook.user_state)) (Some 1) []
            [ToolCallEvent (Notebook.the_call "add_two_numbers")
               (Some [Notebook.add_two_numbers_tool])]
            [])
         [[mkChatMessage SYSTEM
             (Some (system_message_content
                      "You are an agent that adds two numbers together. Do not help the user with anything else."
                      Notebook.user_state)) [];
           Notebook.earlier]]).
Proof.
  apply (speak_with_agent_dispatches_every_call Notebook.caller_heap Notebook.agent_config
           Scenarios.insistent Notebook.history Notebook.user_state None [] [] [] []
           "You are an agent that adds two numbers together. Do not help the user with anything else."
           [Notebook.earlier]); [reflexivity|reflexivity|discriminate].
Defined.


(** ** Runs, again *)

Lemma run_first_turn d sched fuel h kwargs C :
  start_conversation d h kwargs = Some C →
  is_function_calling_model (conv_llm C) = true →
  history_allocated h kwargs →
  run d sched (S fuel) h kwargs
    = run_loop d sched fuel
        (mkWorld (<[conv_loc C := conv_base C]> h)
           (mkContext (Some (conv_config C)) (Some (conv_llm C)) (Some (conv_loc C))
              (Some (conv_user_state C)) None [] [LLMCallEvent] [])
           []).
Proof.
  intros HC Hfc Halloc. unfold run. simpl. rewrite pick_singleton.
  unfold mbind, M_bind, set_queue, modify_ctx; simpl.
  by erewrite setup_started by done.
Qed.

(** X1: in a finished run the model was called once for each tool round
    and once more for the final answer, and never otherwise.  Each call
    was sent the system message followed by the whole chat history of that
    moment: the caller's messages, the user message and the rounds
    completed so far; the tool messages of a round are those of the calls
    the model asked for, one for each call.  The last call is the one that
    got the answer without tool calls, whose message ends the history and
    whose content is the response. *)
Theorem finished_run_calls_model_once_per_round d sched fuel h kwargs result w' :
  history_allocated h kwargs →
  run d sched fuel h kwargs = (Finished result, w') →
  ∃ C mid calls ts input,
    start_conversation d h kwargs = Some C ∧
    exchanges C mid calls ∧
    model_input (conv_config C) (conv_user_state C) (conv_base C ++ mid)
      = Some (ts, input) ∧
    get_tool_calls_from_response (conv_llm C) (achat_with_tools (conv_llm C) ts input)
      = [] ∧
    llm_calls w' = calls ++ [input] ∧
    heap w' !! chat_history result
      = Some (conv_base C ++ mid ++ [message (achat_with_tools (conv_llm C) ts input)]) ∧
    response result = content (message (achat_with_tools (conv_llm C) ts input)).
Proof.
  intros Halloc Hrun. destruct fuel as [|fuel]; [done|].
  destruct (run_log d sched fuel h kwargs Halloc)
    as [(e & _ & Hab)|(C & HC & Hfc & Hout)]; [congruence|].
  rewrite Hrun in Hout. simpl in Hout.
  destruct Hout as (mid & calls & ts & input & Hex & Hin & Htc & Hheap & Hcalls & _ & ->).
  exists C, mid, calls, ts, input. simpl. rewrite Hheap, lookup_insert_eq.
  by split_and!.
Qed.

Lemma finished_run_calls_model_once_per_round_witness :
  ∃ C mid calls ts input,
    start_conversation Notebook.refusing Notebook.caller_heap
      (Notebook.kwargs Notebook.agent_config (Notebook.asking_for "add_two_numbers")
         "What is 10 + 10?") = Some C ∧
    exchanges C mid calls ∧
    model_input (conv_config C) (conv_user_state C) (conv_base C ++ mid)
      = Some (ts, input) ∧
    get_tool_calls_from_response (conv_llm C) (achat_with_tools (conv_llm C) ts input)
      = [] ∧
    llm_calls (run Notebook.refusing Notebook.lifo 10 Notebook.caller_heap
                 (Notebook.kwargs Notebook.agent_config
                    (Notebook.asking_for "add_two_numbers") "What is 10 + 10?")).2
      = calls ++ [input] ∧
    heap (run Notebook.refusing Notebook.lifo 10 Notebook.caller_heap
            (Notebook.kwargs Notebook.agent_config
               (Notebook.asking_for "add_two_numbers") "What is 10 + 10?")).2
      !! Notebook.history
      = Some (conv_base C ++ mid ++ [message (achat_with_tools (conv_llm C) ts input)]) ∧
    Some "10 + 10 is 20." = content (message (achat_with_tools (conv_llm C) ts input)).
Proof.
  apply (finished_run_calls_model_once_per_round Notebook.refusing Notebook.lifo 10
           Notebook.caller_heap
           (Notebook.kwargs Notebook.agent_config (Notebook.asking_for "add_two_numbers")
              "What is 10 + 10?")
           (mkRunResult (Some "10 + 10 is 20.") Notebook.history)).
  - intros l Hl. injection Hl as <-. by eexists.
  - vm_compute. reflexivity.
Defined.



Lemma run_never_aborts d sched h kwargs C :
  start_conversation d h kwargs = Some C →
  is_function_calling_model (conv_llm C) = true →
  history_allocated h kwargs →
  model_input (conv_config C) (conv_user_state C) [] ≠ None →
  (∀ ts input tool_call,
     tool_call ∈ get_tool_calls_from_response (conv_llm C)
                   (achat_with_tools (conv_llm C) ts input) →
     tool_call_error (conv_tools C) tool_call = None) →
  ∀ fuel e w', run d sched fuel h kwargs ≠ (Aborted e, w').
Proof.
  intros HC Hfc Halloc Hin Htools fuel e w' Hrun. destruct fuel as [|fuel]; [done|].
  pose proof (run_log_started d sched fuel h kwargs C HC Hfc Halloc) as Hout.
  rewrite Hrun in Hout. simpl in Hout.
  destruct Hout as (mid & calls & _ & [(Hnone & _)|(ts & input & tc & _ & Htc & Herr & _)]).
  - done.
  - by rewrite (Htools ts input tc Htc) in Herr.
Qed.

Lemma run_finished_or_going d sched h kwargs C :
  start_conversation d h kwargs = Some C →
  is_function_calling_model (conv_llm C) = true →
  history_allocated h kwargs →
  model_input (conv_config C) (conv_user_state C) [] ≠ None →
  (∀ ts input tool_call,
     tool_call ∈ get_tool_calls_from_response (conv_llm C)
                   (achat_with_tools (conv_llm C) ts input) →
     tool_call_error (conv_tools C) tool_call = None) →
  ∀ fuel,
    (∃ result, (run d sched fuel h kwargs).1 = Finished result) ∨
    (run d sched fuel h kwargs).1 = OutOfFuel.
Proof.
  intros HC Hfc Halloc Hin Htools fuel.
  destruct (run d sched fuel h kwargs) as [[result|e| |] w'] eqn:Hrun; simpl.
  - left. by exists result.
  - by apply (run_never_aborts d sched h kwargs C HC Hfc Halloc Hin Htools) in Hrun.
  - by apply run_never_stalls in Hrun.
  - by right.
Qed.

Lemma tool_call_error_None ev_tools tool_call :
  tool_call_error ev_tools tool_call = None →
  ∃ tool_msg, tool_message_of ev_tools tool_call = Some tool_msg.
Proof.
  unfold tool_call_error, tool_message_of.
  destruct ev_tools as [ts|]; simpl; [|done].
  destruct (tools_by_name ts !! tool_name tool_call) as [t|]; simpl; [|done].
  destruct (acall t (tool_kwargs tool_call)) as [c|e]; [by eexists|].
  destruct (is_Exception (exn_class e)); [by eexists|done].
Qed.

Lemma turns_left_calls (ev_tools : option (list Tool)) tool_calls :
  sum_list_with turns_left ((λ tool_call, ToolCallEvent tool_call ev_tools) <$> tool_calls)
    = 2 * length tool_calls.
Proof. induction tool_calls as [|tc tcs IH]; csimpl; [done|]. rewrite IH. simpl. lia. Qed.

(** A round whose pending calls can be answered takes as many turns as its
    pending events have left, whatever the order of handling, and ends
    with the results appended and the model call pending. *)
Lemma tool_round_completes d sched h ac llm l us n hist calls m :
  h !! l = Some hist →
  ∀ k buf q st,
    sum_list_with turns_left q = k →
    q ≠ [] →
    Forall (λ ev, tool_event ev ∧ is_Some (pending_message ev)) q →
    length q + length buf = n →
    ∃ results st',
      Some <$> results ≡ₚ (Some <$> buf) ++ (pending_message <$> q) ∧
      length st' + length q = k ∧
      run_loop d sched (k + m)
          (mkWorld h (mkContext ac llm (Some l) us (Some n) buf q st) calls)
        = run_loop d sched m
            (mkWorld (<[l := hist ++ results]> h)
               (mkContext ac llm (Some l) us (Some n) [] [LLMCallEvent] (st ++ st'))
               calls).
Proof.
  intros Hh k. induction k as [|k IH]; intros buf q st Hsum Hne Hall Hlen.
  { destruct q as [|[] q]; simpl in Hsum; [done|lia..]. }
  simpl.
  destruct (pick _ _) as [[ev rest]|] eqn:Hpick; [|by apply pick_None in Hpick].
  apply pick_Some in Hpick.
  rewrite Hpick in Hsum, Hall. apply Forall_cons in Hall as [[Hev [tool_msg Hmsg]] Hrest].
  pose proof (Permutation_length Hpick) as Hlq. rewrite Hlq in Hlen. simpl in Hlen, Hsum.
  unfold mbind, M_bind, set_queue, modify_ctx; simpl.
  destruct ev as [| |tool_call ev_tools|chat_message|]; simpl in Hev; try done; simpl in *.
  - (* a tool call is handled *)
    erewrite handle_tool_call_message by done. simpl.
    destruct (IH buf (rest ++ [ToolCallResultEvent tool_msg])
                (st ++ [mkProgressEvent (progress_msg tool_call tool_msg)]))
      as (results & st' & Hperm & Hst & Hrun).
    + rewrite sum_list_with_app. simpl. lia.
    + by destruct rest.
    + apply Forall_app. split; [done|]. apply Forall_singleton. by split.
    + rewrite length_app. simpl. lia.
    + exists results, (mkProgressEvent (progress_msg tool_call tool_msg) :: st').
      split_and!.
      * rewrite Hperm, Hpick, fmap_app. simpl. rewrite Hmsg.
        by rewrite <-Permutation_cons_append.
      * rewrite length_app in Hst. simpl in *. lia.
      * rewrite Hrun. by rewrite <-app_assoc.
  - (* a tool result arrives *)
    injection Hmsg as <-.
    destruct rest as [|ev' rest'].
    + erewrite aggregate_tool_results_full by (simpl in *; lia). simpl.
      assert (k = 0) as -> by (simpl in Hsum; lia).
      exists (buf ++ [chat_message]), []. split_and!.
      * rewrite Hpick, fmap_app. done.
      * by rewrite Hlq.
      * simpl. rewrite app_nil_r. do 2 f_equal.
        apply map_eq. intros j. rewrite lookup_alter, lookup_insert.
        case_decide; [subst|done]. by rewrite Hh.
    + erewrite aggregate_tool_results_partial by (simpl in *; lia). simpl.
      destruct (IH (buf ++ [chat_message]) (ev' :: rest') st)
        as (results & st' & Hperm & Hst & Hrun).
      * simpl in *. lia.
      * done.
      * done.
      * rewrite length_app. simpl in *. lia.
      * exists results, st'. split_and!.
        -- rewrite Hperm, Hpick, fmap_app. simpl.
           rewrite <-app_assoc. simpl. done.
        -- rewrite Hlq. simpl in *. lia.
        -- done.
Qed.

(** X3: a round of tool calls that can be answered always completes.
    When the model's answer to the first call asks for [n >= 1] tool
    calls, each of which names a tool of the configuration that returns
    or raises an [Exception], then whatever the order in which the calls
    and their results are handled, no step raises, and after the [2 n]
    turns of the round the chat history holds the message of the model
    followed by the tool messages of the [n] calls, one for each call;
    nothing is pending but the next model call, nothing is buffered, one
    progress event was emitted for each call, and the model has been
    called once. *)
Theorem answerable_tool_round_completes d sched h kwargs C ts input :
  start_conversation d h kwargs = Some C →
  is_function_calling_model (conv_llm C) = true →
  history_allocated h kwargs →
  model_input (conv_config C) (conv_user_state C) (conv_base C) = Some (ts, input) →
  get_tool_calls_from_response (conv_llm C) (achat_with_tools (conv_llm C) ts input) ≠ [] →
  (∀ tool_call,
     tool_call ∈ get_tool_calls_from_response (conv_llm C)
                   (achat_with_tools (conv_llm C) ts input) →
     tool_call_error (conv_tools C) tool_call = None) →
  ∃ results st,
    Some <$> results
      ≡ₚ tool_message_of (conv_tools C)
           <$> get_tool_calls_from_response (conv_llm C)
                 (achat_with_tools (conv_llm C) ts input) ∧
    length st
      = length (get_tool_calls_from_response (conv_llm C)
                  (achat_with_tools (conv_llm C) ts input)) ∧
    run d sched
        (2 + 2 * length (get_tool_calls_from_response (conv_llm C)
                           (achat_with_tools (conv_llm C) ts input)))
        h kwargs
      = (OutOfFuel,
         mkWorld
           (<[conv_loc C :=
                conv_base C
                  ++ message (achat_with_tools (conv_llm C) ts input) :: results]> h)
           (mkContext (Some (conv_config C)) (Some (conv_llm C)) (Some (conv_loc C))
              (Some (conv_user_state C))
              (Some (length (get_tool_calls_from_response (conv_llm C)
                               (achat_with_tools (conv_llm C) ts input))))
              [] [LLMCallEvent] st)
           [input]).
Proof.
  intros HC Hfc Halloc Hin Hne Hans.
  set (resp := achat_with_tools (conv_llm C) ts input) in *.
  set (tool_calls := get_tool_calls_from_response (conv_llm C) resp) in *.
  change (2 + 2 * length tool_calls) with (S (S (2 * length tool_calls))).
  rewrite (run_first_turn d sched _ h kwargs C HC Hfc Halloc).
  simpl run_loop. rewrite pick_singleton.
  unfold mbind, M_bind, set_queue, modify_ctx; simpl.
  erewrite speak_with_agent_tools; [|done|apply lookup_insert_eq|done].
  fold resp. fold tool_calls. rewrite insert_insert_eq. simpl.
  pose proof (model_input_conv_tools C _ _ _ Hin) as ->.
  destruct (tool_round_completes d sched
              (<[conv_loc C := conv_base C ++ [message resp]]> h)
              (Some (conv_config C)) (Some (conv_llm C)) (conv_loc C)
              (Some (conv_user_state C)) (length tool_calls)
              (conv_base C ++ [message resp]) [input] 0
              (lookup_insert_eq _ _ _) (2 * length tool_calls) []
              ((λ tool_call, ToolCallEvent tool_call (conv_tools C)) <$> tool_calls) [])
    as (results & st' & Hperm & Hst & Hrun).
  - apply turns_left_calls.
  - by destruct tool_calls.
  - apply Forall_fmap, Forall_forall. intros tc Htc. simpl. split; [done|].
    destruct (tool_call_error_None _ _ (Hans tc Htc)) as [tool_msg ->]. by eexists.
  - rewrite length_fmap. simpl. lia.
  - exists results, st'. split_and!.
    + rewrite Hperm. simpl. by rewrite <-list_fmap_compose.
    + rewrite length_fmap in Hst. lia.
    + rewrite Nat.add_0_r in Hrun. simpl in Hrun. rewrite Hrun. simpl.
      by rewrite insert_insert_eq, <-app_assoc.
Qed.

Lemma answerable_tool_round_completes_witness :
  ∃ results st,
    Some <$> results
      ≡ₚ tool_message_of (Some [Notebook.add_two_numbers_tool])
           <$> [Notebook.the_call "add_two_numbers"] ∧
    length st = 1 ∧
    run Notebook.refusing Notebook.lifo 4 Notebook.caller_heap
        (Notebook.kwargs Notebook.agent_config (Notebook.asking_for "add_two_numbers")
           "What is 10 + 10?")
      = (OutOfFuel,
         mkWorld
           (<[Notebook.history :=
                [Notebook.earlier; mkChatMessage USER (Some "What is 10 + 10?") []]
                  ++ mkChatMessage ASSISTANT None [] :: results]> Notebook.caller_heap)
           (mkContext (Some (Some Notebook.agent_config))
              (Some (Notebook.asking_for "add_two_numbers")) (Some Notebook.history)
              (Some (Some Notebook.user_state)) (Some 1) [] [LLMCallEvent] st)
           [[mkChatMessage SYSTEM
               (Some (system_message_content
                        "You are an agent that adds two numbers together. Do not help the user with anything else."
                        Notebook.user_state)) [];
             Notebook.earlier;
             mkChatMessage USER (Some "What is 10 + 10?") []]]).
Proof.
  apply (answerable_tool_round_completes Notebook.refusing Notebook.lifo
           Notebook.caller_heap
           (Notebook.kwargs Notebook.agent_config (Notebook.asking_for "add_two_numbers")
              "What is 10 + 10?")
           (mkConversation (Notebook.asking_for "add_two_numbers")
              (Some Notebook.agent_config) (Some Notebook.user_state) Notebook.history
              [Notebook.earlier; mkChatMessage USER (Some "What is 10 + 10?") []]
              Notebook.caller_heap)
           (Some [Notebook.add_two_numbers_tool])
           [mkChatMessage SYSTEM
              (Some (system_message_content
                       "You are an agent that adds two numbers together. Do not help the user with anything else."
                       Notebook.user_state)) [];
            Notebook.earlier;
            mkChatMessage USER (Some "What is 10 + 10?") []]).
  - reflexivity.
  - reflexivity.
  - intros l Hl. injection Hl as <-. by eexists.
  - reflexivity.
  - discriminate.
  - intros tool_call Hin. by apply list_elem_of_singleton in Hin as ->.
Defined.

(** X4: the loop has no bound of its own.  With a model that asks for a
    tool in every response no run ever finishes; and when moreover the
    configuration has a system prompt, the user state is a mapping and
    the calls can be answered, the run is still going after any number of
    turns. *)
Theorem insistent_model_keeps_the_loop_going d sched h kwargs C :
  start_conversation d h kwargs = Some C →
  is_function_calling_model (conv_llm C) = true →
  history_allocated h kwargs →
  (∀ ts input,
     get_tool_calls_from_response (conv_llm C) (achat_with_tools (conv_llm C) ts input)
       ≠ []) →
  (∀ fuel result w', run d sched fuel h kwargs ≠ (Finished result, w')) ∧
  (model_input (conv_config C) (conv_user_state C) [] ≠ None →
   (∀ ts input tool_call,
      tool_call ∈ get_tool_calls_from_response (conv_llm C)
                    (achat_with_tools (conv_llm C) ts input) →
      tool_call_error (conv_tools C) tool_call = None) →
   ∀ fuel, (run d sched fuel h kwargs).1 = OutOfFuel).
Proof.
  intros HC Hfc Halloc Hinsist.
  assert (∀ fuel result w', run d sched fuel h kwargs ≠ (Finished result, w')) as Hnever.
  { intros fuel result w' Hrun.
    destruct (run_finished d sched fuel h kwargs result w' Halloc Hrun)
      as (C' & HC' & _ & mid & resp & _ & Hresp & Htc & _).
    assert (C' = C) as -> by congruence.
    unfold model_response in Hresp.
    destruct (model_input (conv_config C) (conv_user_state C) (conv_base C ++ mid))
      as [[ts input]|]; simpl in Hresp; [|done].
    injection Hresp as <-. by apply (Hinsist ts input). }
  split; [done|]. intros Hin Htools fuel.
  destruct (run_finished_or_going d sched h kwargs C HC Hfc Halloc Hin Htools fuel)
    as [[result Hres]|Hgo]; [|done].
  destruct (run d sched fuel h kwargs) as [out w'] eqn:Hrun. simpl in Hres. subst out.
  by apply Hnever in Hrun.
Qed.

Lemma insistent_model_keeps_the_loop_going_witness :
  (run Notebook.refusing Notebook.fifo 40 Notebook.caller_heap
     (Notebook.kwargs Notebook.agent_config Scenarios.insistent "What is 10 + 10?")).1
    = OutOfFuel.
Proof.
  refine (proj2 (insistent_model_keeps_the_loop_going Notebook.refusing Notebook.fifo
                   Notebook.caller_heap
                   (Notebook.kwargs Notebook.agent_config Scenarios.insistent
                      "What is 10 + 10?")
                   (mkConversation Scenarios.insistent
                      (Some Notebook.agent_config) (Some Notebook.user_state)
                      Notebook.history
                      [Notebook.earlier; mkChatMessage USER (Some "What is 10 + 10?") []]
                      Notebook.caller_heap)
                   eq_refl eq_refl _ _) _ _ 40).
  - intros l Hl. injection Hl as <-. by eexists.
  - discriminate.
  - discriminate.
  - simpl. intros _ _ tool_call Hin. by apply list_elem_of_singleton in Hin as ->.
Defined.

(** X5: when the model's answer to the first call has no tool call, a run
    that gets past [setup] finishes at its second turn, whatever the
    scheduler: the model was called once, with the system message, the
    caller's messages and the user message; its message is appended after
    the user message; no tool was called, no progress event emitted, and
    the response of the result is the content of the model's message. *)
Theorem direct_answer_finishes_in_two_turns d sched fuel h kwargs C ts input :
  start_conversation d h kwargs = Some C →
  is_function_calling_model (conv_llm C) = true →
  history_allocated h kwargs →
  model_input (conv_config C) (conv_user_state C) (conv_base C) = Some (ts, input) →
  get_tool_calls_from_response (conv_llm C) (achat_with_tools (conv_llm C) ts input) = [] →
  run d sched (S (S fuel)) h kwargs
    = (Finished (mkRunResult (content (message (achat_with_tools (conv_llm C) ts input)))
                   (conv_loc C)),
       mkWorld
         (<[conv_loc C :=
              conv_base C ++ [message (achat_with_tools (conv_llm C) ts input)]]> h)
         (mkContext (Some (conv_config C)) (Some (conv_llm C)) (Some (conv_loc C))
            (Some (conv_user_state C)) None [] [] [])
         [input]).
Proof.
  intros HC Hfc Halloc Hin Htc.
  rewrite (run_first_turn d sched (S fuel) h kwargs C HC Hfc Halloc).
  simpl. rewrite pick_singleton.
  unfold mbind, M_bind, set_queue, modify_ctx; simpl.
  erewrite speak_with_agent_stop; [|done|apply lookup_insert_eq|done].
  simpl. by rewrite insert_insert_eq.
Qed.

Lemma direct_answer_finishes_in_two_turns_witness :
  run Notebook.refusing Notebook.lifo 2 Notebook.caller_heap
      (Notebook.kwargs Notebook.agent_config Notebook.refusing
         "What is the capital of Canada?")
    = (Finished (mkRunResult (Some "I can only help with adding two numbers.")
                   Notebook.history),
       mkWorld
         (<[Notebook.history :=
              [Notebook.earlier;
               mkChatMessage USER (Some "What is the capital of Canada?") []]
                ++ [mkChatMessage ASSISTANT
                      (Some "I can only help with adding two numbers.") []]]>
            Notebook.caller_heap)
         (mkContext (Some (Some Notebook.agent_config)) (Some Notebook.refusing)
            (Some Notebook.history) (Some (Some Notebook.user_state)) None [] [] [])
         [[mkChatMessage SYSTEM
             (Some (system_message_content
                      "You are an agent that adds two numbers together. Do not help the user with anything else."
                      Notebook.user_state)) [];
           Notebook.earlier;
           mkChatMessage USER (Some "What is the capital of Canada?") []]]).
Proof.
  apply (direct_answer_finishes_in_two_turns Notebook.refusing Notebook.lifo 0
           Notebook.caller_heap
           (Notebook.kwargs Notebook.agent_config Notebook.refusing
              "What is the capital of Canada?")
           (mkConversation Notebook.refusing
              (Some Notebook.agent_config) (Some Notebook.user_state) Notebook.history
              [Notebook.earlier;
               mkChatMessage USER (Some "What is the capital of Canada?") []]
              Notebook.caller_heap)
           (Some [Notebook.add_two_numbers_tool])).
  - reflexivity.
  - reflexivity.
  - intros l Hl. injection Hl as <-. by eexists.
  - reflexivity.
  - reflexivity.
Defined.

(** X6: the join barrier cannot leave a run without work: a run is never
    found with nothing to handle, and one stopped for lack of fuel always
    has a pending event. *)
Theorem run_always_has_a_pending_event d sched fuel h kwargs :
  history_allocated h kwargs →
  (run d sched fuel h kwargs).1 ≠ Stalled ∧
  ((run d sched fuel h kwargs).1 = OutOfFuel →
   queue (ctx (run d sched fuel h kwargs).2) ≠ []).
Proof.
  intros Halloc. destruct fuel as [|fuel]; [done|].
  destruct (run_log d sched fuel h kwargs Halloc)
    as [(e & _ & ->)|(C & HC & Hfc & Hout)]; [done|].
  destruct (run d sched (S fuel) h kwargs) as [[result|e| |] w']; simpl in *; try done.
  split; [done|]. intros _.
  destruct Hout as [(mid & calls & _ & _ & _ & -> & _)
                   |(mid & calls & ts & input & _ & _ & _ & _ & _ & _ & Hne & _)]; done.
Qed.

Lemma run_always_has_a_pending_event_witness :
  (run Notebook.refusing Notebook.lifo 3 Notebook.caller_heap
     (Notebook.kwargs Notebook.agent_config Scenarios.insistent "What is 10 + 10?")).1
    ≠ Stalled ∧
  ((run Notebook.refusing Notebook.lifo 3 Notebook.caller_heap
      (Notebook.kwargs Notebook.agent_config Scenarios.insistent "What is 10 + 10?")).1
     = OutOfFuel →
   queue (ctx (run Notebook.refusing Notebook.lifo 3 Notebook.caller_heap
                 (Notebook.kwargs Notebook.agent_config Scenarios.insistent
                    "What is 10 + 10?")).2) ≠ []).
Proof.
  apply (run_always_has_a_pending_event Notebook.refusing Notebook.lifo 3
           Notebook.caller_heap
           (Notebook.kwargs Notebook.agent_config Scenarios.insistent "What is 10 + 10?")).
  intros l Hl. injection Hl as <-. by eexists.
Defined.

Lemma setup_heap_frame d kwargs w k xs :
  heap w !! k = Some xs →
  ev_chat_history kwargs ≠ Given (Some k) →
  heap (setup d kwargs w).2 !! k = Some xs.
Proof.
  intros Hk Hne. unfold setup. unfold_m. destruct w as [h cx calls]. simpl in *.
  assert (<[fresh (dom h) := []]> h !! k = Some xs) as Hfresh.
  { rewrite lookup_insert_ne; [done|].
    intros <-. apply (is_fresh (dom h)). apply elem_of_dom. by eexists. }
  assert (fresh (dom h) ≠ k) as Hfk.
  { intros <-. apply (is_fresh (dom h)). apply elem_of_dom. by eexists. }
  destruct (ev_get (ev_user_msg kwargs) None) as [user_msg|];
    (destruct (ev_get (ev_llm kwargs) (Some d)) as [m|];
       [destruct (is_function_calling_model m) eqn:Hfc|]);
    destruct (ev_chat_history kwargs) as [|[l|]]; simpl; try done.
  - by rewrite lookup_alter_ne.
  - rewrite lookup_alter_ne; [done|]. intros ->. by destruct Hne.
Qed.

(** X7: a run touches no list of the caller but the chat history: every
    other list of the caller's heap has, after the run and whatever its
    outcome, the elements it had. *)
Theorem run_touches_only_the_chat_history d sched fuel h kwargs k xs :
  history_allocated h kwargs →
  h !! k = Some xs →
  ev_chat_history kwargs ≠ Given (Some k) →
  heap (run d sched fuel h kwargs).2 !! k = Some xs.
Proof.
  intros Halloc Hk Hne. destruct fuel as [|fuel]; [done|].
  destruct (run_log d sched fuel h kwargs Halloc)
    as [(e & _ & ->)|(C & HC & Hfc & Hout)].
  - simpl. by apply setup_heap_frame.
  - apply start_conversation_Some in HC as (u & _ & _ & _ & _ & Hheap & Hloc).
    assert (conv_loc C ≠ k) as Hlk.
    { destruct Hloc as [(_ & -> & _)|(Hg & _)].
      - intros <-. apply (is_fresh (dom h)). apply elem_of_dom. by eexists.
      - intros <-. by destruct Hne. }
    assert (∀ ys, <[conv_loc C := ys]> (conv_heap C) !! k = Some xs) as Hins.
    { intros ys. by rewrite lookup_insert_ne, Hheap. }
    destruct (run d sched (S fuel) h kwargs) as [[result|e| |] w']; simpl in *.
    + destruct Hout as (mid & calls & ts & input & _ & _ & _ & -> & _). apply Hins.
    + destruct Hout as (mid & calls & _ & [(_ & _ & -> & _)|(? & ? & ? & _ & _ & _ & -> & _)]);
        apply Hins.
    + done.
    + destruct Hout as [(mid & calls & _ & _ & -> & _)
                       |(mid & calls & ts & input & _ & _ & _ & -> & _)]; apply Hins.
Qed.

Lemma run_touches_only_the_chat_history_witness :
  heap (run Notebook.refusing Notebook.fifo 10 Notebook.caller_heap
          (Scenarios.kwargs_without_history (Notebook.asking_for "add_two_numbers")
             "What is 10 + 10?")).2 !! Notebook.history
    = Some [Notebook.earlier].
Proof.
  apply (run_touches_only_the_chat_history Notebook.refusing Notebook.fifo 10
           Notebook.caller_heap
           (Scenarios.kwargs_without_history (Notebook.asking_for "add_two_numbers")
              "What is 10 + 10?")
           Notebook.history [Notebook.earlier]).
  - intros l Hl. discriminate Hl.
  - reflexivity.
  - discriminate.
Defined.

(** X16: a run started without [chat_history] works on a list of its own:
    the list of the result is not one of the caller's heap, and it starts
    with the user message. *)
Theorem run_without_history_returns_a_new_list d sched fuel h kwargs result w' :
  ev_chat_history kwargs = Omitted →
  run d sched fuel h kwargs = (Finished result, w') →
  h !! chat_history result = None ∧
  ∃ user_msg rest,
    ev_get (ev_user_msg kwargs) None = Some user_msg ∧
    heap w' !! chat_history result
      = Some (mkChatMessage USER (Some user_msg) [] :: rest).
Proof.
  intros Homit Hrun.
  assert (history_allocated h kwargs) as Halloc
    by (intros l Hl; congruence).
  destruct (run_finished d sched fuel h kwargs result w' Halloc Hrun)
    as (C & HC & _ & mid & resp & _ & _ & _ & Hheap & ->).
  apply start_conversation_Some in HC as (u & Hu & _ & _ & _ & _ & Hloc).
  destruct Hloc as [(_ & Hl & Hbase)|(Hg & _)]; [|congruence].
  simpl. split.
  - rewrite Hl. apply not_elem_of_dom, is_fresh.
  - exists u, (mid ++ [message resp]). split; [done|].
    by rewrite Hheap, lookup_insert_eq, Hbase.
Qed.

Lemma run_without_history_returns_a_new_list_witness :
  Notebook.caller_heap !! 2%positive = None ∧
  ∃ user_msg rest,
    ev_get (Given (Some "What is 10 + 10?")) None = Some user_msg ∧
    heap (run Notebook.refusing Notebook.fifo 10 Notebook.caller_heap
            (Scenarios.kwargs_without_history (Notebook.asking_for "add_two_numbers")
               "What is 10 + 10?")).2 !! 2%positive
      = Some (mkChatMessage USER (Some user_msg) [] :: rest).
Proof.
  apply (run_without_history_returns_a_new_list Notebook.refusing Notebook.fifo 10
           Notebook.caller_heap
           (Scenarios.kwargs_without_history (Notebook.asking_for "add_two_numbers")
              "What is 10 + 10?")
           (mkRunResult (Some "10 + 10 is 20.") 2%positive)).
  - reflexivity.
  - vm_compute. reflexivity.
Defined.

Lemma speak_with_agent_no_config h llm l us n buf q st calls :
  speak_with_agent
      (mkWorld h (mkContext (Some None) (Some llm) (Some l) (Some us) n buf q st) calls)
    = (Raise (mkExn AttributeError
                ("'NoneType' object has no attribute '"
                   +:+ (if us is Some _ then "system_prompt" else "items") +:+ "'")),
       mkWorld h (mkContext (Some None) (Some llm) (Some l) (Some us) n buf q st) calls).
Proof. by destruct us. Qed.

(** X14: [setup] does not check the agent configuration.  A run started
    without one (or with [None]) gets past [setup], appends the user
    message to the chat history, and is then aborted by the model-call
    stage, before any model call, with the [AttributeError] of reading
    [system_prompt] on [None] (of reading [items] on [None] when the user
    state is [None] too). *)
Theorem missing_agent_config_aborts_at_model_call d sched fuel h kwargs C :
  start_conversation d h kwargs = Some C →
  is_function_calling_model (conv_llm C) = true →
  history_allocated h kwargs →
  conv_config C = None →
  run d sched (S (S fuel)) h kwargs
    = (Aborted (mkExn AttributeError
                  ("'NoneType' object has no attribute '"
                     +:+ (if conv_user_state C is Some _ then "system_prompt" else "items")
                     +:+ "'")),
       mkWorld (<[conv_loc C := conv_base C]> h)
         (mkContext (Some None) (Some (conv_llm C)) (Some (conv_loc C))
            (Some (conv_user_state C)) None [] [] [])
         []).
Proof.
  intros HC Hfc Halloc Hcfg.
  rewrite (run_first_turn d sched (S fuel) h kwargs C HC Hfc Halloc).
  simpl. rewrite pick_singleton, Hcfg.
  unfold mbind, M_bind, set_queue, modify_ctx; simpl.
  by rewrite speak_with_agent_no_config.
Qed.

Lemma missing_agent_config_aborts_at_model_call_witness :
  run Notebook.refusing Notebook.fifo 2 Notebook.caller_heap
      (Scenarios.kwargs_without_config Notebook.refusing "What is 10 + 10?")
    = (Aborted (mkExn AttributeError
                  ("'NoneType' object has no attribute '" +:+ "system_prompt" +:+ "'")),
       mkWorld
         (<[Notebook.history :=
              [Notebook.earlier; mkChatMessage USER (Some "What is 10 + 10?") []]]>
            Notebook.caller_heap)
         (mkContext (Some None) (Some Notebook.refusing) (Some Notebook.history)
            (Some (Some Notebook.user_state)) None [] [] [])
         []).
Proof.
  apply (missing_agent_config_aborts_at_model_call Notebook.refusing Notebook.fifo 0
           Notebook.caller_heap
           (Scenarios.kwargs_without_config Notebook.refusing "What is 10 + 10?")
           (mkConversation Notebook.refusing None (Some Notebook.user_state)
              Notebook.history
              [Notebook.earlier; mkChatMessage USER (Some "What is 10 + 10?") []]
              Notebook.caller_heap)).
  - reflexivity.
  - reflexivity.
  - intros l Hl. injection Hl as <-. by eexists.
  - reflexivity.
Defined.

(** X17: a finished run has emitted exactly one progress event for each
    tool message it appended to the chat history: with the stream empty at
    the start, the events are as many as the messages of the tool rounds
    less one (the model's message) for each round. *)
Theorem finished_run_emits_one_progress_event_per_tool_message
    d sched fuel h kwargs result w' :
  history_allocated h kwargs →
  run d sched fuel h kwargs = (Finished result, w') →
  ∃ C mid calls final,
    start_conversation d h kwargs = Some C ∧
    exchanges C mid calls ∧
    heap w' !! chat_history result = Some (conv_base C ++ mid ++ [final]) ∧
    length (stream (ctx w')) + length calls = length mid ∧
    length (llm_calls w') = length calls + 1.
Proof.
  intros Halloc Hrun. destruct fuel as [|fuel]; [done|].
  destruct (run_log d sched fuel h kwargs Halloc)
    as [(e & _ & Hab)|(C & HC & Hfc & Hout)]; [congruence|].
  rewrite Hrun in Hout. simpl in Hout.
  destruct Hout as (mid & calls & ts & input & Hex & Hin & Htc & Hheap & Hcalls & Hst & ->).
  exists C, mid, calls, (message (achat_with_tools (conv_llm C) ts input)).
  simpl. rewrite Hheap, lookup_insert_eq, Hcalls, length_app. simpl.
  by split_and!.
Qed.

Lemma finished_run_emits_one_progress_event_per_tool_message_witness :
  ∃ C mid calls final,
    start_conversation Notebook.refusing Notebook.caller_heap
      (Notebook.kwargs Notebook.agent_config (Notebook.asking_for "add_two_numbers")
         "What is 10 + 10?") = Some C ∧
    exchanges C mid calls ∧
    heap (run Notebook.refusing Notebook.fifo 10 Notebook.caller_heap
            (Notebook.kwargs Notebook.agent_config
               (Notebook.asking_for "add_two_numbers") "What is 10 + 10?")).2
      !! Notebook.history = Some (conv_base C ++ mid ++ [final]) ∧
    length (stream (ctx (run Notebook.refusing Notebook.fifo 10 Notebook.caller_heap
                           (Notebook.kwargs Notebook.agent_config
                              (Notebook.asking_for "add_two_numbers")
                              "What is 10 + 10?")).2))
      + length calls = length mid ∧
    length (llm_calls (run Notebook.refusing Notebook.fifo 10 Notebook.caller_heap
                         (Notebook.kwargs Notebook.agent_config
                            (Notebook.asking_for "add_two_numbers")
                            "What is 10 + 10?")).2)
      = length calls + 1.
Proof.
  apply (finished_run_emits_one_progress_event_per_tool_message Notebook.refusing
           Notebook.fifo 10 Notebook.caller_heap
           (Notebook.kwargs Notebook.agent_config (Notebook.asking_for "add_two_numbers")
              "What is 10 + 10?")
           (mkRunResult (Some "10 + 10 is 20.") Notebook.history)).
  - intros l Hl. injection Hl as <-. by eexists.
  - vm_compute. reflexivity.
Defined.

Lemma model_input_Some ac us hist ts input :
  model_input ac us hist = Some (ts, input) →
  ∃ cfg prompt items,
    ac = Some cfg ∧ system_prompt cfg = Some prompt ∧ us = Some items ∧
    ts = tools cfg ∧
    input = mkChatMessage SYSTEM (Some (system_message_content prompt items)) [] :: hist.
Proof.
  unfold model_input. destruct us as [items|]; simpl; [|done].
  destruct ac as [cfg|]; simpl; [|done].
  destruct (system_prompt cfg) as [prompt|] eqn:Hp; simpl; [|done].
  intros [= <- <-]. by exists cfg, prompt, items.
Qed.

Lemma exchanges_calls C mid calls :
  exchanges C mid calls →
  Forall (λ input, ∃ earlier_rounds,
            model_input (conv_config C) (conv_user_state C) (conv_base C ++ earlier_rounds)
              = Some (conv_tools C, input)) calls.
Proof.
  induction 1 as [|mid calls ts input results _ IH Hin Htc Hperm]; [constructor|].
  apply Forall_app. split; [done|]. apply Forall_singleton. exists mid.
  by rewrite <-(model_input_conv_tools C _ _ _ Hin).
Qed.

(** X18: within a run the configuration and the user state are read, not
    written: every model call of a finished run was offered the tool list
    of the configuration and was sent, as first message, the same system
    message, built from the configuration's prompt and the user state the
    run was started with; after it come the caller's messages, the user
    message and the messages appended so far. *)
Theorem every_model_call_gets_the_same_system_message
    d sched fuel h kwargs result w' :
  history_allocated h kwargs →
  run d sched fuel h kwargs = (Finished result, w') →
  ∃ C cfg prompt items,
    start_conversation d h kwargs = Some C ∧
    ev_get (ev_agent_config kwargs) None = Some cfg ∧
    system_prompt cfg = Some prompt ∧
    ev_get (ev_initial_state kwargs) (Some []) = Some items ∧
    Forall (λ input, ∃ appended,
              input = mkChatMessage SYSTEM (Some (system_message_content prompt items)) []
                        :: conv_base C ++ appended)
      (llm_calls w').
Proof.
  intros Halloc Hrun. destruct fuel as [|fuel]; [done|].
  destruct (run_log d sched fuel h kwargs Halloc)
    as [(e & _ & Hab)|(C & HC & Hfc & Hout)]; [congruence|].
  rewrite Hrun in Hout. simpl in Hout.
  destruct Hout as (mid & calls & ts & input & Hex & Hin & Htc & Hheap & Hcalls & _ & ->).
  destruct (model_input_Some _ _ _ _ _ Hin) as (cfg & prompt & items & Hcfg & Hp & Hus & _ & ->).
  destruct (start_conversation_Some _ _ _ _ HC) as (u & _ & _ & Hc & Hu & _).
  exists C, cfg, prompt, items. split_and!; try congruence.
  rewrite Hcalls. simpl. apply Forall_app. split.
  - apply exchanges_calls in Hex. eapply Forall_impl; [done|]. simpl.
    intros inp (earlier_rounds & Hinp).
    destruct (model_input_Some _ _ _ _ _ Hinp) as (cfg' & prompt' & items' & ? & ? & ? & _ & ->).
    exists earlier_rounds. repeat f_equal; congruence.
  - apply Forall_singleton. by exists mid.
Qed.

Lemma every_model_call_gets_the_same_system_message_witness :
  ∃ C cfg prompt items,
    start_conversation Notebook.refusing Notebook.caller_heap
      (Notebook.kwargs Notebook.agent_config (Notebook.asking_for "add_two_numbers")
         "What is 10 + 10?") = Some C ∧
    ev_get (Given (Some Notebook.agent_config)) None = Some cfg ∧
    system_prompt cfg = Some prompt ∧
    ev_get (Given (Some Notebook.user_state)) (Some []) = Some items ∧
    Forall (λ input, ∃ appended,
              input = mkChatMessage SYSTEM (Some (system_message_content prompt items)) []
                        :: conv_base C ++ appended)
      (llm_calls (run Notebook.refusing Notebook.fifo 10 Notebook.caller_heap
                    (Notebook.kwargs Notebook.agent_config
                       (Notebook.asking_for "add_two_numbers") "What is 10 + 10?")).2).
Proof.
  apply (every_model_call_gets_the_same_system_message Notebook.refusing Notebook.fifo 10
           Notebook.caller_heap
           (Notebook.kwargs Notebook.agent_config (Notebook.asking_for "add_two_numbers")
              "What is 10 + 10?")
           (mkRunResult (Some "10 + 10 is 20.") Notebook.history)).
  - intros l Hl. injection Hl as <-. by eexists.
  - vm_compute. reflexivity.
Defined.

(** X19: runs compose on the chat history.  When the list a finished run
    returned is passed as chat history to a second run that finishes, the
    second result is that same list.  The first run left in it the
    messages it had before, the first user message, the rounds of the
    first run and the message of the model's final answer, whose content
    is the first response.  The second run started from exactly these
    messages: it appended the second user message, its own rounds, in
    which the model was sent all that came before, and the message of its
    final answer, whose content is the second response. *)
Theorem second_run_continues_the_history
    d sched fuel1 fuel2 h kwargs1 kwargs2 result1 w1 result2 w2 :
  history_allocated h kwargs1 →
  run d sched fuel1 h kwargs1 = (Finished result1, w1) →
  ev_chat_history kwargs2 = Given (Some (chat_history result1)) →
  run d sched fuel2 (heap w1) kwargs2 = (Finished result2, w2) →
  chat_history result2 = chat_history result1 ∧
  ∃ C1 C2 user_msg1 user_msg2 mid1 resp1 mid2 resp2,
    start_conversation d h kwargs1 = Some C1 ∧
    start_conversation d (heap w1) kwargs2 = Some C2 ∧
    ev_get (ev_user_msg kwargs1) None = Some user_msg1 ∧
    ev_get (ev_user_msg kwargs2) None = Some user_msg2 ∧
    transcript C1 mid1 ∧
    model_response (conv_llm C1) (conv_config C1) (conv_user_state C1)
      (conv_base C1 ++ mid1) = Some resp1 ∧
    get_tool_calls_from_response (conv_llm C1) resp1 = [] ∧
    response result1 = content (message resp1) ∧
    heap w1 !! chat_history result1
      = Some (default [] (h !! chat_history result1)
                ++ [mkChatMessage USER (Some user_msg1) []] ++ mid1 ++ [message resp1]) ∧
    conv_base C2
      = default [] (h !! chat_history result1)
          ++ [mkChatMessage USER (Some user_msg1) []] ++ mid1 ++ [message resp1]
          ++ [mkChatMessage USER (Some user_msg2) []] ∧
    transcript C2 mid2 ∧
    model_response (conv_llm C2) (conv_config C2) (conv_user_state C2)
      (conv_base C2 ++ mid2) = Some resp2 ∧
    get_tool_calls_from_response (conv_llm C2) resp2 = [] ∧
    response result2 = content (message resp2) ∧
    heap w2 !! chat_history result2
      = Some (default [] (h !! chat_history result1)
                ++ [mkChatMessage USER (Some user_msg1) []] ++ mid1 ++ [message resp1]
                ++ [mkChatMessage USER (Some user_msg2) []] ++ mid2 ++ [message resp2]).
Proof.
  intros Halloc1 Hrun1 Hhist Hrun2.
  destruct (run_finished d sched fuel1 h kwargs1 result1 w1 Halloc1 Hrun1)
    as (C1 & HC1 & _ & mid1 & resp1 & Htr1 & Hresp1 & Htc1 & Hheap1 & ->).
  destruct (start_conversation_Some _ _ _ _ HC1) as (u1 & Hu1 & _).
  simpl in *.
  assert (heap w1 !! conv_loc C1
            = Some (default [] (h !! conv_loc C1)
                      ++ [mkChatMessage USER (Some u1) []] ++ mid1 ++ [message resp1]))
    as Hl1.
  { rewrite Hheap1, lookup_insert_eq, (conv_base_before d h kwargs1 C1 u1) by done.
    by rewrite <-!app_assoc. }
  assert (history_allocated (heap w1) kwargs2) as Halloc2.
  { intros l Hl. rewrite Hhist in Hl. injection Hl as <-. by eexists. }
  destruct (run_finished d sched fuel2 (heap w1) kwargs2 result2 w2 Halloc2 Hrun2)
    as (C2 & HC2 & _ & mid2 & resp2 & Htr2 & Hresp2 & Htc2 & Hheap2 & ->).
  destruct (start_conversation_Some _ _ _ _ HC2) as (u2 & Hu2 & _ & _ & _ & _ & Hloc2).
  destruct Hloc2 as [(Ho & _)|(Hg & Hbase2)]; [congruence|].
  assert (conv_loc C2 = conv_loc C1) as Heq by congruence.
  rewrite Heq, Hl1 in Hbase2. simpl in Hbase2.
  simpl. split; [done|].
  exists C1, C2, u1, u2, mid1, resp1, mid2, resp2.
  split_and!; try done.
  - by rewrite Hbase2, <-!app_assoc, <-app_comm_cons, <-?app_assoc.
  - by rewrite Hheap2, lookup_insert_eq, Hbase2, <-!app_assoc, <-app_comm_cons,
      <-?app_assoc.
Qed.

Lemma second_run_continues_the_history_witness :
  Notebook.history = Notebook.history ∧
  ∃ C1 C2 user_msg1 user_msg2 mid1 resp1 mid2 resp2,
    start_conversation Notebook.refusing Notebook.caller_heap
      (Notebook.kwargs Notebook.agent_config (Notebook.asking_for "add_two_numbers")
         "What is 10 + 10?") = Some C1 ∧
    start_conversation Notebook.refusing
      (heap (run Notebook.refusing Notebook.fifo 10 Notebook.caller_heap
               (Notebook.kwargs Notebook.agent_config
                  (Notebook.asking_for "add_two_numbers") "What is 10 + 10?")).2)
      (Notebook.kwargs Notebook.agent_config Notebook.refusing
         "What is the capital of Canada?") = Some C2 ∧
    ev_get (Given (Some "What is 10 + 10?")) None = Some user_msg1 ∧
    ev_get (Given (Some "What is the capital of Canada?")) None = Some user_msg2 ∧
    transcript C1 mid1 ∧
    model_response (conv_llm C1) (conv_config C1) (conv_user_state C1)
      (conv_base C1 ++ mid1) = Some resp1 ∧
    get_tool_calls_from_response (conv_llm C1) resp1 = [] ∧
    Some "10 + 10 is 20." = content (message resp1) ∧
    heap (run Notebook.refusing Notebook.fifo 10 Notebook.caller_heap
            (Notebook.kwargs Notebook.agent_config
               (Notebook.asking_for "add_two_numbers") "What is 10 + 10?")).2
      !! Notebook.history
      = Some (default [] (Notebook.caller_heap !! Notebook.history)
                ++ [mkChatMessage USER (Some user_msg1) []] ++ mid1 ++ [message resp1]) ∧
    conv_base C2
      = default [] (Notebook.caller_heap !! Notebook.history)
          ++ [mkChatMessage USER (Some user_msg1) []] ++ mid1 ++ [message resp1]
          ++ [mkChatMessage USER (Some user_msg2) []] ∧
    transcript C2 mid2 ∧
    model_response (conv_llm C2) (conv_config C2) (conv_user_state C2)
      (conv_base C2 ++ mid2) = Some resp2 ∧
    get_tool_calls_from_response (conv_llm C2) resp2 = [] ∧
    Some "I can only help with adding two numbers." = content (message resp2) ∧
    heap (run Notebook.refusing Notebook.fifo 10
            (heap (run Notebook.refusing Notebook.fifo 10 Notebook.caller_heap
                     (Notebook.kwargs Notebook.agent_config
                        (Notebook.asking_for "add_two_numbers") "What is 10 + 10?")).2)
            (Notebook.kwargs Notebook.agent_config Notebook.refusing
               "What is the capital of Canada?")).2 !! Notebook.history
      = Some (default [] (Notebook.caller_heap !! Notebook.history)
                ++ [mkChatMessage USER (Some user_msg1) []] ++ mid1 ++ [message resp1]
                ++ [mkChatMessage USER (Some user_msg2) []] ++ mid2 ++ [message resp2]).
Proof.
  apply (second_run_continues_the_history Notebook.refusing Notebook.fifo 10 10
           Notebook.caller_heap
           (Notebook.kwargs Notebook.agent_config (Notebook.asking_for "add_two_numbers")
              "What is 10 + 10?")
           (Notebook.kwargs Notebook.agent_config Notebook.refusing
              "What is the capital of Canada?")
           (mkRunResult (Some "10 + 10 is 20.") Notebook.history)
           (run Notebook.refusing Notebook.fifo 10 Notebook.caller_heap
              (Notebook.kwargs Notebook.agent_config
                 (Notebook.asking_for "add_two_numbers") "What is 10 + 10?")).2
           (mkRunResult (Some "I can only help with adding two numbers.")
              Notebook.history)).
  - intros l Hl. injection Hl as <-. by eexists.
  - vm_compute. reflexivity.
  - reflexivity.
  - vm_compute. reflexivity.
Defined.
